(** * Webhook-driven transfer ingestion of the BSC token tracker

    A shallow embedding of the ingestion pipeline of the tracker
    ([WebhookController], [BscTrackerService], [PriceService],
    [GateioService], [TelegramService.sendNotification]) together with the
    properties its specification states about it.

    The services are written in TypeScript over untyped JSON payloads
    ([body: any]).  The embedding therefore starts with a small model of the
    JavaScript values a parsed JSON payload can hold and of the handful of
    language operations the pipeline applies to them (truthiness, [||],
    member access, optional chaining, [===], [for .. of], [parseInt],
    [BigInt], string methods).  Effects are threaded through a state and
    exception monad over a [World] that holds the two repositories and the
    trace of every request sent to an external collaborator.  What the
    collaborators answer (price service, exchange, chat, store) is a
    parameter, [Env].  A call to the logger is kept where the line it
    writes interpolates a value of the payload: printing such a value can
    throw, and the statements after the line are then skipped. *)

From Stdlib Require Import ZArith List String Ascii Bool Floats Lia DecimalString.
Import ListNotations.
Open Scope string_scope.

(* ------------------------------------------------------------------ *)
(** * JavaScript values and the operations the services use            *)
(* ------------------------------------------------------------------ *)

Module Js.

Set Warnings "-register-all".

(** Values reachable from a parsed JSON body, plus [undefined] (the result
    of reading a missing property).  Numbers are IEEE binary64.  A string is
    a [String.string], one [ascii] per character.  An object is the list of
    its own properties in insertion order. *)
Inductive JsValue : Type :=
| JsUndefined
| JsNull
| JsBool (b : bool)
| JsNumber (x : float)
| JsString (s : string)
| JsArray (items : list JsValue)
| JsObject (fields : list (string * JsValue)).

(** Exceptions.  Every [catch] of the pipeline only logs [error.message],
    so the kind of the error is all the model keeps. *)
Inductive JsError : Type :=
| TypeError
| SyntaxError
| LibraryError      (* raised by ethers or by the ORM *)
| RequestError.     (* a rejected HTTP request *)

(** Result of evaluating an expression that may throw. *)
Inductive Res (A : Type) : Type :=
| Ok (a : A)
| Throw (e : JsError).
Arguments Ok {A} a.
Arguments Throw {A} e.

Definition resBind {A B} (r : Res A) (k : A -> Res B) : Res B :=
  match r with
  | Ok a => k a
  | Throw e => Throw e
  end.

(** ** Numbers *)

(** The Number nearest to an integer (round to nearest, ties to even). *)
Definition numberOfZ (z : Z) : float :=
  match z with
  | Z0 => PrimFloat.zero
  | _ => SF2Prim (binary_normalize prec emax z 0 false)
  end.

Definition numberOfNat (n : nat) : float := numberOfZ (Z.of_nat n).

(** ** Truthiness and the short-circuit operators *)

Definition truthy (v : JsValue) : bool :=
  match v with
  | JsUndefined | JsNull => false
  | JsBool b => b
  | JsNumber x => negb (PrimFloat.is_zero x || PrimFloat.is_nan x)
  | JsString EmptyString => false
  | JsString (String _ _) => true
  | JsArray _ | JsObject _ => true
  end.

(** [a || b] when both operands are already evaluated. *)
Definition jsOr (a b : JsValue) : JsValue := if truthy a then a else b.

(** [a || b] when evaluating an operand may throw: [b] is only looked at
    when [a] evaluated to a falsy value. *)
Definition orElse (a b : Res JsValue) : Res JsValue :=
  match a with
  | Ok v => if truthy v then Ok v else b
  | Throw e => Throw e
  end.

(** ** Strings *)

Definition isUpper (c : ascii) : bool :=
  let n := nat_of_ascii c in (65 <=? n)%nat && (n <=? 90)%nat.

Definition isLower (c : ascii) : bool :=
  let n := nat_of_ascii c in (97 <=? n)%nat && (n <=? 122)%nat.

Definition lowerChar (c : ascii) : ascii :=
  if isUpper c then ascii_of_nat (nat_of_ascii c + 32) else c.

Definition upperChar (c : ascii) : ascii :=
  if isLower c then ascii_of_nat (nat_of_ascii c - 32) else c.

Fixpoint mapString (f : ascii -> ascii) (s : string) : string :=
  match s with
  | EmptyString => EmptyString
  | String c r => String (f c) (mapString f r)
  end.

(** Case mapping of the letters A-Z and a-z, what [s.toLowerCase()] and
    [s.toUpperCase()] do on ASCII text. *)
Definition lowerCaseAscii (s : string) : string := mapString lowerChar s.
Definition upperCaseAscii (s : string) : string := mapString upperChar s.

(** [s.slice(-n)]: the last [n] characters, the whole string when it is
    shorter. *)
Definition sliceLast (n : nat) (s : string) : string :=
  substring (String.length s - n) n s.

(** [a.slice(-n)] on an array. *)
Definition sliceLastItems {A} (n : nat) (l : list A) : list A :=
  skipn (List.length l - n) l.

Fixpoint charsOf (s : string) : list JsValue :=
  match s with
  | EmptyString => []
  | String c r => JsString (String c EmptyString) :: charsOf r
  end.

(** ** Member access *)

Fixpoint lookup (k : string) (fs : list (string * JsValue)) : option JsValue :=
  match fs with
  | [] => None
  | (k', v) :: r => if String.eqb k k' then Some v else lookup k r
  end.

Definition digitOfChar (c : ascii) : option nat :=
  let n := nat_of_ascii c in
  if (48 <=? n)%nat && (n <=? 57)%nat then Some (n - 48)%nat else None.

Fixpoint digitsValue (acc : nat) (s : string) : option nat :=
  match s with
  | EmptyString => Some acc
  | String c r =>
      match digitOfChar c with
      | Some d => digitsValue (10 * acc + d) r
      | None => None
      end
  end.

(** A property key that is an array index: a canonical decimal numeral. *)
Definition indexOfKey (k : string) : option nat :=
  match k with
  | EmptyString => None
  | String "0" EmptyString => Some 0%nat
  | String "0" _ => None
  | _ => digitsValue 0 k
  end.

(** [v[k]] for a [v] that is neither [null] nor [undefined].  None of the
    property names the services read is defined on a built-in prototype, so
    only own properties, [length] and indices matter. *)
Definition member (v : JsValue) (k : string) : JsValue :=
  match v with
  | JsObject fs =>
      match lookup k fs with
      | Some x => x
      | None => JsUndefined
      end
  | JsArray l =>
      if String.eqb k "length" then JsNumber (numberOfNat (List.length l))
      else match indexOfKey k with
           | Some i => nth i l JsUndefined
           | None => JsUndefined
           end
  | JsString s =>
      if String.eqb k "length" then JsNumber (numberOfNat (String.length s))
      else match indexOfKey k with
           | Some i => nth i (charsOf s) JsUndefined
           | None => JsUndefined
           end
  | _ => JsUndefined
  end.

Definition nullish (v : JsValue) : bool :=
  match v with
  | JsUndefined | JsNull => true
  | _ => false
  end.

(** [v.k]: a TypeError on [null] and [undefined]. *)
Definition get (v : JsValue) (k : string) : Res JsValue :=
  if nullish v then Throw TypeError else Ok (member v k).

(** [v?.k]. *)
Definition optGet (v : JsValue) (k : string) : JsValue :=
  if nullish v then JsUndefined else member v k.

Fixpoint setField (k : string) (x : JsValue) (fs : list (string * JsValue))
  : list (string * JsValue) :=
  match fs with
  | [] => [(k, x)]
  | (k', v) :: r =>
      if String.eqb k k' then (k, x) :: r else (k', v) :: setField k x r
  end.

(** [v.k = x] in strict mode: a TypeError on [null], [undefined] and on a
    primitive.  An array accepts the property; the model does not keep the
    named properties of an array, no reader of the pipeline looks at them. *)
Definition setProp (v : JsValue) (k : string) (x : JsValue) : Res JsValue :=
  match v with
  | JsObject fs => Ok (JsObject (setField k x fs))
  | JsArray l => Ok (JsArray l)
  | _ => Throw TypeError
  end.

(** ** Equality and iteration *)

(** [a === b] where one side is a primitive literal (an object is only
    identical to itself, never to a literal). *)
Definition strictEq (a b : JsValue) : bool :=
  match a, b with
  | JsUndefined, JsUndefined => true
  | JsNull, JsNull => true
  | JsBool x, JsBool y => Bool.eqb x y
  | JsNumber x, JsNumber y => PrimFloat.eqb x y
  | JsString x, JsString y => String.eqb x y
  | _, _ => false
  end.

(** The values [for (const x of v)] runs over: a TypeError when [v] is not
    iterable. *)
Definition iterate (v : JsValue) : Res (list JsValue) :=
  match v with
  | JsArray l => Ok l
  | JsString s => Ok (charsOf s)
  | _ => Throw TypeError
  end.

(** [v.slice(-n)] on a value that is not nullish: strings and arrays have
    the method. *)
Definition callSliceLast (n : nat) (v : JsValue) : Res JsValue :=
  match v with
  | JsString s => Ok (JsString (sliceLast n s))
  | JsArray l => Ok (JsArray (sliceLastItems n l))
  | _ => Throw TypeError
  end.

(** ** Parsing numerals *)

Definition isSpace (c : ascii) : bool :=
  let n := nat_of_ascii c in
  ((9 <=? n)%nat && (n <=? 13)%nat) || (n =? 32)%nat.

Fixpoint trimStart (s : string) : string :=
  match s with
  | EmptyString => EmptyString
  | String c r => if isSpace c then trimStart r else s
  end.

Fixpoint trimEnd (s : string) : string :=
  match s with
  | EmptyString => EmptyString
  | String c r =>
      match trimEnd r with
      | EmptyString => if isSpace c then EmptyString else String c EmptyString
      | r' => String c r'
      end
  end.

Definition digitValue (c : ascii) : option Z :=
  let n := Z.of_nat (nat_of_ascii c) in
  if (48 <=? n)%Z && (n <=? 57)%Z then Some (n - 48)%Z
  else if (97 <=? n)%Z && (n <=? 122)%Z then Some (n - 87)%Z
  else if (65 <=? n)%Z && (n <=? 90)%Z then Some (n - 55)%Z
  else None.

Definition digitIn (radix : Z) (c : ascii) : option Z :=
  match digitValue c with
  | Some d => if (d <? radix)%Z then Some d else None
  | None => None
  end.

(** Value of the longest prefix of [s] made of digits of the radix. *)
Fixpoint prefixDigits (radix acc : Z) (s : string) : Z :=
  match s with
  | EmptyString => acc
  | String c r =>
      match digitIn radix c with
      | Some d => prefixDigits radix (radix * acc + d) r
      | None => acc
      end
  end.

(** Value of [s] when every character is a digit of the radix. *)
Fixpoint allDigits (radix acc : Z) (s : string) : option Z :=
  match s with
  | EmptyString => Some acc
  | String c r =>
      match digitIn radix c with
      | Some d => allDigits radix (radix * acc + d) r
      | None => None
      end
  end.

Definition startsWithDigit (radix : Z) (s : string) : bool :=
  match s with
  | String c _ => match digitIn radix c with Some _ => true | None => false end
  | EmptyString => false
  end.

(** [parseInt(s)] without a radix argument: leading white space, a sign, an
    optional [0x] prefix, then the longest run of digits; [NaN] when there
    is none. *)
Definition parseInt (s : string) : float :=
  let s1 := trimStart s in
  let '(neg, s2) :=
    match s1 with
    | String "-" r => (true, r)
    | String "+" r => (false, r)
    | _ => (false, s1)
    end in
  let '(radix, s3) :=
    match s2 with
    | String "0" (String "x" r) => (16%Z, r)
    | String "0" (String "X" r) => (16%Z, r)
    | _ => (10%Z, s2)
    end in
  if startsWithDigit radix s3 then
    let x := numberOfZ (prefixDigits radix 0 s3) in
    if neg then PrimFloat.opp x else x
  else PrimFloat.nan.

Definition nonEmptyDigits (radix : Z) (s : string) : Res Z :=
  match s with
  | EmptyString => Throw SyntaxError
  | _ => match allDigits radix 0 s with
         | Some z => Ok z
         | None => Throw SyntaxError
         end
  end.

(** [BigInt(s)] on a string: white space trimmed on both sides, the empty
    string is [0n], then a [0x], [0o] or [0b] literal or a signed decimal
    one; anything else is a SyntaxError. *)
Definition stringToBigInt (s : string) : Res Z :=
  match trimEnd (trimStart s) with
  | EmptyString => Ok 0%Z
  | String "0" (String "x" r) | String "0" (String "X" r) => nonEmptyDigits 16 r
  | String "0" (String "o" r) | String "0" (String "O" r) => nonEmptyDigits 8 r
  | String "0" (String "b" r) | String "0" (String "B" r) => nonEmptyDigits 2 r
  | String "-" r => resBind (nonEmptyDigits 10 r) (fun z => Ok (- z)%Z)
  | String "+" r => nonEmptyDigits 10 r
  | t => nonEmptyDigits 10 t
  end.

(** ** Conversions that depend on the engine and on third-party libraries

    Printing and reading decimal fractions, the case mapping of strings
    (it follows the Unicode tables of the engine) and the [formatUnits]
    function of the ethers library are not code of this repository.  They
    are taken as parameters: every statement below holds for any
    implementation. *)
Record Runtime : Type := {
  (** [s.toLowerCase()] *)
  toLowerCase : string -> string;
  (** [s.toUpperCase()] *)
  toUpperCase : string -> string;
  (** [String(x)] on a Number *)
  NumberToString : float -> string;
  (** [Number(s)] on a String *)
  StringToNumber : string -> float;
  (** [parseFloat(s)] *)
  parseFloat : string -> float;
  (** [x.toFixed(digits)] *)
  toFixed : float -> nat -> string;
  (** [ethers.formatUnits(value, unit)]; it throws on a unit it rejects *)
  formatUnits : Z -> JsValue -> Res string
}.

Section Conversions.

Variable rt : Runtime.

(** [v.toLowerCase()] and [v.toUpperCase()] on a value that is not nullish:
    only a string has the method. *)
Definition callToLowerCase (v : JsValue) : Res string :=
  match v with
  | JsString s => Ok (toLowerCase rt s)
  | _ => Throw TypeError
  end.

Definition callToUpperCase (v : JsValue) : Res string :=
  match v with
  | JsString s => Ok (toUpperCase rt s)
  | _ => Throw TypeError
  end.

(** [String(v)], also what a template literal, [+] with a string and
    [v.toString()] on a value that is not nullish apply.  An array prints
    its elements separated by commas, [null] and [undefined] elements as the
    empty string.  An object prints through its [toString] property: a
    value parsed from JSON is never callable, so an object that has a
    property of that name of its own cannot be printed and the conversion
    throws a TypeError; every other object inherits the method that prints
    ["[object Object]"]. *)
Fixpoint ToString (v : JsValue) : Res string :=
  match v with
  | JsUndefined => Ok "undefined"
  | JsNull => Ok "null"
  | JsBool true => Ok "true"
  | JsBool false => Ok "false"
  | JsNumber x => Ok (NumberToString rt x)
  | JsString s => Ok s
  | JsArray l =>
      (fix join (l : list JsValue) : Res string :=
         match l with
         | [] => Ok ""
         | x :: r =>
             resBind (if nullish x then Ok "" else ToString x) (fun e =>
             match r with
             | [] => Ok e
             | _ => resBind (join r) (fun t => Ok (e ++ "," ++ t))
             end)
         end) l
  | JsObject fs =>
      match lookup "toString" fs with
      | Some _ => Throw TypeError
      | None => Ok "[object Object]"
      end
  end.

(** [`${v}`] in a log line: only the conversion matters, the text is used
    nowhere else. *)
Definition interpolate (v : JsValue) : Res unit :=
  resBind (ToString v) (fun _ => Ok tt).

(** [Number(v)], the conversion the arithmetic and relational operators
    apply to an operand.  An array or an object is printed first, so the
    conversion throws where [String(v)] does. *)
Definition ToNumber (v : JsValue) : Res float :=
  match v with
  | JsUndefined => Ok PrimFloat.nan
  | JsNull => Ok PrimFloat.zero
  | JsBool true => Ok PrimFloat.one
  | JsBool false => Ok PrimFloat.zero
  | JsNumber x => Ok x
  | JsString s => Ok (StringToNumber rt s)
  | JsArray _ | JsObject _ => resBind (ToString v) (fun s => Ok (StringToNumber rt s))
  end.

(** [v > 0]. *)
Definition gtZero (v : JsValue) : Res bool :=
  resBind (ToNumber v) (fun x => Ok (PrimFloat.ltb PrimFloat.zero x)).

(** [BigInt(v)] for a string, [BigInt(v.toString())] for anything else. *)
Definition toBigInt (v : JsValue) : Res Z := resBind (ToString v) stringToBigInt.

End Conversions.

End Js.

Import Js.

(* ------------------------------------------------------------------ *)
(** * Entities, the world and the effect monad                         *)
(* ------------------------------------------------------------------ *)

(** [wallet.entity]: a monitored address. *)
Module Wallet.
Record t : Type := {
  id : nat;
  address : string;
  chatId : Z;
  thresholdUsd : float;
  isActive : bool;
  streamId : option string
}.
End Wallet.

(** [transaction.entity]: a persisted transfer.  [id] is [0] until the
    first [save] assigns the generated key.  [tokenSymbol] and [blockNumber]
    hold whatever value the payload carried, as the entity object does. *)
Module Transaction.
Record t : Type := {
  id : nat;
  txHash : string;
  walletId : nat;
  tokenAddress : string;
  tokenSymbol : JsValue;
  amount : string;
  amountUsd : float;
  blockNumber : JsValue;
  shortOpened : bool
}.

Definition withId (n : nat) (r : t) : t :=
  {| id := n; txHash := txHash r; walletId := walletId r;
     tokenAddress := tokenAddress r; tokenSymbol := tokenSymbol r;
     amount := amount r; amountUsd := amountUsd r;
     blockNumber := blockNumber r; shortOpened := shortOpened r |}.

Definition withShortOpened (b : bool) (r : t) : t :=
  {| id := id r; txHash := txHash r; walletId := walletId r;
     tokenAddress := tokenAddress r; tokenSymbol := tokenSymbol r;
     amount := amount r; amountUsd := amountUsd r;
     blockNumber := blockNumber r; shortOpened := b |}.
End Transaction.

(** What leaves the process, and every write to the transaction table, in
    the order it happens (newest first). *)
Inductive Event : Type :=
| PriceRequest (contract : string)        (* GET simple/token_price *)
| PairsRequest                            (* GET /spot/currency_pairs *)
| OrderRequest (orderData : JsValue)      (* POST /spot/orders *)
| SendMessage (chat : Z) (text : string)  (* bot.telegram.sendMessage *)
| InsertTransaction (r : Transaction.t)
| UpdateTransaction (r : Transaction.t).

Record World : Type := {
  wallets : list Wallet.t;
  transactions : list Transaction.t;
  trace : list Event
}.

Definition emit (e : Event) (w : World) : World :=
  {| wallets := wallets w; transactions := transactions w;
     trace := e :: trace w |}.

Definition withTransactions (l : list Transaction.t) (w : World) : World :=
  {| wallets := wallets w; transactions := l; trace := trace w |}.

(** The collaborators.  Each answer may depend on everything that happened
    before the request ([World] holds the full trace), so a collaborator may
    fail on one call and succeed on the next. *)
Record Env : Type := {
  runtime : Runtime;
  (** how the ORM binds a value that is not a string to the text column
      [txHash]; [None] when it rejects the value *)
  ormText : JsValue -> option string;
  (** whether a [findOne] issued in this world rejects *)
  readFails : World -> bool;
  (** whether a [save] of this entity issued in this world rejects (store
      out of reach, constraint violated) *)
  writeFails : World -> Transaction.t -> bool;
  (** [response.data] of the price request, [None] when axios rejects *)
  priceResponse : World -> string -> option JsValue;
  (** [response.data] of the currency-pairs request *)
  pairsResponse : World -> option JsValue;
  (** [response.data] of the order request *)
  orderResponse : World -> JsValue -> option JsValue;
  (** whether [sendMessage] resolves *)
  telegramDelivers : World -> Z -> string -> bool
}.

(** State and exception monad: an [async] method is run to completion. *)
Definition M (A : Type) : Type := World -> Res A * World.

Definition ret {A} (a : A) : M A := fun w => (Ok a, w).

Definition throw {A} (e : JsError) : M A := fun w => (Throw e, w).

Definition bind {A B} (m : M A) (k : A -> M B) : M B :=
  fun w =>
    match m w with
    | (Ok a, w') => k a w'
    | (Throw e, w') => (Throw e, w')
    end.

Definition lift {A} (r : Res A) : M A := fun w => (r, w).

(** [try { m } catch (error) { handler }]. *)
Definition tryCatch {A} (m : M A) (handler : JsError -> M A) : M A :=
  fun w =>
    match m w with
    | (Ok a, w') => (Ok a, w')
    | (Throw e, w') => handler e w'
    end.

(** [for (const x of l) { await body(x) }]. *)
Fixpoint forOf {A} (l : list A) (body : A -> M unit) : M unit :=
  match l with
  | [] => ret tt
  | x :: r => bind (body x) (fun _ => forOf r body)
  end.

Declare Scope eff_scope.
Delimit Scope eff_scope with eff.
Notation "x <- m ;; k" := (bind m (fun x => k))
  (at level 61, m at next level, right associativity) : eff_scope.
Notation "m ;;; k" := (bind m (fun _ => k))
  (at level 61, right associativity) : eff_scope.
Notation "a ||| b" := (orElse a b)
  (at level 50, left associativity) : eff_scope.
Open Scope eff_scope.

Definition LF : string := String (ascii_of_nat 10) EmptyString.

(* ------------------------------------------------------------------ *)
(** * Repositories                                                      *)
(* ------------------------------------------------------------------ *)

Module Repository.

Section WithEnv.

Variable E : Env.

(** The text a value is compared and stored as in the column [txHash]. *)
Definition columnText (v : JsValue) : option string :=
  match v with
  | JsString s => Some s
  | other => ormText E other
  end.

(** [walletRepository.findOne({ where: { address } })]. *)
Definition findWallet (address : string) : M (option Wallet.t) :=
  fun w =>
    if readFails E w then (Throw LibraryError, w)
    else (Ok (find (fun x => String.eqb (Wallet.address x) address) (wallets w)), w).

Definition findByHash (h : string) (l : list Transaction.t) : option Transaction.t :=
  find (fun x => String.eqb (Transaction.txHash x) h) l.

(** [transactionRepository.findOne({ where: { txHash } })]. *)
Definition findTransaction (txHash : JsValue) : M (option Transaction.t) :=
  match columnText txHash with
  | Some h =>
      fun w =>
        if readFails E w then (Throw LibraryError, w)
        else (Ok (findByHash h (transactions w)), w)
  | None => throw LibraryError
  end.

Definition nextId (l : list Transaction.t) : nat :=
  S (fold_right Nat.max 0%nat (map Transaction.id l)).

Definition hasId (n : nat) (l : list Transaction.t) : bool :=
  existsb (fun x => Nat.eqb (Transaction.id x) n) l.

Definition replaceById (r : Transaction.t) (l : list Transaction.t) : list Transaction.t :=
  map (fun x => if Nat.eqb (Transaction.id x) (Transaction.id r) then r else x) l.

(** [transactionRepository.save(entity)]: an entity without a key is
    inserted and receives the next generated key; an entity with a key
    overwrites its row.  It returns the entity as it is after the call,
    and changes nothing when the store rejects the write. *)
Definition save (r : Transaction.t) : M Transaction.t :=
  fun w =>
    if writeFails E w r then (Throw LibraryError, w)
    else if Nat.eqb (Transaction.id r) 0 then
      let r' := Transaction.withId (nextId (transactions w)) r in
      (Ok r', emit (InsertTransaction r') (withTransactions (transactions w ++ [r']) w))
    else if hasId (Transaction.id r) (transactions w) then
      (Ok r, emit (UpdateTransaction r) (withTransactions (replaceById r (transactions w)) w))
    else
      (Ok r, emit (InsertTransaction r) (withTransactions (transactions w ++ [r]) w)).

End WithEnv.

End Repository.

(* ------------------------------------------------------------------ *)
(** * PriceService                                                      *)
(* ------------------------------------------------------------------ *)

Module PriceService.

Section WithEnv.

Variable E : Env.

(** [axios.get(.../simple/token_price/binance-smart-chain, ...)]; the
    result is [response.data]. *)
Definition requestPrice (contract : string) : M JsValue :=
  fun w =>
    match priceResponse E w contract with
    | Some data => (Ok data, emit (PriceRequest contract) w)
    | None => (Throw RequestError, emit (PriceRequest contract) w)
    end.

Definition getTokenPriceInUsd (tokenAddress : string) : M JsValue :=
  tryCatch
    (data <- requestPrice (toLowerCase (runtime E) tokenAddress) ;;
     entry <- lift (get data (toLowerCase (runtime E) tokenAddress)) ;;
     let price := optGet entry "usd" in
     if negb (truthy price) then ret (JsNumber PrimFloat.zero)
     else ret price)
    (fun _ => ret (JsNumber PrimFloat.zero)).

End WithEnv.

End PriceService.

(* ------------------------------------------------------------------ *)
(** * GateioService                                                     *)
(* ------------------------------------------------------------------ *)

Module GateioService.

Section WithEnv.

Variable E : Env.

Definition getTradingPairs : M JsValue :=
  tryCatch
    (fun w =>
       match pairsResponse E w with
       | Some data => (Ok data, emit PairsRequest w)
       | None => (Throw RequestError, emit PairsRequest w)
       end)
    (fun _ => ret (JsArray [])).

(** The callback of [pairs.find]. *)
Definition matchesSymbol (symbolUpper : string) (p : JsValue) : Res bool :=
  resBind (get p "base") (fun b =>
  resBind (callToUpperCase (runtime E) b) (fun base =>
  resBind (get p "quote") (fun q =>
  resBind (callToUpperCase (runtime E) q) (fun quote =>
  Ok ((String.eqb base symbolUpper && String.eqb quote "USDT")
      || (String.eqb base symbolUpper && String.eqb quote "USD")))))).

(** [items.find(callback)]: the first element the callback accepts,
    [undefined] when there is none. *)
Fixpoint findFirst (f : JsValue -> Res bool) (items : list JsValue) : Res JsValue :=
  match items with
  | [] => Ok JsUndefined
  | p :: r => resBind (f p) (fun b => if b then Ok p else findFirst f r)
  end.

(** [pairs.find(callback)]: only an array has the method. *)
Definition callFind (pairs : JsValue) (f : JsValue -> Res bool) : Res JsValue :=
  match pairs with
  | JsArray items => findFirst f items
  | _ => Throw TypeError
  end.

Definition findTradingPair (tokenSymbol : JsValue) : M JsValue :=
  tryCatch
    (pairs <- getTradingPairs ;;
     symbolUpper <- lift (callToUpperCase (runtime E) tokenSymbol) ;;
     pair <- lift (callFind pairs (matchesSymbol symbolUpper)) ;;
     if truthy pair then lift (get pair "id")
     else ret JsNull)
    (fun _ => ret JsNull).

(** [makeAuthenticatedRequest("POST", "/spot/orders", {}, data)]: the
    signature and the time stamp only decorate the request. *)
Definition makeAuthenticatedRequest (data : JsValue) : M JsValue :=
  tryCatch
    (fun w =>
       match orderResponse E w data with
       | Some result => (Ok result, emit (OrderRequest data) w)
       | None => (Throw RequestError, emit (OrderRequest data) w)
       end)
    (fun e => throw e).

Definition openShortPosition (tradingPair : JsValue) (amount : float) : M JsValue :=
  tryCatch
    (let orderData := JsObject
       [("currency_pair", tradingPair);
        ("side", JsString "sell");
        ("amount", JsString (NumberToString (runtime E) amount));
        ("type", JsString "market")] in
     result <- makeAuthenticatedRequest orderData ;;
     ret result)
    (fun e => throw e).

End WithEnv.

End GateioService.

(* ------------------------------------------------------------------ *)
(** * TelegramService                                                   *)
(* ------------------------------------------------------------------ *)

Module TelegramService.

Section WithEnv.

Variable E : Env.

Definition sendMessage (chatId : Z) (message : string) : M unit :=
  fun w =>
    if telegramDelivers E w chatId message
    then (Ok tt, emit (SendMessage chatId message) w)
    else (Throw RequestError, emit (SendMessage chatId message) w).

Definition sendNotification (chatId : Z) (message : string) : M unit :=
  tryCatch (sendMessage chatId message) (fun _ => ret tt).

End WithEnv.

End TelegramService.

(* ------------------------------------------------------------------ *)
(** * BscTrackerService                                                 *)
(* ------------------------------------------------------------------ *)

Module BscTrackerService.

(** Signature hash of [Transfer(address,address,uint256)]. *)
Definition transferTopic : string :=
  "0xddf252ad1be2c89b69c2b068fc378daa952ba7f163c4a11628f55a4df523b3ef".

Section WithEnv.

Variable E : Env.

Let rt := runtime E.

(** The log lines print the symbol of the transaction inside a template
    literal; the conversion is kept where the line stands. *)
Definition openShortPosition (transaction : Transaction.t) (wallet : Wallet.t) : M unit :=
  tryCatch
    (if Transaction.shortOpened transaction then ret tt
     else
       lift (interpolate rt (Transaction.tokenSymbol transaction)) ;;;
       tradingPair <- GateioService.findTradingPair E (Transaction.tokenSymbol transaction) ;;
       if negb (truthy tradingPair) then
         lift (interpolate rt (Transaction.tokenSymbol transaction)) ;;;
         ret tt
       else
         let shortAmount :=
           PrimFloat.div (Transaction.amountUsd transaction) (numberOfZ 100) in
         GateioService.openShortPosition E tradingPair shortAmount ;;;
         Repository.save E (Transaction.withShortOpened true transaction) ;;;
         lift (interpolate rt (Transaction.tokenSymbol transaction)) ;;;
         ret tt)
    (fun _ => ret tt).

(** The text bound to the column [txHash] when the entity is written. *)
Definition bindText (v : JsValue) : Res string :=
  match Repository.columnText E v with
  | Some h => Ok h
  | None => Throw LibraryError
  end.

(** The text of the alert. *)
Definition transferMessage (tokenSymbol : JsValue) (amountFormatted : string)
    (amountUsd : float) (txHash blockNumber : JsValue) : Res string :=
  resBind (ToString rt tokenSymbol) (fun symbol =>
  resBind (ToString rt txHash) (fun hash =>
  resBind (ToString rt blockNumber) (fun block =>
  Ok ("🔔 Обнаружен новый перевод токенов!" ++ LF ++ LF ++
      "Токен: " ++ symbol ++ LF ++
      "Количество: " ++ amountFormatted ++ LF ++
      "Стоимость: $" ++ toFixed rt amountUsd 2 ++ LF ++
      "Транзакция: " ++ hash ++ LF ++
      "Блок: " ++ block)))).

(** The text of the message that follows the trade. *)
Definition shortMessage (tokenSymbol : JsValue) (amountUsd : float) : Res string :=
  resBind (ToString rt tokenSymbol) (fun symbol =>
  Ok ("📉 Шорт позиция открыта для " ++ symbol ++ "!" ++ LF ++
      "Сумма: $" ++ toFixed rt amountUsd 2)).

(** The branch [typeof valueRaw === "bigint"] is not reachable from a JSON
    payload; the two branches for a string are the same call.  The price
    is whatever the price service returned, a value of the response of the
    price source: the product converts it to a Number. *)
Definition handleTokenTransfer (tx : JsValue) (wallet : Wallet.t) : M unit :=
  tryCatch
    (txHash <- lift (get tx "transactionHash" ||| get tx "hash") ;;
     if negb (truthy txHash) then ret tt
     else
       tokenAddressRaw <- lift (get tx "contract" ||| get tx "tokenAddress"
                                  ||| get tx "address" ||| Ok (JsString "")) ;;
       tokenAddressText <- lift (match tokenAddressRaw with
                                 | JsString s => Ok s
                                 | other => ToString rt other
                                 end) ;;
       let tokenAddress := toLowerCase rt tokenAddressText in
       tokenSymbol <- lift (get tx "tokenSymbol" ||| get tx "symbol"
                              ||| Ok (JsString "UNKNOWN")) ;;
       decimalsRaw <- lift (get tx "tokenDecimals" ||| get tx "decimals"
                              ||| Ok (JsString "18")) ;;
       let decimals :=
         match decimalsRaw with
         | JsString s => JsNumber (parseInt s)
         | other => other
         end in
       valueRaw <- lift (get tx "value" ||| get tx "amount" ||| Ok (JsString "0")) ;;
       blockNumberRaw <- lift (resBind (get tx "block") (fun b => Ok (optGet b "number"))
                                 ||| get tx "blockNumber" ||| get tx "block"
                                 ||| Ok (JsString "0")) ;;
       let blockNumber :=
         match blockNumberRaw with
         | JsString s => JsNumber (parseInt s)
         | other => other
         end in
       valueBigInt <- lift (match valueRaw with
                            | JsString s => stringToBigInt s
                            | other => toBigInt rt other
                            end) ;;
       amountFormatted <- lift (formatUnits rt valueBigInt decimals) ;;
       tokenPrice <- PriceService.getTokenPriceInUsd E tokenAddress ;;
       price <- lift (ToNumber rt tokenPrice) ;;
       let amountUsd := PrimFloat.mul (parseFloat rt amountFormatted) price in
       txHashText <- lift (bindText txHash) ;;
       transaction <- Repository.save E
         {| Transaction.id := 0;
            Transaction.txHash := txHashText;
            Transaction.walletId := Wallet.id wallet;
            Transaction.tokenAddress := tokenAddress;
            Transaction.tokenSymbol := tokenSymbol;
            Transaction.amount := amountFormatted;
            Transaction.amountUsd := amountUsd;
            Transaction.blockNumber := blockNumber;
            Transaction.shortOpened := false |} ;;
       lift (interpolate rt tokenSymbol) ;;;
       message <- lift (transferMessage tokenSymbol amountFormatted amountUsd
                          txHash blockNumber) ;;
       TelegramService.sendNotification E (Wallet.chatId wallet) message ;;;
       if PrimFloat.leb (Wallet.thresholdUsd wallet) amountUsd then
         openShortPosition transaction wallet ;;;
         text <- lift (shortMessage tokenSymbol amountUsd) ;;
         TelegramService.sendNotification E (Wallet.chatId wallet) text
       else ret tt)
    (fun _ => ret tt).

(** When no wallet is found the method also lists all wallets for a debug
    line; that read changes nothing and its failure is caught like the
    others, so it is left out.  The debug line of a transfer that is
    already recorded prints the hash. *)
Definition processERC20Transfer (transfer : JsValue) : M unit :=
  tryCatch
    (toRaw <- lift (get transfer "to" ||| get transfer "toAddress"
                      ||| Ok (JsString "")) ;;
     toAddress <- lift (callToLowerCase rt toRaw) ;;
     if negb (truthy (JsString toAddress)) then ret tt
     else
       wallet <- Repository.findWallet E toAddress ;;
       match wallet with
       | None => ret tt
       | Some wallet =>
           if negb (Wallet.isActive wallet) then ret tt
           else
             txHash <- lift (get transfer "transactionHash" ||| get transfer "hash") ;;
             if negb (truthy txHash) then ret tt
             else
               existingTx <- Repository.findTransaction E txHash ;;
               match existingTx with
               | Some _ => lift (interpolate rt txHash) ;;; ret tt
               | None => handleTokenTransfer transfer wallet
               end
       end)
    (fun _ => ret tt).

(** The transfer object [processTransferLog] hands to
    [handleTokenTransfer]. *)
Definition transferOfLog (txHash : JsValue) (toAddress : string)
    (tokenAddress : JsValue) (value : string) (blockNumber : JsValue) : JsValue :=
  JsObject
    [("transactionHash", txHash);
     ("toAddress", JsString toAddress);
     ("tokenAddress", tokenAddress);
     ("value", JsString value);
     ("blockNumber", blockNumber)].

(** The [value] of the transfer a log entry stands for: ["0x"] followed by
    the last 64 characters of [data], ["0x0"] when [data] is falsy. *)
Definition dataValue (valueHex : JsValue) : Res string :=
  if truthy valueHex
  then resBind (callSliceLast 64 valueHex) (fun t =>
       resBind (ToString rt t) (fun digits =>
       Ok ("0x" ++ digits)))
  else Ok "0x0".

Definition processTransferLog (log : JsValue) : M unit :=
  tryCatch
    (toAddressHex <- lift (get log "topic2") ;;
     if negb (truthy toAddressHex) then ret tt
     else
       tail <- lift (resBind (callSliceLast 40 toAddressHex) (callToLowerCase rt)) ;;
       let toAddress := "0x" ++ tail in
       wallet <- Repository.findWallet E (toLowerCase rt toAddress) ;;
       match wallet with
       | None => ret tt
       | Some wallet =>
           if negb (Wallet.isActive wallet) then ret tt
           else
             txHash <- lift (get log "transactionHash" ||| get log "hash") ;;
             if negb (truthy txHash) then ret tt
             else
               existingTx <- Repository.findTransaction E txHash ;;
               match existingTx with
               | Some _ => ret tt
               | None =>
                   valueHex <- lift (get log "data") ;;
                   value <- lift (dataValue valueHex) ;;
                   address <- lift (get log "address") ;;
                   tokenAddress <- lift (if nullish address then Ok JsUndefined
                                         else resBind (callToLowerCase rt address)
                                                (fun a => Ok (JsString a))) ;;
                   blockNumber <- lift (get log "blockNumber") ;;
                   handleTokenTransfer
                     (transferOfLog txHash toAddress tokenAddress value blockNumber)
                     wallet
               end
       end)
    (fun _ => ret tt).

(** The test of the first [if] of [handleWebhookEvent].  Inside it
    [body.erc20Transfers.length] is only read when [body?.erc20Transfers]
    is truthy, where the access cannot throw. *)
Definition isTestWebhook (body : JsValue) : bool :=
  truthy (optGet body "tag")
  && truthy (optGet body "streamId")
  && (negb (truthy (optGet body "erc20Transfers"))
      || strictEq (member (optGet body "erc20Transfers") "length")
                  (JsNumber PrimFloat.zero))
  && (negb (truthy (optGet body "logs"))
      || strictEq (member (optGet body "logs") "length")
                  (JsNumber PrimFloat.zero)).

(** Body of the loop over [erc20Transfers]. *)
Definition transferStep (blockNumber : JsValue) (transfer : JsValue) : M unit :=
  block <- lift (get transfer "block") ;;
  transfer' <- lift (if negb (truthy block) && truthy blockNumber
                     then setProp transfer "block"
                            (JsObject [("number", blockNumber)])
                     else Ok transfer) ;;
  processERC20Transfer transfer'.

(** Body of the loop over [logs]. *)
Definition logStep (log : JsValue) : M unit :=
  topic0 <- lift (get log "topic0") ;;
  if strictEq topic0 (JsString transferTopic) then processTransferLog log
  else ret tt.

(** The debug line at the head of [handleWebhookEvent]. *)
Definition receivedLine (body : JsValue) : Res unit :=
  resBind (interpolate rt (optGet body "confirmed")) (fun _ =>
  interpolate rt (optGet body "streamId")).

Definition handleWebhookEvent (body : JsValue) : M unit :=
  tryCatch
    (lift (receivedLine body) ;;;
     if isTestWebhook body then
       streamId <- lift (get body "streamId") ;;
       lift (interpolate rt streamId) ;;;
       ret tt
     else if negb (truthy (optGet body "confirmed")) then ret tt
     else
       let erc20Transfers := jsOr (optGet body "erc20Transfers") (JsArray []) in
       let blockNumber :=
         jsOr (optGet (optGet body "block") "number") (optGet body "blockNumber") in
       transfers <- lift (iterate erc20Transfers) ;;
       forOf transfers (transferStep blockNumber) ;;;
       let logs := jsOr (optGet body "logs") (JsArray []) in
       entries <- lift (iterate logs) ;;
       forOf entries logStep)
    (fun error => throw error).

End WithEnv.

End BscTrackerService.

(* ------------------------------------------------------------------ *)
(** * WebhookController                                                 *)
(* ------------------------------------------------------------------ *)

Module WebhookController.

Record HttpResponse : Type := {
  status : nat;
  json : JsValue
}.

Section WithEnv.

Variable E : Env.

Let rt := runtime E.

(** The log lines written before the response.  The names of the keys of
    the body always print; the lines after that print the number of
    structured transfers, the flag [confirmed] and the stream identifier,
    and the last one reads and prints four fields of the first structured
    transfer. *)
Definition logDelivery (body : JsValue) : Res unit :=
  resBind (interpolate rt (jsOr (optGet (optGet body "erc20Transfers") "length")
                       (JsNumber PrimFloat.zero))) (fun _ =>
  resBind (interpolate rt (optGet body "confirmed")) (fun _ =>
  resBind (interpolate rt (optGet body "streamId")) (fun _ =>
  resBind (gtZero rt (optGet (optGet body "erc20Transfers") "length")) (fun some =>
  if some then
    resBind (get body "erc20Transfers") (fun transfers =>
    resBind (get transfers "0") (fun transfer =>
    resBind (get transfer "to") (fun to =>
    resBind (interpolate rt to) (fun _ =>
    resBind (get transfer "from") (fun from =>
    resBind (interpolate rt from) (fun _ =>
    resBind (get transfer "value") (fun value =>
    resBind (interpolate rt value) (fun _ =>
    resBind (get transfer "tokenSymbol") (fun tokenSymbol =>
    interpolate rt tokenSymbol)))))))))
  else Ok tt)))).

(** The callback handed to [setImmediate]. *)
Definition deferred (body : JsValue) : M unit :=
  tryCatch (BscTrackerService.handleWebhookEvent E body) (fun _ => ret tt).

(** The controller method: the response it sends and the task it
    schedules.  It throws when a statement before the response throws. *)
Definition handleMoralisWebhook (body : JsValue) : Res (HttpResponse * M unit) :=
  resBind (logDelivery body) (fun _ =>
  Ok ({| status := 200; json := JsObject [("status", JsString "ok")] |},
      deferred body)).

(** What the framework answers when a controller method throws. *)
Definition internalServerError : HttpResponse :=
  {| status := 500;
     json := JsObject [("statusCode", JsNumber (numberOfZ 500));
                       ("message", JsString "Internal server error")] |}.

(** One POST to [/webhook/moralis]: the response the caller receives and
    the world once the scheduled task has run. *)
Definition deliver (body : JsValue) (w : World) : HttpResponse * World :=
  match handleMoralisWebhook body with
  | Ok (response, task) => (response, snd (task w))
  | Throw _ => (internalServerError, w)
  end.

End WithEnv.

End WebhookController.

(* ------------------------------------------------------------------ *)
(** * A concrete runtime, concrete collaborators and sample payloads    *)
(* ------------------------------------------------------------------ *)

(** An executable instance of the parameters, used to run the pipeline on
    concrete deliveries.  [formatUnits] follows ethers (a decimal point
    [unit] places from the right, trailing zeros trimmed down to one);
    the conversions between strings and Numbers are exact on the short
    decimal numerals the samples use. *)
Module Sample.

Definition printN (n : N) : string := NilZero.string_of_uint (N.to_uint n).

Fixpoint zeros (k : nat) : string :=
  match k with
  | O => ""
  | S k' => "0" ++ zeros k'
  end.

Definition padLeft (k : nat) (s : string) : string :=
  zeros (k - String.length s) ++ s.

Fixpoint dropTrailingZeros (s : string) : string :=
  match s with
  | EmptyString => EmptyString
  | String c r =>
      match dropTrailingZeros r with
      | EmptyString => if Ascii.eqb c "0" then EmptyString else String c EmptyString
      | r' => String c r'
      end
  end.

(** [m / 10^k] for [0 <= m], with exactly [k] fraction digits. *)
Definition printFixed (k : nat) (m : Z) : string :=
  let p := (10 ^ Z.of_nat k)%Z in
  if Nat.eqb k 0 then printN (Z.to_N m)
  else printN (Z.to_N (m / p)) ++ "." ++ padLeft k (printN (Z.to_N (m mod p))).

(** The same with the trailing zeros of the fraction trimmed, one kept. *)
Definition printScaled (k : nat) (m : Z) : string :=
  let p := (10 ^ Z.of_nat k)%Z in
  if Nat.eqb k 0 then printN (Z.to_N m)
  else
    let f := match dropTrailingZeros (padLeft k (printN (Z.to_N (m mod p)))) with
             | EmptyString => "0"
             | s => s
             end in
    printN (Z.to_N (m / p)) ++ "." ++ f.

Definition signed (negative : bool) (s : string) : string :=
  if negative then "-" ++ s else s.

Definition decimalsOfNumber (x : float) : option nat :=
  find (fun d => PrimFloat.eqb (numberOfNat d) x) (seq 0 81).

Definition formatUnits (value : Z) (unit : JsValue) : Res string :=
  if (2 ^ 511 <=? Z.abs value)%Z then Throw LibraryError
  else
    match unit with
    | JsNumber x =>
        match decimalsOfNumber x with
        | Some d => Ok (signed (value <? 0)%Z (printScaled d (Z.abs value)))
        | None => Throw LibraryError
        end
    | JsUndefined | JsNull => Ok (signed (value <? 0)%Z (printScaled 18 (Z.abs value)))
    | _ => Throw LibraryError
    end.

(** Digits in front of [s] and what follows them. *)
Fixpoint splitDigits (s : string) : string * string :=
  match s with
  | EmptyString => (EmptyString, EmptyString)
  | String c r =>
      match digitOfChar c with
      | Some _ => let '(d, t) := splitDigits r in (String c d, t)
      | None => (EmptyString, s)
      end
  end.

Definition parseFloat (s : string) : float :=
  let s1 := trimStart s in
  let '(neg, s2) :=
    match s1 with
    | String "-" r => (true, r)
    | String "+" r => (false, r)
    | _ => (false, s1)
    end in
  let '(whole, rest) := splitDigits s2 in
  let frac := match rest with
              | String "." r => fst (splitDigits r)
              | _ => EmptyString
              end in
  match (whole ++ frac)%string with
  | EmptyString => PrimFloat.nan
  | digits =>
      let x := PrimFloat.div (numberOfZ (prefixDigits 10 0 digits))
                 (numberOfZ (10 ^ Z.of_nat (String.length frac))) in
      if neg then PrimFloat.opp x else x
  end.

Definition StringToNumber (s : string) : float :=
  match trimEnd (trimStart s) with
  | EmptyString => PrimFloat.zero
  | t =>
      let '(whole, rest) :=
        splitDigits (match t with String "-" r | String "+" r => r | _ => t end) in
      match rest with
      | EmptyString => parseFloat t
      | String "." r => match snd (splitDigits r) with
                        | EmptyString => parseFloat t
                        | _ => PrimFloat.nan
                        end
      | _ => PrimFloat.nan
      end
  end.

(** [x = num / den] exactly, for a finite [x]. *)
Definition exactRatio (m : positive) (e : Z) : Z * Z :=
  if (0 <=? e)%Z then (Zpos m * 2 ^ e, 1)%Z else (Zpos m, 2 ^ (- e))%Z.

Definition toFixed (x : float) (digits : nat) : string :=
  match Prim2SF x with
  | S754_nan => "NaN"
  | S754_infinity s => signed s "Infinity"
  | S754_zero s => signed s (printFixed digits 0)
  | S754_finite s m e =>
      let '(num, den) := exactRatio m e in
      let n := ((2 * num * 10 ^ Z.of_nat digits + den) / (2 * den))%Z in
      signed s (printFixed digits n)
  end.

Definition NumberToString (x : float) : string :=
  match Prim2SF x with
  | S754_nan => "NaN"
  | S754_infinity s => signed s "Infinity"
  | S754_zero _ => "0"
  | S754_finite s m e =>
      let '(num, den) := exactRatio m e in
      if (num mod den =? 0)%Z then signed s (printN (Z.to_N (num / den)))
      else signed s (printScaled (Z.to_nat (- e)) (Zpos m * 5 ^ (- e)))
  end.

(** On the text of the samples the case mapping of the engine is that of
    the letters A-Z and a-z. *)
Definition engine : Runtime :=
  {| Js.toLowerCase := lowerCaseAscii;
     Js.toUpperCase := upperCaseAscii;
     Js.NumberToString := NumberToString;
     Js.StringToNumber := StringToNumber;
     Js.parseFloat := parseFloat;
     Js.toFixed := toFixed;
     Js.formatUnits := formatUnits |}.

(** Collaborators that all answer: every token is quoted at 2 USD, the
    exchange lists CAKE against USDT, orders and messages go through. *)
Definition env : Env :=
  {| runtime := engine;
     ormText := fun _ => None;
     readFails := fun _ => false;
     writeFails := fun _ _ => false;
     priceResponse := fun _ contract =>
       Some (JsObject [(contract, JsObject [("usd", JsNumber (numberOfZ 2))])]);
     pairsResponse := fun _ =>
       Some (JsArray [JsObject [("id", JsString "CAKE_USDT");
                                ("base", JsString "CAKE");
                                ("quote", JsString "USDT")]]);
     orderResponse := fun _ _ => Some (JsObject [("id", JsString "1")]);
     telegramDelivers := fun _ _ _ => true |}.

(** The same with a price service that rejects every request. *)
Definition envPriceDown : Env :=
  {| runtime := engine;
     ormText := ormText env;
     readFails := readFails env;
     writeFails := writeFails env;
     priceResponse := fun _ _ => None;
     pairsResponse := pairsResponse env;
     orderResponse := orderResponse env;
     telegramDelivers := telegramDelivers env |}.

(** The same with an exchange that lists no pair at all. *)
Definition envNoMarket : Env :=
  {| runtime := engine;
     ormText := ormText env;
     readFails := readFails env;
     writeFails := writeFails env;
     priceResponse := priceResponse env;
     pairsResponse := fun _ => Some (JsArray []);
     orderResponse := orderResponse env;
     telegramDelivers := telegramDelivers env |}.

Definition walletAddress : string := "0x1111111111111111111111111111111111111abc".

Definition wallet : Wallet.t :=
  {| Wallet.id := 1;
     Wallet.address := walletAddress;
     Wallet.chatId := 42;
     Wallet.thresholdUsd := numberOfZ 1000;
     Wallet.isActive := true;
     Wallet.streamId := Some "stream-1" |}.

Definition emptyWorld : World :=
  {| wallets := [wallet]; transactions := []; trace := [] |}.

(** A structured transfer of [value] base units of CAKE with hash [hash]. *)
Definition transfer (hash value : string) : JsValue :=
  JsObject
    [("transactionHash", JsString hash);
     ("to", JsString "0x1111111111111111111111111111111111111ABC");
     ("contract", JsString "0x0e09fabb73bd3ade0a17ecc321fd13a19e81ce82");
     ("tokenSymbol", JsString "CAKE");
     ("tokenDecimals", JsString "18");
     ("value", JsString value)].

(** A confirmed delivery of structured transfers. *)
Definition delivery (transfers : list JsValue) : JsValue :=
  JsObject
    [("confirmed", JsBool true);
     ("chainId", JsString "0x38");
     ("streamId", JsString "stream-1");
     ("tag", JsString "wallet_1");
     ("block", JsObject [("number", JsString "100")]);
     ("logs", JsArray []);
     ("erc20Transfers", JsArray transfers)].

(** 5 CAKE (10 USD) and 5000 CAKE (10000 USD). *)
Definition smallTransfer : JsValue := transfer "0xaa01" "5000000000000000000".
Definition largeTransfer : JsValue := transfer "0xaa02" "5000000000000000000000".

(** An indexed Transfer log of 5 tokens to the monitored wallet. *)
Definition transferLog : JsValue :=
  JsObject
    [("topic0", JsString BscTrackerService.transferTopic);
     ("topic1", JsString "0x0000000000000000000000002222222222222222222222222222222222222222");
     ("topic2", JsString "0x0000000000000000000000001111111111111111111111111111111111111ABC");
     ("data", JsString "0x0000000000000000000000000000000000000000000000004563918244f40000");
     ("address", JsString "0x0E09FABB73BD3ADE0A17ECC321FD13A19E81CE82");
     ("transactionHash", JsString "0xaa03");
     ("blockNumber", JsString "100")].

(** A transfer of 1.5 units of a token whose payload gives [decimals] as
    the number 0. *)
Definition zeroDecimalsTransfer : JsValue :=
  JsObject
    [("transactionHash", JsString "0xaa04");
     ("to", JsString walletAddress);
     ("contract", JsString "0x0e09fabb73bd3ade0a17ecc321fd13a19e81ce82");
     ("symbol", JsString "CAKE");
     ("decimals", JsNumber PrimFloat.zero);
     ("value", JsString "1500000000000000000")].

(** A world in which [smallTransfer] has already been recorded. *)
Definition recorded : Transaction.t :=
  {| Transaction.id := 1;
     Transaction.txHash := "0xaa01";
     Transaction.walletId := 1;
     Transaction.tokenAddress := "0x0e09fabb73bd3ade0a17ecc321fd13a19e81ce82";
     Transaction.tokenSymbol := JsString "CAKE";
     Transaction.amount := "5.0";
     Transaction.amountUsd := numberOfZ 10;
     Transaction.blockNumber := JsNumber (numberOfZ 100);
     Transaction.shortOpened := false |}.

Definition worldWithRecord : World :=
  {| wallets := [wallet]; transactions := [recorded]; trace := [] |}.

(** An unconfirmed delivery that carries a large transfer. *)
Definition unconfirmedDelivery : JsValue :=
  JsObject
    [("confirmed", JsBool false);
     ("streamId", JsString "stream-1");
     ("tag", JsString "wallet_1");
     ("erc20Transfers", JsArray [largeTransfer])].

(** The ping the push source sends when a stream is created. *)
Definition ping : JsValue :=
  JsObject
    [("confirmed", JsBool true);
     ("streamId", JsString "stream-1");
     ("tag", JsString "wallet_1");
     ("logs", JsArray []);
     ("erc20Transfers", JsArray [])].

(** A Transfer log of 2 tokens whose [data] is not padded to 32 bytes. *)
Definition shortDataLog : JsValue :=
  JsObject
    [("topic0", JsString BscTrackerService.transferTopic);
     ("topic1", JsString "0x0000000000000000000000002222222222222222222222222222222222222222");
     ("topic2", JsString "0x0000000000000000000000001111111111111111111111111111111111111ABC");
     ("data", JsString "0x1bc16d674ec80000");
     ("address", JsString "0x0E09FABB73BD3ADE0A17ECC321FD13A19E81CE82");
     ("transactionHash", JsString "0xaa07");
     ("blockNumber", JsString "100")].

(** A Transfer log that carries no [data]. *)
Definition noDataLog : JsValue :=
  JsObject
    [("topic0", JsString BscTrackerService.transferTopic);
     ("topic1", JsString "0x0000000000000000000000002222222222222222222222222222222222222222");
     ("topic2", JsString "0x0000000000000000000000001111111111111111111111111111111111111ABC");
     ("address", JsString "0x0E09FABB73BD3ADE0A17ECC321FD13A19E81CE82");
     ("transactionHash", JsString "0xaa08");
     ("blockNumber", JsString "100")].

(** An object that cannot be printed: its own property [toString] is not
    a function. *)
Definition unprintable : JsValue :=
  JsObject [("toString", JsNumber (numberOfZ 1))].

(** A ping whose stream identifier cannot be printed. *)
Definition unprintablePing : JsValue :=
  JsObject
    [("tag", JsString "t");
     ("streamId", unprintable);
     ("erc20Transfers", JsArray []);
     ("logs", JsArray [])].

(** 5000 CAKE (10000 USD) in a transfer whose symbol cannot be printed. *)
Definition unnamedTransfer : JsValue :=
  JsObject
    [("transactionHash", JsString "0xaa05");
     ("to", JsString "0x1111111111111111111111111111111111111ABC");
     ("contract", JsString "0x0e09fabb73bd3ade0a17ecc321fd13a19e81ce82");
     ("tokenSymbol", unprintable);
     ("tokenDecimals", JsString "18");
     ("value", JsString "5000000000000000000000")].

End Sample.

(* ------------------------------------------------------------------ *)
(** * Vocabulary of the statements                                      *)
(* ------------------------------------------------------------------ *)

(** ** Deliveries *)

(** The acknowledgement of the webhook endpoint. *)
Definition acknowledged : WebhookController.HttpResponse :=
  {| WebhookController.status := 200;
     WebhookController.json := JsObject [("status", JsString "ok")] |}.

(** A delivery whose first structured transfer is [null]. *)
Definition nullTransferDelivery : JsValue :=
  JsObject [("confirmed", JsBool true); ("erc20Transfers", JsArray [JsNull])].

(** A payload field that holds no entry: absent, or the empty array. *)
Definition noEntries (v : JsValue) : Prop := v = JsUndefined \/ v = JsArray [].

(** A verification ping: the subscription tag and id are present and the
    delivery carries neither structured transfers nor logs. *)
Definition VerificationPing (body : JsValue) : Prop :=
  optGet body "tag" <> JsUndefined
  /\ optGet body "streamId" <> JsUndefined
  /\ noEntries (optGet body "erc20Transfers")
  /\ noEntries (optGet body "logs").

(** The payload without its own property [k]. *)
Definition withoutField (k : string) (tx : JsValue) : JsValue :=
  match tx with
  | JsObject fs => JsObject (filter (fun kv => negb (String.eqb k (fst kv))) fs)
  | other => other
  end.

(** ** The canonical transfer

    [handleTokenTransfer] first reads, under their aliases, the fields of
    the transfer it is given, then works on what it read only.  [Canonical]
    names what it reads; [canonical] reads it; [ingest] is the rest of the
    method.  [handleTokenTransfer_canonical] below shows that the method is
    the composition of the two. *)
Record Canonical : Type := {
  hash : JsValue;          (* [txHash] *)
  contract : Res string;   (* [tokenAddress], or the error [String] raises *)
  symbol : JsValue;        (* [tokenSymbol] *)
  decimals : JsValue;      (* [decimals], the unit handed to [formatUnits] *)
  quantity : Res Z;        (* [valueBigInt], or the error [BigInt] raises *)
  block : JsValue          (* [blockNumber] *)
}.

Definition numberIfString (v : JsValue) : JsValue :=
  match v with
  | JsString s => JsNumber (parseInt s)
  | other => other
  end.

(** The entity [handleTokenTransfer] builds before the first [save]. *)
Definition draft (c : Canonical) (wallet : Wallet.t)
    (tokenAddress txHashText amountFormatted : string) (amountUsd : float)
  : Transaction.t :=
  {| Transaction.id := 0;
     Transaction.txHash := txHashText;
     Transaction.walletId := Wallet.id wallet;
     Transaction.tokenAddress := tokenAddress;
     Transaction.tokenSymbol := symbol c;
     Transaction.amount := amountFormatted;
     Transaction.amountUsd := amountUsd;
     Transaction.blockNumber := block c;
     Transaction.shortOpened := false |}.

(** ** Counting what left the process *)

Definition isExchangeRequest (e : Event) : bool :=
  match e with
  | PairsRequest | OrderRequest _ => true
  | _ => false
  end.

Definition isSendMessage (e : Event) : bool :=
  match e with
  | SendMessage _ _ => true
  | _ => false
  end.

(** Requests sent to the exchange so far (market lookups and orders). *)
Definition exchangeRequests (w : World) : nat :=
  List.length (filter isExchangeRequest (trace w)).

(** Messages handed to the chat so far. *)
Definition messagesSent (w : World) : nat :=
  List.length (filter isSendMessage (trace w)).

(** ** The trade-triggered flag over time *)

(** Whatever the outcome of [m], the world it leaves is related by [R] to
    the world it started in. *)
Definition preserves (R : World -> World -> Prop) {A} (m : M A) : Prop :=
  forall w, R w (snd (m w)).

(** One row between two moments: untouched, or rewritten under the same
    key with the flag set. *)
Inductive RowStep : Transaction.t -> Transaction.t -> Prop :=
| RowSame (x : Transaction.t) : RowStep x x
| RowFlagged (x y : Transaction.t) :
    Transaction.id y = Transaction.id x ->
    Transaction.shortOpened y = true ->
    RowStep x y.

(** A write to the table is an insertion with the flag false or an update
    that leaves the flag true. *)
Definition WriteOk (e : Event) : Prop :=
  match e with
  | InsertTransaction r => Transaction.shortOpened r = false
  | UpdateTransaction r => Transaction.shortOpened r = true
  | _ => True
  end.

(** From [w] to [w']: the rows of [w] are still there, in place, each
    untouched or flagged; rows may have been added behind them; and every
    write in between was an insertion with the flag false or an update to
    true. *)
Definition FlagMonotone (w w' : World) : Prop :=
  (exists kept added,
      transactions w' = (kept ++ added)%list
      /\ Forall2 RowStep (transactions w) kept)
  /\ (exists events,
         trace w' = (events ++ trace w)%list /\ Forall WriteOk events).

Section Vocabulary.

Variable E : Env.

Let rt := runtime E.

(** ** Values that print *)

(** [String(v)] returns: [v] can stand in a template literal. *)
Definition Prints (v : JsValue) : Prop := exists s, ToString rt v = Ok s.

(** The log lines of the controller can be written: the number of
    structured transfers, the flag [confirmed] and the stream identifier
    print, and when the delivery has structured transfers the first of
    them is neither [null] nor [undefined] and the four fields the last
    line shows print. *)
Definition Loggable (body : JsValue) : Prop :=
  let transfers := optGet body "erc20Transfers" in
  let first := member transfers "0" in
  Prints (jsOr (optGet transfers "length") (JsNumber PrimFloat.zero))
  /\ Prints (optGet body "confirmed")
  /\ Prints (optGet body "streamId")
  /\ (gtZero rt (optGet transfers "length") = Ok true ->
      nullish first = false
      /\ Prints (member first "to")
      /\ Prints (member first "from")
      /\ Prints (member first "value")
      /\ Prints (member first "tokenSymbol")).

(** ** Log entries *)

(** The destination [processTransferLog] reads from the third topic [t]. *)
Definition destinationOf (t : string) : string :=
  "0x" ++ toLowerCase rt (sliceLast 40 t).

(** [log.address?.toLowerCase()] for an address that is absent or a
    string. *)
Definition lowerAddress (v : JsValue) : JsValue :=
  match v with
  | JsString s => JsString (toLowerCase rt s)
  | _ => JsUndefined
  end.

(** A log entry is processed: it passes every test of [logStep] and of
    [processTransferLog] and reaches [handleTokenTransfer] for [wallet].
    Its first topic is the Transfer signature, its third topic is the
    non-empty string [t], the store answers the lookups, [wallet] is the
    active wallet registered under the destination, the entry carries a
    hash that no record has yet, and its contract address is absent or a
    string. *)
Definition Processed (log : JsValue) (w : World) (t : string) (wallet : Wallet.t)
  : Prop :=
  member log "topic0" = JsString BscTrackerService.transferTopic
  /\ member log "topic2" = JsString t
  /\ t <> ""
  /\ readFails E w = false
  /\ find (fun x => String.eqb (Wallet.address x) (toLowerCase rt (destinationOf t)))
       (wallets w) = Some wallet
  /\ Wallet.isActive wallet = true
  /\ truthy (jsOr (member log "transactionHash") (member log "hash")) = true
  /\ (exists h,
         Repository.columnText E (jsOr (member log "transactionHash") (member log "hash"))
         = Some h
         /\ Repository.findByHash h (transactions w) = None)
  /\ (nullish (member log "address") = true
      \/ exists a, member log "address" = JsString a).

(** The transfer a processed log entry is handled as. *)
Definition transferFor (log : JsValue) (t value : string) : JsValue :=
  BscTrackerService.transferOfLog
    (jsOr (member log "transactionHash") (member log "hash"))
    (destinationOf t)
    (lowerAddress (member log "address"))
    value
    (member log "blockNumber").

(** ** Replays *)

(** The transaction hash an event carries ([transactionHash || hash]) is
    the hash of a persisted record. *)
Definition HashPersisted (w : World) (event : JsValue) : Prop :=
  exists v h r,
    (get event "transactionHash" ||| get event "hash") = Ok v
    /\ Repository.columnText E v = Some h
    /\ In r (transactions w)
    /\ Transaction.txHash r = h.

(** ** Reading a transfer *)

Definition canonical (tx : JsValue) : Canonical :=
  {| hash := jsOr (member tx "transactionHash") (member tx "hash");
     contract :=
       (let tokenAddressRaw :=
          jsOr (jsOr (jsOr (member tx "contract") (member tx "tokenAddress"))
                  (member tx "address")) (JsString "") in
        resBind (match tokenAddressRaw with
                 | JsString s => Ok s
                 | other => ToString rt other
                 end) (fun text => Ok (toLowerCase rt text)));
     symbol := jsOr (jsOr (member tx "tokenSymbol") (member tx "symbol"))
                 (JsString "UNKNOWN");
     decimals := numberIfString
                   (jsOr (jsOr (member tx "tokenDecimals") (member tx "decimals"))
                      (JsString "18"));
     quantity :=
       (let valueRaw :=
          jsOr (jsOr (member tx "value") (member tx "amount")) (JsString "0") in
        match valueRaw with
        | JsString s => stringToBigInt s
        | other => toBigInt rt other
        end);
     block := numberIfString
                (jsOr (jsOr (jsOr (optGet (member tx "block") "number")
                               (member tx "blockNumber")) (member tx "block"))
                   (JsString "0")) |}.

(** The text of the alert and of the message that follows the trade, or
    the error raised while the text is put together. *)
Definition alertText (c : Canonical) (amountFormatted : string) (amountUsd : float)
  : Res string :=
  BscTrackerService.transferMessage E (symbol c) amountFormatted amountUsd
    (hash c) (block c).

Definition shortText (c : Canonical) (amountUsd : float) : Res string :=
  BscTrackerService.shortMessage E (symbol c) amountUsd.

(** [handleTokenTransfer] from the valuation on: price, record, alert,
    threshold, trade. *)
Definition valuate (c : Canonical) (wallet : Wallet.t)
    (tokenAddress amountFormatted : string) : M unit :=
  tokenPrice <- PriceService.getTokenPriceInUsd E tokenAddress ;;
  price <- lift (ToNumber rt tokenPrice) ;;
  let amountUsd := PrimFloat.mul (parseFloat rt amountFormatted) price in
  txHashText <- lift (BscTrackerService.bindText E (hash c)) ;;
  transaction <- Repository.save E
    (draft c wallet tokenAddress txHashText amountFormatted amountUsd) ;;
  lift (interpolate rt (symbol c)) ;;;
  message <- lift (alertText c amountFormatted amountUsd) ;;
  TelegramService.sendNotification E (Wallet.chatId wallet) message ;;;
  if PrimFloat.leb (Wallet.thresholdUsd wallet) amountUsd then
    BscTrackerService.openShortPosition E transaction wallet ;;;
    text <- lift (shortText c amountUsd) ;;
    TelegramService.sendNotification E (Wallet.chatId wallet) text
  else ret tt.

(** [handleTokenTransfer] on what it read. *)
Definition ingest (c : Canonical) (wallet : Wallet.t) : M unit :=
  tryCatch
    (if negb (truthy (hash c)) then ret tt
     else
       tokenAddress <- lift (contract c) ;;
       valueBigInt <- lift (quantity c) ;;
       amountFormatted <- lift (formatUnits rt valueBigInt (decimals c)) ;;
       valuate c wallet tokenAddress amountFormatted)
    (fun _ => ret tt).

(** ** What the collaborators answer *)

(** The price [getTokenPriceInUsd] returns in world [w]. *)
Definition quote (tokenAddress : string) (w : World) : JsValue :=
  match priceResponse E w (toLowerCase rt tokenAddress) with
  | Some data =>
      match get data (toLowerCase rt tokenAddress) with
      | Ok entry =>
          if truthy (optGet entry "usd") then optGet entry "usd"
          else JsNumber PrimFloat.zero
      | Throw _ => JsNumber PrimFloat.zero
      end
  | None => JsNumber PrimFloat.zero
  end.

(** The market [findTradingPair] returns in world [w]: the [id] of the
    first listed pair of the symbol against USDT or USD, [null] otherwise. *)
Definition market (tokenSymbol : JsValue) (w : World) : JsValue :=
  let pairs := match pairsResponse E w with
               | Some data => data
               | None => JsArray []
               end in
  match callToUpperCase rt tokenSymbol with
  | Ok symbolUpper =>
      match GateioService.callFind pairs (GateioService.matchesSymbol E symbolUpper) with
      | Ok found =>
          if truthy found
          then match get found "id" with
               | Ok id => id
               | Throw _ => JsNull
               end
          else JsNull
      | Throw _ => JsNull
      end
  | Throw _ => JsNull
  end.

(** The order [openShortPosition] posts for a record. *)
Definition orderFor (tradingPair : JsValue) (r : Transaction.t) : JsValue :=
  JsObject
    [("currency_pair", tradingPair);
     ("side", JsString "sell");
     ("amount", JsString (NumberToString rt
                            (PrimFloat.div (Transaction.amountUsd r) (numberOfZ 100))));
     ("type", JsString "market")].

(** ** The worlds along one recorded transfer *)

(** The world after [openShortPosition] ran on a record whose flag is
    still false and whose symbol prints. *)
Definition afterTrade (r : Transaction.t) (w : World) : World :=
  let w1 := emit PairsRequest w in
  let tradingPair := market (Transaction.tokenSymbol r) w in
  if truthy tradingPair then
    let w2 := emit (OrderRequest (orderFor tradingPair r)) w1 in
    match orderResponse E w1 (orderFor tradingPair r) with
    | Some _ => snd (Repository.save E (Transaction.withShortOpened true r) w2)
    | None => w2
    end
  else w1.

(** The entity handed to the first [save], with its valuation at the unit
    price [price]. *)
Definition pending (c : Canonical) (wallet : Wallet.t)
    (tokenAddress h amountFormatted : string) (price : float) : Transaction.t :=
  draft c wallet tokenAddress h amountFormatted
    (PrimFloat.mul (parseFloat rt amountFormatted) price).

(** The record that [save] inserts. *)
Definition inserted (c : Canonical) (wallet : Wallet.t)
    (tokenAddress h amountFormatted : string) (price : float) (w : World)
  : Transaction.t :=
  Transaction.withId (Repository.nextId (transactions w))
    (pending c wallet tokenAddress h amountFormatted price).

(** The world after the price request. *)
Definition priced (tokenAddress : string) (w : World) : World :=
  emit (PriceRequest (toLowerCase rt tokenAddress)) w.

(** The world after the price request and the insertion of [r]. *)
Definition recorded (r : Transaction.t) (tokenAddress : string) (w : World) : World :=
  emit (InsertTransaction r)
    (withTransactions (transactions w ++ [r]) (priced tokenAddress w)).

(** The world after the price request, the insertion and the alert of
    text [text]. *)
Definition alerted (r : Transaction.t) (wallet : Wallet.t)
    (tokenAddress text : string) (w : World) : World :=
  emit (SendMessage (Wallet.chatId wallet) text) (recorded r tokenAddress w).

(** The world after [handleTokenTransfer] recorded a transfer as [r].
    When the alert cannot be put together the call ends there, with the
    record inserted; otherwise the alert is sent and, at or above the
    threshold, the trade is attempted and the second message follows. *)
Definition handled (c : Canonical) (r : Transaction.t) (wallet : Wallet.t)
    (tokenAddress : string) (w : World) : World :=
  match alertText c (Transaction.amount r) (Transaction.amountUsd r) with
  | Throw _ => recorded r tokenAddress w
  | Ok text =>
      if PrimFloat.leb (Wallet.thresholdUsd wallet) (Transaction.amountUsd r) then
        let w1 := afterTrade r (alerted r wallet tokenAddress text w) in
        match shortText c (Transaction.amountUsd r) with
        | Ok text' => emit (SendMessage (Wallet.chatId wallet) text') w1
        | Throw _ => w1
        end
      else alerted r wallet tokenAddress text w
  end.

(** A transfer reaches the valuation and its record is accepted: it
    carries a hash, its token address reads as [tokenAddress], its
    quantity as the integer [v], [formatUnits] prints it as
    [amountFormatted], the price the price service returns converts to the
    Number [price], the column takes the hash as [h], and the store does
    not reject the insertion. *)
Definition Recordable (tx : JsValue) (wallet : Wallet.t) (w : World)
    (tokenAddress h : string) (v : Z) (amountFormatted : string) (price : float)
  : Prop :=
  nullish tx = false
  /\ truthy (hash (canonical tx)) = true
  /\ contract (canonical tx) = Ok tokenAddress
  /\ quantity (canonical tx) = Ok v
  /\ formatUnits rt v (decimals (canonical tx)) = Ok amountFormatted
  /\ ToNumber rt (quote tokenAddress w) = Ok price
  /\ Repository.columnText E (hash (canonical tx)) = Some h
  /\ writeFails E (priced tokenAddress w)
       (pending (canonical tx) wallet tokenAddress h amountFormatted price) = false.

(** ** Sequences of deliveries *)

(** The world after a sequence of deliveries, each run to completion. *)
Definition deliverAll (bodies : list JsValue) (w : World) : World :=
  fold_left (fun w body => snd (WebhookController.deliver E body w)) bodies w.

End Vocabulary.

(* ------------------------------------------------------------------ *)
(** * Further vocabulary: batches, listings, collaborators              *)
(* ------------------------------------------------------------------ *)

(** An entry of a batch that is an object. *)
Definition isObject (v : JsValue) : bool :=
  match v with
  | JsObject _ => true
  | _ => false
  end.

Definition isString (v : JsValue) : bool :=
  match v with
  | JsString _ => true
  | _ => false
  end.

(** A pair of the exchange listing on which the callback of [pairs.find]
    does not throw: neither [null] nor [undefined], with a string [base]
    and a string [quote]. *)
Definition pairShaped (p : JsValue) : bool :=
  negb (nullish p) && isString (member p "base") && isString (member p "quote").

(** The pair trades the symbol against USDT or USD. *)
Definition pairMatches (rt : Runtime) (symbolUpper : string) (p : JsValue) : bool :=
  match member p "base", member p "quote" with
  | JsString b, JsString q =>
      String.eqb (toUpperCase rt b) symbolUpper
      && (String.eqb (toUpperCase rt q) "USDT" || String.eqb (toUpperCase rt q) "USD")
  | _, _ => false
  end.

(** The same collaborators with another chat. *)
Definition withTelegram (f : World -> Z -> string -> bool) (E : Env) : Env :=
  {| runtime := runtime E;
     ormText := ormText E;
     readFails := readFails E;
     writeFails := writeFails E;
     priceResponse := priceResponse E;
     pairsResponse := pairsResponse E;
     orderResponse := orderResponse E;
     telegramDelivers := f |}.

(** Two computations that behave alike in every world. *)
Definition alike {A} (m m' : M A) : Prop := forall w, m w = m' w.


(** The sample collaborators with an exchange that answers the listing
    [items]. *)
Definition envListing (items : list JsValue) : Env :=
  {| runtime := runtime Sample.env;
     ormText := ormText Sample.env;
     readFails := readFails Sample.env;
     writeFails := writeFails Sample.env;
     priceResponse := priceResponse Sample.env;
     pairsResponse := fun _ => Some (JsArray items);
     orderResponse := orderResponse Sample.env;
     telegramDelivers := telegramDelivers Sample.env |}.

Definition listed (id base quote : string) : JsValue :=
  JsObject [("id", JsString id); ("base", JsString base); ("quote", JsString quote)].

(** A string of hexadecimal digits. *)
Fixpoint allHexDigits (s : string) : bool :=
  match s with
  | EmptyString => true
  | String c r =>
      match digitIn 16 c with
      | Some _ => allHexDigits r
      | None => false
      end
  end.

(** A Transfer log to the monitored wallet whose [data] is [hex]. *)
Definition logWithData (hex : string) : JsValue :=
  JsObject
    [("topic0", JsString BscTrackerService.transferTopic);
     ("topic2", JsString "0x0000000000000000000000001111111111111111111111111111111111111ABC");
     ("data", JsString hex);
     ("address", JsString "0x0E09FABB73BD3ADE0A17ECC321FD13A19E81CE82");
     ("transactionHash", JsString "0xaa06");
     ("blockNumber", JsString "100")].

(* ------------------------------------------------------------------ *)
(** * Streams and bot commands                                          *)
(* ------------------------------------------------------------------ *)

(** What the bot commands and the stream management add to the world:
    the replies of the bot, the requests to the Streams API and every write
    to the wallet table, newest first. *)
Inductive BotEvent : Type :=
| Reply (chat : Z) (text : string)                    (* ctx.reply *)
| StreamsAdd (webhookUrl tag description : string)    (* Moralis.Streams.add *)
| StreamsAddAddress (id address : string)             (* Moralis.Streams.addAddress *)
| StreamsDelete (id : string)                         (* Moralis.Streams.delete *)
| InsertWallet (r : Wallet.t)
| UpdateWallet (r : Wallet.t)
| RemoveWallet (r : Wallet.t).

Record BotWorld : Type := {
  world : World;
  botTrace : list BotEvent
}.

Definition emitB (e : BotEvent) (bw : BotWorld) : BotWorld :=
  {| world := world bw; botTrace := e :: botTrace bw |}.

Definition withWallets (l : list Wallet.t) (bw : BotWorld) : BotWorld :=
  {| world := {| wallets := l;
                 transactions := transactions (world bw);
                 trace := trace (world bw) |};
     botTrace := botTrace bw |}.

(** What is thrown on these paths: the [Error] of [createStreamForWallet]
    for a missing base URL, a rejected request to the Streams API, a
    rejected statement of the store. *)
Inductive BotError : Type := ConfigError | StreamsError | StoreError.

Inductive Outcome (A : Type) : Type :=
| Done (a : A)
| Failed (e : BotError).

Arguments Done {A} a.
Arguments Failed {A} e.

(** The collaborators of the commands.  As for [Env], each answer may
    depend on everything that happened before. *)
Record BotEnv : Type := {
  env : Env;
  (** [process.env.WEBHOOK_BASE_URL]; [None] when it is not set *)
  WEBHOOK_BASE_URL : option string;
  (** the [id] of the stream [Moralis.Streams.add] created, [None] when
      the request is rejected *)
  streamsAdd : BotWorld -> string -> string -> string -> option string;
  (** whether [Moralis.Streams.addAddress] resolves *)
  streamsAddAddress : BotWorld -> string -> string -> bool;
  (** whether [Moralis.Streams.delete] resolves *)
  streamsDelete : BotWorld -> string -> bool;
  (** whether a read of the wallet table is rejected *)
  walletReadFails : BotWorld -> bool;
  (** whether the store rejects the write of a wallet *)
  walletWriteFails : BotWorld -> Wallet.t -> bool;
  (** whether the store rejects the removal of a wallet *)
  walletRemoveFails : BotWorld -> Wallet.t -> bool;
  (** the key the store generates for the next inserted wallet *)
  generatedWalletId : BotWorld -> nat
}.

(** State and exception monad of the commands. *)
Definition B (A : Type) : Type := BotWorld -> Outcome A * BotWorld.

Definition done {A} (a : A) : B A := fun bw => (Done a, bw).

Definition raise {A} (e : BotError) : B A := fun bw => (Failed e, bw).

Definition andThen {A C} (m : B A) (k : A -> B C) : B C :=
  fun bw =>
    match m bw with
    | (Done a, bw') => k a bw'
    | (Failed e, bw') => (Failed e, bw')
    end.

(** [try { m } catch (error) { handler }]. *)
Definition attempt {A} (m : B A) (handler : BotError -> B A) : B A :=
  fun bw =>
    match m bw with
    | (Done a, bw') => (Done a, bw')
    | (Failed e, bw') => handler e bw'
    end.

(** [for (const x of l) { await body(x) }]. *)
Fixpoint each {A} (l : list A) (body : A -> B unit) : B unit :=
  match l with
  | [] => done tt
  | x :: r => andThen (body x) (fun _ => each r body)
  end.

Declare Scope bot_scope.
Delimit Scope bot_scope with bot.
Notation "x <- m ;; k" := (andThen m (fun x => k))
  (at level 61, m at next level, right associativity) : bot_scope.
Notation "m ;;; k" := (andThen m (fun _ => k))
  (at level 61, right associativity) : bot_scope.

(** [ctx.reply(text)].  The promise it returns is not awaited by any
    command, so its outcome never reaches the handler. *)
Definition reply (chat : Z) (text : string) : B unit :=
  fun bw => (Done tt, emitB (Reply chat text) bw).

(** ** The wallet entity *)

Definition withWalletId (n : nat) (r : Wallet.t) : Wallet.t :=
  {| Wallet.id := n; Wallet.address := Wallet.address r;
     Wallet.chatId := Wallet.chatId r; Wallet.thresholdUsd := Wallet.thresholdUsd r;
     Wallet.isActive := Wallet.isActive r; Wallet.streamId := Wallet.streamId r |}.

(** [wallet.streamId = streamId]. *)
Definition withStreamId (s : option string) (r : Wallet.t) : Wallet.t :=
  {| Wallet.id := Wallet.id r; Wallet.address := Wallet.address r;
     Wallet.chatId := Wallet.chatId r; Wallet.thresholdUsd := Wallet.thresholdUsd r;
     Wallet.isActive := Wallet.isActive r; Wallet.streamId := s |}.

(** [wallet.thresholdUsd = amount]. *)
Definition withThresholdUsd (x : float) (r : Wallet.t) : Wallet.t :=
  {| Wallet.id := Wallet.id r; Wallet.address := Wallet.address r;
     Wallet.chatId := Wallet.chatId r; Wallet.thresholdUsd := x;
     Wallet.isActive := Wallet.isActive r; Wallet.streamId := Wallet.streamId r |}.

(** Truthiness of [wallet.streamId]: [null] and the empty string are
    falsy. *)
Definition hasStream (r : Wallet.t) : bool :=
  match Wallet.streamId r with
  | Some (String _ _) => true
  | _ => false
  end.

(** ** The wallet repository *)

Module WalletRepository.

Section WithEnv.

Variable BE : BotEnv.

Local Open Scope bot_scope.

Definition read {A} (query : list Wallet.t -> A) : B A :=
  fun bw =>
    if walletReadFails BE bw then (Failed StoreError, bw)
    else (Done (query (wallets (world bw))), bw).

(** [findOne({ where: { address } })]. *)
Definition findOneByAddress (address : string) : B (option Wallet.t) :=
  read (find (fun x => String.eqb (Wallet.address x) address)).

(** [findOne({ where: { address, chatId } })]. *)
Definition findOneByAddressAndChat (address : string) (chat : Z)
  : B (option Wallet.t) :=
  read (find (fun x => String.eqb (Wallet.address x) address
                       && Z.eqb (Wallet.chatId x) chat)).

(** [find({ where: { chatId } })]. *)
Definition findByChat (chat : Z) : B (list Wallet.t) :=
  read (filter (fun x => Z.eqb (Wallet.chatId x) chat)).

(** [find({ where: { chatId, isActive: true } })]. *)
Definition findActiveByChat (chat : Z) : B (list Wallet.t) :=
  read (filter (fun x => Z.eqb (Wallet.chatId x) chat && Wallet.isActive x)).

(** [find({ where: { isActive: true } })]. *)
Definition findActive : B (list Wallet.t) :=
  read (filter Wallet.isActive).

Definition hasId (n : nat) (l : list Wallet.t) : bool :=
  existsb (fun x => Nat.eqb (Wallet.id x) n) l.

(** The column [address] is unique: another row holds the address. *)
Definition addressTaken (r : Wallet.t) (l : list Wallet.t) : bool :=
  existsb (fun x => String.eqb (Wallet.address x) (Wallet.address r)
                    && negb (Nat.eqb (Wallet.id x) (Wallet.id r))) l.

Definition replaceById (r : Wallet.t) (l : list Wallet.t) : list Wallet.t :=
  map (fun x => if Nat.eqb (Wallet.id x) (Wallet.id r) then r else x) l.

Definition removeById (n : nat) (l : list Wallet.t) : list Wallet.t :=
  filter (fun x => negb (Nat.eqb (Wallet.id x) n)) l.

(** [walletRepository.save(entity)]: an entity without a key ([id] 0) is
    inserted under the key the store generates, an entity with a key
    overwrites its row.  The store rejects a key that is in use and an
    address that another row holds.  It returns the entity as it is after
    the call and changes nothing when it rejects the write. *)
Definition save (r : Wallet.t) : B Wallet.t :=
  fun bw =>
    let rows := wallets (world bw) in
    if walletWriteFails BE bw r then (Failed StoreError, bw)
    else if Nat.eqb (Wallet.id r) 0 then
      let r' := withWalletId (generatedWalletId BE bw) r in
      if Nat.eqb (Wallet.id r') 0 || hasId (Wallet.id r') rows || addressTaken r' rows
      then (Failed StoreError, bw)
      else (Done r', emitB (InsertWallet r') (withWallets (rows ++ [r']) bw))
    else if addressTaken r rows then (Failed StoreError, bw)
    else if hasId (Wallet.id r) rows then
      (Done r, emitB (UpdateWallet r) (withWallets (replaceById r rows) bw))
    else
      (Done r, emitB (InsertWallet r) (withWallets (rows ++ [r]) bw)).

(** [walletRepository.remove(entity)]: the row with the key of the
    entity is deleted. *)
Definition remove (r : Wallet.t) : B unit :=
  fun bw =>
    if walletRemoveFails BE bw r then (Failed StoreError, bw)
    else (Done tt,
          emitB (RemoveWallet r)
            (withWallets (removeById (Wallet.id r) (wallets (world bw))) bw)).

End WithEnv.

End WalletRepository.

(** ** BscTrackerService: the streams *)

Module BscTrackerStreams.

(** [baseUrl.replace(/\/$/, '')]: one slash at the very end is removed. *)
Fixpoint stripTrailingSlash (s : string) : string :=
  match s with
  | EmptyString => EmptyString
  | String c EmptyString => if Ascii.eqb c "/" then EmptyString else s
  | String c r => String c (stripTrailingSlash r)
  end.

Definition printNat (n : nat) : string := NilZero.string_of_uint (Nat.to_uint n).

Section WithEnv.

Variable BE : BotEnv.

Local Open Scope bot_scope.

(** Truthiness of [process.env.WEBHOOK_BASE_URL]. *)
Definition baseUrlSet : bool :=
  match WEBHOOK_BASE_URL BE with
  | Some (String _ _) => true
  | _ => false
  end.

(** [this.webhookUrl], fixed by the constructor. *)
Definition webhookUrl : string :=
  let baseUrl := match WEBHOOK_BASE_URL BE with
                 | Some (String c r) => String c r
                 | _ => "http://localhost:3000"
                 end in
  stripTrailingSlash baseUrl ++ "/webhook/moralis".

(** [Moralis.Streams.add(stream)] and [newStream.toJSON().id].  The
    other fields of [stream] (chain, ABI, topic, include flags) are
    constants. *)
Definition addStream (tag description : string) : B string :=
  fun bw =>
    match streamsAdd BE bw webhookUrl tag description with
    | Some id => (Done id, emitB (StreamsAdd webhookUrl tag description) bw)
    | None => (Failed StreamsError, emitB (StreamsAdd webhookUrl tag description) bw)
    end.

Definition addAddress (id address : string) : B unit :=
  fun bw =>
    if streamsAddAddress BE bw id address
    then (Done tt, emitB (StreamsAddAddress id address) bw)
    else (Failed StreamsError, emitB (StreamsAddAddress id address) bw).

Definition deleteStream (id : string) : B unit :=
  fun bw =>
    if streamsDelete BE bw id
    then (Done tt, emitB (StreamsDelete id) bw)
    else (Failed StreamsError, emitB (StreamsDelete id) bw).

(** The handler of the [catch] only writes log lines and rethrows.  No
    caller reads [wallet.streamId] of the entity object after the call, so
    the method is modelled by its effect on the world. *)
Definition createStreamForWallet (wallet : Wallet.t) : B unit :=
  attempt
    (if negb baseUrlSet then raise ConfigError
     else
       streamId <- addStream ("wallet_" ++ printNat (Wallet.id wallet))
                     ("Token transfers for wallet " ++ Wallet.address wallet) ;;
       addAddress streamId (Wallet.address wallet) ;;;
       WalletRepository.save BE (withStreamId (Some streamId) wallet) ;;;
       done tt)
    (fun error => raise error).

Definition deleteStreamForWallet (wallet : Wallet.t) : B unit :=
  attempt
    (match Wallet.streamId wallet with
     | Some (String c r) =>
         deleteStream (String c r) ;;;
         WalletRepository.save BE (withStreamId None wallet) ;;;
         done tt
     | _ => done tt
     end)
    (fun _ => done tt).

Definition initializeStreams : B unit :=
  activeWallets <- WalletRepository.findActive BE ;;
  each activeWallets (fun wallet =>
    if negb (hasStream wallet)
    then attempt (createStreamForWallet wallet) (fun _ => done tt)
    else done tt).

End WithEnv.

End BscTrackerStreams.

(** ** TelegramService: the commands *)

Module TelegramCommands.

(** [s.split(" ")]. *)
Fixpoint splitOnSpace (s : string) : list string :=
  match s with
  | EmptyString => [EmptyString]
  | String c r =>
      if Ascii.eqb c " " then EmptyString :: splitOnSpace r
      else match splitOnSpace r with
           | piece :: pieces => String c piece :: pieces
           | [] => [String c EmptyString]
           end
  end.

(** [ctx.message.text.split(" ")[1]]; [None] is [undefined]. *)
Definition argument (text : string) : option string :=
  nth_error (splitOnSpace text) 1.

Definition isHexDigit (c : ascii) : bool :=
  let n := nat_of_ascii c in
  ((48 <=? n)%nat && (n <=? 57)%nat)
  || ((97 <=? n)%nat && (n <=? 102)%nat)
  || ((65 <=? n)%nat && (n <=? 70)%nat).

Fixpoint allHex (s : string) : bool :=
  match s with
  | EmptyString => true
  | String c r => isHexDigit c && allHex r
  end.

(** [/^0x[a-fA-F0-9]{40}$/.test(address)]. *)
Definition isValidAddress (address : string) : bool :=
  match address with
  | String "0" (String "x" r) => Nat.eqb (String.length r) 40 && allHex r
  | _ => false
  end.

(** [isNaN(x)] on a Number. *)
Definition isNaN (x : float) : bool := negb (PrimFloat.eqb x x).

Section WithEnv.

Variable BE : BotEnv.

Let rt := runtime (env BE).

Local Open Scope bot_scope.

Definition newWallet (address : string) (chat : Z) : Wallet.t :=
  {| Wallet.id := 0;
     Wallet.address := toLowerCase rt address;
     Wallet.chatId := chat;
     Wallet.thresholdUsd := numberOfZ 1000;
     Wallet.isActive := true;
     Wallet.streamId := None |}.

Definition add_wallet (chat : Z) (text : string) : B unit :=
  match argument text with
  | None | Some EmptyString =>
      reply chat "Пожалуйста, укажите адрес кошелька: /add_wallet <address>"
  | Some address =>
      if negb (isValidAddress address)
      then reply chat "Неверный формат адреса кошелька"
      else
        attempt
          (existingWallet <- WalletRepository.findOneByAddress BE (toLowerCase rt address) ;;
           match existingWallet with
           | Some _ => reply chat ("Кошелек " ++ address ++ " уже отслеживается")
           | None =>
               wallet <- WalletRepository.save BE (newWallet address chat) ;;
               attempt (BscTrackerStreams.createStreamForWallet BE wallet)
                 (fun _ => done tt) ;;;
               reply chat ("Кошелек " ++ address
                           ++ " успешно добавлен! Порог по умолчанию: $1000 USD")
           end)
          (fun _ => reply chat "Ошибка при добавлении кошелька. Попробуйте еще раз.")
  end.

(** [parseFloat(ctx.message.text.split(" ")[1])]: [undefined] is
    converted to the string ["undefined"] first. *)
Definition amountOf (text : string) : float :=
  match argument text with
  | Some s => parseFloat rt s
  | None => parseFloat rt "undefined"
  end.

Definition set_threshold (chat : Z) (text : string) : B unit :=
  let amount := amountOf text in
  if isNaN amount || PrimFloat.leb amount PrimFloat.zero
  then reply chat
         "Пожалуйста, укажите корректную пороговую сумму: /set_threshold <amount>"
  else
    attempt
      (wallets <- WalletRepository.findByChat BE chat ;;
       if Nat.eqb (List.length wallets) 0
       then reply chat
              "Кошельки не найдены. Сначала добавьте кошелек: /add_wallet <address>"
       else
         each wallets (fun wallet =>
           WalletRepository.save BE (withThresholdUsd amount wallet) ;;; done tt) ;;;
         reply chat ("Порог установлен на $" ++ NumberToString rt amount
                     ++ " USD для всех ваших кошельков"))
      (fun _ => reply chat "Ошибка при установке порога. Попробуйте еще раз.").

Definition remove_wallet (chat : Z) (text : string) : B unit :=
  match argument text with
  | None | Some EmptyString =>
      reply chat "Пожалуйста, укажите адрес кошелька: /remove_wallet <address>"
  | Some address =>
      attempt
        (wallet <- WalletRepository.findOneByAddressAndChat BE (toLowerCase rt address) chat ;;
         match wallet with
         | None => reply chat ("Кошелек " ++ address ++ " не найден")
         | Some wallet =>
             attempt (BscTrackerStreams.deleteStreamForWallet BE wallet)
               (fun _ => done tt) ;;;
             WalletRepository.remove BE wallet ;;;
             reply chat ("Кошелек " ++ address ++ " успешно удален")
         end)
        (fun _ => reply chat "Ошибка при удалении кошелька. Попробуйте еще раз.")
  end.

(** The loop of [recreate_streams] with its two counters. *)
Fixpoint recreateEach (wallets : list Wallet.t) (successCount errorCount : nat)
  : B (nat * nat) :=
  match wallets with
  | [] => done (successCount, errorCount)
  | wallet :: rest =>
      recreated <-
        attempt
          ((if hasStream wallet
            then BscTrackerStreams.deleteStreamForWallet BE wallet
            else done tt) ;;;
           BscTrackerStreams.createStreamForWallet BE wallet ;;;
           done true)
          (fun _ => done false) ;;
      if recreated then recreateEach rest (S successCount) errorCount
      else recreateEach rest successCount (S errorCount)
  end.

Definition recreate_streams (chat : Z) : B unit :=
  attempt
    (reply chat "Пересоздание стримов..." ;;;
     wallets <- WalletRepository.findActiveByChat BE chat ;;
     if Nat.eqb (List.length wallets) 0
     then reply chat "У вас нет активных кошельков для пересоздания стримов"
     else
       counts <- recreateEach wallets 0 0 ;;
       reply chat ("Пересоздание стримов завершено." ++ LF
                   ++ "Успешно: " ++ BscTrackerStreams.printNat (fst counts) ++ LF
                   ++ "Ошибок: " ++ BscTrackerStreams.printNat (snd counts)))
    (fun _ => reply chat "Ошибка при пересоздании стримов. Проверьте логи.").

End WithEnv.

End TelegramCommands.

(** ** Vocabulary of the statements about the commands *)

(** The transaction table and the trace of the pipeline are as they
    were. *)
Definition sameLedger (bw bw' : BotWorld) : Prop :=
  transactions (world bw') = transactions (world bw)
  /\ trace (world bw') = trace (world bw).

(** The constraints of the wallet table: [id] is the primary key, a saved
    row has a key, [address] is unique. *)
Definition WellKeyed (rows : list Wallet.t) : Prop :=
  NoDup (map Wallet.id rows)
  /\ Forall (fun x => Wallet.id x <> 0%nat) rows
  /\ NoDup (map Wallet.address rows).

Definition isStreamsAdd (e : BotEvent) : bool :=
  match e with
  | StreamsAdd _ _ _ => true
  | _ => false
  end.

Definition isStreamRequest (e : BotEvent) : bool :=
  match e with
  | StreamsAdd _ _ _ | StreamsAddAddress _ _ | StreamsDelete _ => true
  | _ => false
  end.

Definition isWalletWrite (e : BotEvent) : bool :=
  match e with
  | InsertWallet _ | UpdateWallet _ | RemoveWallet _ => true
  | _ => false
  end.

(** The number of streams requested so far. *)
Definition streamsAdded (bw : BotWorld) : nat :=
  List.length (filter isStreamsAdd (botTrace bw)).

(** The report [recreate_streams] ends with. *)
Definition recreateReport (successCount errorCount : nat) : string :=
  "Пересоздание стримов завершено." ++ LF
  ++ "Успешно: " ++ BscTrackerStreams.printNat successCount ++ LF
  ++ "Ошибок: " ++ BscTrackerStreams.printNat errorCount.

(** ** Sample collaborators of the commands *)

Module BotSample.

Definition nextKey (bw : BotWorld) : nat :=
  S (fold_right Nat.max 0%nat (map Wallet.id (wallets (world bw)))).

(** A store that accepts everything and a Streams API that answers. *)
Definition botEnv : BotEnv :=
  {| env := Sample.env;
     WEBHOOK_BASE_URL := Some "https://tracker.example/";
     streamsAdd := fun _ _ tag _ => Some ("stream-for-" ++ tag);
     streamsAddAddress := fun _ _ _ => true;
     streamsDelete := fun _ _ => true;
     walletReadFails := fun _ => false;
     walletWriteFails := fun _ _ => false;
     walletRemoveFails := fun _ _ => false;
     generatedWalletId := nextKey |}.

(** The same with a Streams API that rejects every request. *)
Definition botEnvStreamsDown : BotEnv :=
  {| env := Sample.env;
     WEBHOOK_BASE_URL := Some "https://tracker.example/";
     streamsAdd := fun _ _ _ _ => None;
     streamsAddAddress := fun _ _ _ => false;
     streamsDelete := fun _ _ => false;
     walletReadFails := fun _ => false;
     walletWriteFails := fun _ _ => false;
     walletRemoveFails := fun _ _ => false;
     generatedWalletId := nextKey |}.

Definition otherAddress : string := "0x2222222222222222222222222222222222222def".

Definition otherWallet : Wallet.t :=
  {| Wallet.id := 2;
     Wallet.address := otherAddress;
     Wallet.chatId := 7;
     Wallet.thresholdUsd := numberOfZ 500;
     Wallet.isActive := true;
     Wallet.streamId := None |}.

(** No wallet is registered. *)
Definition fresh : BotWorld :=
  {| world := {| wallets := []; transactions := []; trace := [] |};
     botTrace := [] |}.

(** Chat 42 monitors [Sample.wallet], chat 7 monitors [otherWallet]. *)
Definition twoChats : BotWorld :=
  {| world := {| wallets := [Sample.wallet; otherWallet];
                 transactions := []; trace := [] |};
     botTrace := [] |}.

End BotSample.
(* ------------------------------------------------------------------ *)
(** * General facts about the effect monad                              *)
(* ------------------------------------------------------------------ *)

Section MonadFacts.

Lemma tryCatch_swallow (m : M unit) (w : World) :
  snd (m w) = w -> tryCatch m (fun _ => ret tt) w = (Ok tt, w).
Proof.
  unfold tryCatch, ret. destruct (m w) as [[[]|e] w']; simpl; intros ->; reflexivity.
Qed.

Lemma tryCatch_never_throws (m : M unit) (w : World) :
  fst (tryCatch m (fun _ => ret tt) w) = Ok tt.
Proof.
  unfold tryCatch, ret. destruct (m w) as [[[]|e] w']; reflexivity.
Qed.

Lemma tryCatch_snd (m : M unit) (w : World) :
  snd (tryCatch m (fun _ => ret tt) w) = snd (m w).
Proof.
  unfold tryCatch, ret. destruct (m w) as [[[]|e] w']; reflexivity.
Qed.

Lemma tryCatch_rethrow {A} (m : M A) (w : World) :
  tryCatch m (fun e => throw e) w = m w.
Proof.
  unfold tryCatch, throw. destruct (m w) as [[a|e] w']; reflexivity.
Qed.

Lemma tryCatch_Ok {A} (m : M A) (h : JsError -> M A) (w : World) (a : A) :
  fst (m w) = Ok a -> tryCatch m h w = m w.
Proof.
  unfold tryCatch. destruct (m w) as [[a'|e] w']; simpl; [reflexivity|discriminate].
Qed.

Lemma orElse_Ok (a b : JsValue) : orElse (Ok a) (Ok b) = Ok (jsOr a b).
Proof. unfold orElse, jsOr. destruct (truthy a); reflexivity. Qed.

Lemma get_member (v : JsValue) (k : string) :
  nullish v = false -> get v k = Ok (member v k).
Proof. unfold get. intros ->. reflexivity. Qed.

Lemma get_nullish (v : JsValue) (k : string) :
  nullish v = true -> get v k = Throw TypeError.
Proof. unfold get. intros ->. reflexivity. Qed.

Lemma jsOr_falsy (a b : JsValue) : truthy a = false -> jsOr a b = b.
Proof. unfold jsOr. intros ->. reflexivity. Qed.

Lemma jsOr_truthy (a b : JsValue) : truthy a = true -> jsOr a b = a.
Proof. unfold jsOr. intros ->. reflexivity. Qed.

Lemma truthy_jsOr_false (a b : JsValue) :
  truthy (jsOr a b) = false -> truthy a = false /\ truthy b = false.
Proof.
  unfold jsOr. destruct (truthy a) eqn:Ha; intros H; [congruence|auto].
Qed.

Lemma strictEq_string (v : JsValue) (s : string) :
  strictEq v (JsString s) = true -> v = JsString s.
Proof.
  destruct v; simpl; try discriminate. intros H.
  apply String.eqb_eq in H. congruence.
Qed.

End MonadFacts.

(** One case analysis on the head [match] of the goal. *)
Ltac branch :=
  match goal with
  | |- context [if ?b then _ else _] => destruct b eqn:?
  | |- context [match ?x with _ => _ end] => destruct x eqn:?
  end.

(* ------------------------------------------------------------------ *)
(** * Deliveries that are ignored                                       *)
(* ------------------------------------------------------------------ *)

Section Ignored.

Variable E : Env.

Let rt := runtime E.

Lemma interpolate_Prints (v : JsValue) : Prints E v <-> interpolate rt v = Ok tt.
Proof.
  unfold Prints, interpolate. fold rt. split.
  - intros [s ->]. reflexivity.
  - destruct (ToString rt v) as [s|e]; [eauto|discriminate].
Qed.

Lemma receivedLine_Ok (body : JsValue) :
  Prints E (optGet body "confirmed") ->
  Prints E (optGet body "streamId") ->
  BscTrackerService.receivedLine E body = Ok tt.
Proof.
  intros Hc Hs. unfold BscTrackerService.receivedLine.
  apply interpolate_Prints in Hc, Hs. fold rt. rewrite Hc. exact Hs.
Qed.

Lemma receivedLine_streamId (body : JsValue) :
  BscTrackerService.receivedLine E body = Ok tt ->
  interpolate rt (optGet body "streamId") = Ok tt.
Proof.
  unfold BscTrackerService.receivedLine. fold rt.
  destruct (interpolate rt (optGet body "confirmed")) as [[]|e];
    [intros H; exact H|discriminate].
Qed.

Lemma truthy_optGet (v : JsValue) (k : string) :
  truthy (optGet v k) = true -> get v k = Ok (optGet v k).
Proof.
  unfold optGet, get. destruct (nullish v); [discriminate|reflexivity].
Qed.

Lemma isTestWebhook_streamId (body : JsValue) :
  BscTrackerService.isTestWebhook body = true ->
  get body "streamId" = Ok (optGet body "streamId").
Proof.
  unfold BscTrackerService.isTestWebhook. intros H.
  apply andb_prop in H. destruct H as [H _].
  apply andb_prop in H. destruct H as [H _].
  apply andb_prop in H. destruct H as [_ H].
  apply truthy_optGet. exact H.
Qed.

(** The branch of the verification ping. *)
Lemma testWebhook_branch (body : JsValue) (w : World) :
  BscTrackerService.isTestWebhook body = true ->
  BscTrackerService.handleWebhookEvent E body w
  = (BscTrackerService.receivedLine E body, w).
Proof.
  intros Ht. unfold BscTrackerService.handleWebhookEvent. rewrite tryCatch_rethrow.
  unfold bind, lift, ret. rewrite Ht.
  destruct (BscTrackerService.receivedLine E body) as [[]|e] eqn:Hr; [|reflexivity].
  rewrite (isTestWebhook_streamId body Ht). fold rt.
  rewrite (receivedLine_streamId body Hr). reflexivity.
Qed.

Lemma unconfirmed_branch (body : JsValue) (w : World) :
  truthy (optGet body "confirmed") = false ->
  BscTrackerService.handleWebhookEvent E body w
  = (BscTrackerService.receivedLine E body, w).
Proof.
  intros Hc.
  destruct (BscTrackerService.isTestWebhook body) eqn:Ht;
    [apply testWebhook_branch; exact Ht|].
  unfold BscTrackerService.handleWebhookEvent. rewrite tryCatch_rethrow.
  unfold bind, lift, ret. rewrite Ht, Hc.
  destruct (BscTrackerService.receivedLine E body) as [[]|e]; reflexivity.
Qed.

Lemma deliver_world (body : JsValue) (w : World) :
  snd (BscTrackerService.handleWebhookEvent E body w) = w ->
  snd (WebhookController.deliver E body w) = w.
Proof.
  intros H. unfold WebhookController.deliver, WebhookController.handleMoralisWebhook.
  destruct (WebhookController.logDelivery E body) as [[]|e]; simpl; [|reflexivity].
  unfold WebhookController.deferred. rewrite tryCatch_snd. exact H.
Qed.

(** C4.  A delivery whose batch-level [confirmed] flag is falsy (false,
    absent, null) leaves the world as it was, whatever transfers and logs it
    carries: the repositories and the trace are unchanged after the
    pipeline ran and after the whole delivery, and the pipeline returns
    normally whenever its first log line can be written. *)
Theorem C4_unconfirmed_delivery_changes_nothing (body : JsValue) (w : World) :
  truthy (optGet body "confirmed") = false ->
  snd (BscTrackerService.handleWebhookEvent E body w) = w
  /\ (BscTrackerService.receivedLine E body = Ok tt ->
      BscTrackerService.handleWebhookEvent E body w = (Ok tt, w))
  /\ snd (WebhookController.deliver E body w) = w.
Proof.
  intros Hc. pose proof (unconfirmed_branch body w Hc) as H.
  split; [rewrite H; reflexivity|].
  split; [intros Hr; rewrite H, Hr; reflexivity|].
  apply deliver_world. rewrite H. reflexivity.
Qed.

Lemma noEntries_iterate (v : JsValue) :
  noEntries v -> iterate (jsOr v (JsArray [])) = Ok [].
Proof. intros [-> | ->]; reflexivity. Qed.

Lemma noEntries_not_positive (v : JsValue) :
  noEntries v -> gtZero rt (optGet v "length") = Ok false.
Proof. intros [-> | ->]; reflexivity. Qed.

Lemma noEntries_count (v : JsValue) :
  noEntries v ->
  interpolate rt (jsOr (optGet v "length") (JsNumber PrimFloat.zero)) = Ok tt.
Proof. intros [-> | ->]; reflexivity. Qed.

Lemma empty_delivery_changes_nothing (body : JsValue) (w : World) :
  noEntries (optGet body "erc20Transfers") ->
  noEntries (optGet body "logs") ->
  BscTrackerService.handleWebhookEvent E body w
  = (BscTrackerService.receivedLine E body, w).
Proof.
  intros Ht Hl.
  destruct (BscTrackerService.isTestWebhook body) eqn:Hp;
    [apply testWebhook_branch; exact Hp|].
  destruct (truthy (optGet body "confirmed")) eqn:Hc;
    [|apply unconfirmed_branch; exact Hc].
  unfold BscTrackerService.handleWebhookEvent. rewrite tryCatch_rethrow.
  unfold bind, lift, ret. rewrite Hp, Hc.
  destruct (BscTrackerService.receivedLine E body) as [[]|e]; [|reflexivity].
  cbn [negb]. cbv zeta.
  rewrite (noEntries_iterate _ Ht), (noEntries_iterate _ Hl). reflexivity.
Qed.

(** X27.  A verification ping whose [confirmed] flag and stream identifier print
    is answered with 200 and [{status: "ok"}]; processing it returns
    without an error and leaves the repositories and the trace untouched. *)
Theorem verification_ping_acknowledged_and_ignored (body : JsValue) (w : World) :
  VerificationPing body ->
  Prints E (optGet body "confirmed") ->
  Prints E (optGet body "streamId") ->
  WebhookController.deliver E body w = (acknowledged, w)
  /\ BscTrackerService.handleWebhookEvent E body w = (Ok tt, w).
Proof.
  intros (_ & _ & Ht & Hl) Hc Hs.
  pose proof (empty_delivery_changes_nothing body w Ht Hl) as H.
  rewrite (receivedLine_Ok body Hc Hs) in H.
  split; [|exact H].
  unfold WebhookController.deliver, WebhookController.handleMoralisWebhook,
    WebhookController.logDelivery. fold rt.
  apply interpolate_Prints in Hc, Hs. fold rt in Hc, Hs.
  rewrite (noEntries_count _ Ht), Hc, Hs, (noEntries_not_positive _ Ht).
  cbn [resBind]. unfold WebhookController.deferred.
  rewrite (tryCatch_swallow _ w) by (rewrite H; reflexivity). reflexivity.
Qed.

(** C5.  The ping [{"tag": "t", "streamId": {"toString": 1},
    "erc20Transfers": [], "logs": []}] carries a tag and a stream
    identifier and neither transfers nor logs, and is not acknowledged: the
    controller throws a TypeError while it prints the stream identifier
    for a log line, before it schedules the processing and before it sends
    the response, so the caller receives the 500 of the framework.  The
    processing of the same ping throws on its own first log line. *)
Theorem C5_unprintable_ping_is_answered_500 (w : World) :
  VerificationPing Sample.unprintablePing
  /\ WebhookController.handleMoralisWebhook E Sample.unprintablePing = Throw TypeError
  /\ WebhookController.deliver E Sample.unprintablePing w
     = (WebhookController.internalServerError, w)
  /\ WebhookController.status
       (fst (WebhookController.deliver E Sample.unprintablePing w)) <> 200
  /\ BscTrackerService.handleWebhookEvent E Sample.unprintablePing w
     = (Throw TypeError, w).
Proof.
  split.
  { unfold VerificationPing, noEntries. cbn.
    repeat split; try discriminate; right; reflexivity. }
  repeat split; try reflexivity. cbn. discriminate.
Qed.

End Ignored.

Lemma C4_unconfirmed_delivery_witness :
  truthy (optGet Sample.unconfirmedDelivery "confirmed") = false
  /\ snd (BscTrackerService.handleWebhookEvent Sample.env Sample.unconfirmedDelivery
            Sample.emptyWorld)
     = Sample.emptyWorld
  /\ (BscTrackerService.receivedLine Sample.env Sample.unconfirmedDelivery = Ok tt ->
      BscTrackerService.handleWebhookEvent Sample.env Sample.unconfirmedDelivery
        Sample.emptyWorld
      = (Ok tt, Sample.emptyWorld))
  /\ snd (WebhookController.deliver Sample.env Sample.unconfirmedDelivery
            Sample.emptyWorld)
     = Sample.emptyWorld.
Proof.
  split; [reflexivity|].
  apply (C4_unconfirmed_delivery_changes_nothing Sample.env Sample.unconfirmedDelivery
           Sample.emptyWorld).
  reflexivity.
Defined.

Lemma verification_ping_acknowledged_and_ignored_witness :
  VerificationPing Sample.ping
  /\ Prints Sample.env (optGet Sample.ping "confirmed")
  /\ Prints Sample.env (optGet Sample.ping "streamId")
  /\ WebhookController.deliver Sample.env Sample.ping Sample.emptyWorld
     = (acknowledged, Sample.emptyWorld)
  /\ BscTrackerService.handleWebhookEvent Sample.env Sample.ping Sample.emptyWorld
     = (Ok tt, Sample.emptyWorld).
Proof.
  assert (H : VerificationPing Sample.ping).
  { unfold VerificationPing, noEntries. simpl.
    repeat split; try discriminate; right; reflexivity. }
  assert (Hc : Prints Sample.env (optGet Sample.ping "confirmed"))
    by (eexists; reflexivity).
  assert (Hs : Prints Sample.env (optGet Sample.ping "streamId"))
    by (eexists; reflexivity).
  split; [exact H|]. split; [exact Hc|]. split; [exact Hs|].
  apply (verification_ping_acknowledged_and_ignored Sample.env Sample.ping
           Sample.emptyWorld H Hc Hs).
Defined.

(* ------------------------------------------------------------------ *)
(** * Replayed transfers                                                *)
(* ------------------------------------------------------------------ *)

Section Replay.

Variable E : Env.

Lemma findByHash_present (r : Transaction.t) (l : list Transaction.t) :
  In r l -> exists r', Repository.findByHash (Transaction.txHash r) l = Some r'.
Proof.
  intros Hin. unfold Repository.findByHash.
  destruct (find _ l) as [r'|] eqn:Hf; [eauto|].
  apply (find_none _ _ Hf) in Hin. rewrite String.eqb_refl in Hin. discriminate.
Qed.

(** Looking up a persisted hash either fails or finds a record; it never
    answers that there is none. *)
Lemma findTransaction_present (w : World) (v : JsValue) (r : Transaction.t) :
  Repository.columnText E v = Some (Transaction.txHash r) ->
  In r (transactions w) ->
  (exists r', Repository.findTransaction E v w = (Ok (Some r'), w))
  \/ Repository.findTransaction E v w = (Throw LibraryError, w).
Proof.
  intros Hc Hin. unfold Repository.findTransaction. rewrite Hc.
  destruct (readFails E w); [right; reflexivity|left].
  destruct (findByHash_present r _ Hin) as [r' ->]. eauto.
Qed.

Lemma processERC20Transfer_replay (w : World) (transfer : JsValue) :
  HashPersisted E w transfer ->
  BscTrackerService.processERC20Transfer E transfer w = (Ok tt, w).
Proof.
  intros (v & h & r & Hv & Hc & Hin & <-).
  unfold BscTrackerService.processERC20Transfer.
  apply tryCatch_swallow.
  unfold bind, lift, ret, Repository.findWallet. rewrite Hv.
  destruct (findTransaction_present w v r Hc Hin) as [[r' Hf] | Hf];
    repeat (first [rewrite Hf | branch]; simpl; try reflexivity; try congruence).
Qed.

Lemma processTransferLog_replay (w : World) (log : JsValue) :
  HashPersisted E w log ->
  BscTrackerService.processTransferLog E log w = (Ok tt, w).
Proof.
  intros (v & h & r & Hv & Hc & Hin & <-).
  unfold BscTrackerService.processTransferLog.
  apply tryCatch_swallow.
  unfold bind, lift, ret, Repository.findWallet. rewrite Hv.
  destruct (findTransaction_present w v r Hc Hin) as [[r' Hf] | Hf];
    repeat (first [rewrite Hf | branch]; simpl; try reflexivity; try congruence).
Qed.

(** C1.  Processing an event whose transaction hash is already the hash of
    a persisted record changes nothing, for a structured transfer and for a
    log entry alike: the call returns normally in the same world, hence
    with no new record, no message sent and no request to the exchange. *)
Theorem C1_replayed_hash_is_a_no_op (w : World) (event : JsValue) :
  HashPersisted E w event ->
  BscTrackerService.processERC20Transfer E event w = (Ok tt, w)
  /\ BscTrackerService.processTransferLog E event w = (Ok tt, w).
Proof.
  intros H. split.
  - apply processERC20Transfer_replay, H.
  - apply processTransferLog_replay, H.
Qed.

End Replay.

Lemma C1_replayed_hash_witness :
  HashPersisted Sample.env Sample.worldWithRecord Sample.smallTransfer
  /\ BscTrackerService.processERC20Transfer Sample.env Sample.smallTransfer
       Sample.worldWithRecord
     = (Ok tt, Sample.worldWithRecord)
  /\ BscTrackerService.processTransferLog Sample.env Sample.smallTransfer
       Sample.worldWithRecord
     = (Ok tt, Sample.worldWithRecord).
Proof.
  assert (H : HashPersisted Sample.env Sample.worldWithRecord Sample.smallTransfer).
  { exists (JsString "0xaa01"), "0xaa01", Sample.recorded.
    repeat split; try reflexivity. left. reflexivity. }
  split; [exact H|].
  apply (C1_replayed_hash_is_a_no_op Sample.env Sample.worldWithRecord
           Sample.smallTransfer H).
Defined.

(* ------------------------------------------------------------------ *)
(** * The method factors through the canonical transfer                 *)
(* ------------------------------------------------------------------ *)

Section CanonicalTransfer.

Variable E : Env.

Lemma handleTokenTransfer_canonical (tx : JsValue) (wallet : Wallet.t) (w : World) :
  nullish tx = false ->
  BscTrackerService.handleTokenTransfer E tx wallet w
  = ingest E (canonical E tx) wallet w.
Proof.
  intros Hn.
  unfold BscTrackerService.handleTokenTransfer, ingest, valuate, canonical.
  rewrite !(get_member tx _ Hn). cbn [resBind].
  rewrite !orElse_Ok.
  cbv beta iota zeta delta [tryCatch bind lift ret resBind numberIfString
                              hash quantity decimals symbol contract block
                              draft alertText shortText].
  destruct (truthy (jsOr (member tx "transactionHash") (member tx "hash")));
    [|reflexivity].
  cbn [negb].
  match goal with
  | |- context [match ?x with JsString _ => Ok _ | _ => _ end] =>
      destruct x; try reflexivity
  end;
  match goal with
  | |- context [ToString ?r ?v] => destruct (ToString r v); reflexivity
  end.
Qed.

Lemma handleTokenTransfer_nullish (tx : JsValue) (wallet : Wallet.t) (w : World) :
  nullish tx = true ->
  BscTrackerService.handleTokenTransfer E tx wallet w = (Ok tt, w).
Proof.
  intros Hn. unfold BscTrackerService.handleTokenTransfer.
  rewrite (get_nullish tx _ Hn). reflexivity.
Qed.

Lemma handleTokenTransfer_never_throws (tx : JsValue) (wallet : Wallet.t) (w : World) :
  fst (BscTrackerService.handleTokenTransfer E tx wallet w) = Ok tt.
Proof. apply tryCatch_never_throws. Qed.

End CanonicalTransfer.

(* ------------------------------------------------------------------ *)
(** * The decimals of a transfer                                        *)
(* ------------------------------------------------------------------ *)

Section Decimals.

Variable E : Env.

Lemma lookup_filter (k k' : string) (fs : list (string * JsValue)) :
  lookup k' (filter (fun kv => negb (String.eqb k (fst kv))) fs)
  = if String.eqb k k' then None else lookup k' fs.
Proof.
  induction fs as [|[k0 v] fs IH]; simpl.
  - destruct (String.eqb k k'); reflexivity.
  - destruct (String.eqb k k0) eqn:Hk0; simpl.
    + apply String.eqb_eq in Hk0. subst k0. rewrite IH.
      rewrite (String.eqb_sym k' k). destruct (String.eqb k k'); reflexivity.
    + rewrite IH. destruct (String.eqb k' k0) eqn:Hk'; [|reflexivity].
      apply String.eqb_eq in Hk'. subst k0. rewrite Hk0. reflexivity.
Qed.

Lemma member_withoutField (k k' : string) (tx : JsValue) :
  String.eqb k k' = false -> member (withoutField k tx) k' = member tx k'.
Proof.
  intros Hk. destruct tx; try reflexivity. simpl.
  rewrite lookup_filter, Hk. reflexivity.
Qed.

Lemma member_withoutField_same (k : string) (tx : JsValue) :
  truthy (member tx k) = false -> truthy (member (withoutField k tx) k) = false.
Proof.
  intros H. destruct tx; try exact H. simpl.
  rewrite lookup_filter, String.eqb_refl. reflexivity.
Qed.

Lemma nullish_withoutField (k : string) (tx : JsValue) :
  nullish (withoutField k tx) = nullish tx.
Proof. destruct tx; reflexivity. Qed.

Lemma canonical_without_decimals (tx : JsValue) :
  truthy (jsOr (member tx "tokenDecimals") (member tx "decimals")) = false ->
  canonical E (withoutField "tokenDecimals" (withoutField "decimals" tx))
  = canonical E tx.
Proof.
  intros H. apply truthy_jsOr_false in H. destruct H as [Ht Hd].
  unfold canonical.
  pose proof (member_withoutField_same "tokenDecimals"
                (withoutField "decimals" tx)) as Ht'.
  rewrite (member_withoutField "decimals" "tokenDecimals") in Ht' by reflexivity.
  specialize (Ht' Ht).
  assert (Hd' : truthy (member (withoutField "tokenDecimals"
                                  (withoutField "decimals" tx)) "decimals") = false).
  { rewrite (member_withoutField "tokenDecimals" "decimals") by reflexivity.
    apply member_withoutField_same, Hd. }
  rewrite (jsOr_falsy _ _ Ht'), (jsOr_falsy _ _ Hd').
  rewrite (jsOr_falsy _ _ Ht), (jsOr_falsy _ _ Hd).
  rewrite !(member_withoutField "tokenDecimals") by reflexivity.
  rewrite !(member_withoutField "decimals") by reflexivity.
  reflexivity.
Qed.

(** C10.  [handleTokenTransfer] formats the quantity with the unit
    [decimals (canonical tx)].  When no alias of the decimals field holds a
    truthy value - the field is absent, or present with the number 0 - that
    unit is the number 18 and the whole call runs as on the payload without
    the field.  A truthy value is used as given, a string through
    [parseInt]: the string "0" yields the unit 0. *)
Theorem C10_falsy_decimals_default_to_18 (tx : JsValue) (wallet : Wallet.t) (w : World) :
  nullish tx = false ->
  let declared := jsOr (member tx "tokenDecimals") (member tx "decimals") in
  BscTrackerService.handleTokenTransfer E tx wallet w
    = ingest E (canonical E tx) wallet w
  /\ (truthy declared = false ->
      decimals (canonical E tx) = JsNumber (numberOfZ 18)
      /\ BscTrackerService.handleTokenTransfer E tx wallet w
         = BscTrackerService.handleTokenTransfer E
             (withoutField "tokenDecimals" (withoutField "decimals" tx)) wallet w)
  /\ (truthy declared = true ->
      decimals (canonical E tx) = numberIfString declared)
  /\ (declared = JsNumber PrimFloat.zero ->
      decimals (canonical E tx) = JsNumber (numberOfZ 18))
  /\ (declared = JsString "0" ->
      decimals (canonical E tx) = JsNumber PrimFloat.zero).
Proof.
  intros Hn declared.
  split; [apply handleTokenTransfer_canonical, Hn|].
  split; [|split; [|split]].
  - intros Hf. split.
    + unfold canonical; cbn [decimals]. fold declared.
      rewrite (jsOr_falsy _ _ Hf). reflexivity.
    + rewrite (handleTokenTransfer_canonical E tx wallet w Hn).
      rewrite handleTokenTransfer_canonical
        by (rewrite !nullish_withoutField; exact Hn).
      rewrite (canonical_without_decimals tx Hf). reflexivity.
  - intros Ht. unfold canonical; cbn [decimals]. fold declared.
    rewrite (jsOr_truthy _ _ Ht). reflexivity.
  - intros Hd. unfold canonical; cbn [decimals]. fold declared.
    rewrite Hd. reflexivity.
  - intros Hd. unfold canonical; cbn [decimals]. fold declared.
    rewrite Hd. reflexivity.
Qed.

End Decimals.

Lemma C10_falsy_decimals_witness :
  nullish Sample.zeroDecimalsTransfer = false
  /\ decimals (canonical Sample.env Sample.zeroDecimalsTransfer)
     = JsNumber (numberOfZ 18)
  /\ snd (BscTrackerService.handleTokenTransfer Sample.env
            Sample.zeroDecimalsTransfer Sample.wallet Sample.emptyWorld)
     = snd (BscTrackerService.handleTokenTransfer Sample.env
              (withoutField "tokenDecimals"
                 (withoutField "decimals" Sample.zeroDecimalsTransfer))
              Sample.wallet Sample.emptyWorld).
Proof.
  split; [reflexivity|].
  destruct (C10_falsy_decimals_default_to_18 Sample.env Sample.zeroDecimalsTransfer
              Sample.wallet Sample.emptyWorld eq_refl) as (_ & H & _).
  destruct (H eq_refl) as [H18 Hrun].
  split; [exact H18|]. rewrite Hrun. reflexivity.
Defined.

(* ------------------------------------------------------------------ *)
(** * Indexed log entries                                               *)
(* ------------------------------------------------------------------ *)

Section LogEntries.

Variable E : Env.

Let rt := runtime E.

Lemma trimEnd_cons (c : ascii) (r : string) :
  isSpace c = false -> trimEnd (String c r) = String c (trimEnd r).
Proof.
  intros Hc. cbn [trimEnd]. rewrite Hc. destruct (trimEnd r); reflexivity.
Qed.

Lemma length_trimEnd (s : string) : (String.length (trimEnd s) <= String.length s)%nat.
Proof.
  induction s as [|c r IH]; [apply Nat.le_refl|].
  cbn [trimEnd]. destruct (trimEnd r) as [|c' r'].
  - destruct (isSpace c); simpl; lia.
  - simpl in *. lia.
Qed.

Lemma length_substring (a n : nat) (s : string) :
  (String.length (substring a n s) <= n)%nat.
Proof.
  revert a n. induction s as [|c r IH]; intros a n.
  - destruct a, n; simpl; lia.
  - destruct a as [|a]; destruct n as [|n]; simpl; try lia.
    + specialize (IH 0%nat n). lia.
    + apply IH.
    + apply IH.
Qed.

Lemma substring_all (n : nat) (s : string) :
  (String.length s <= n)%nat -> substring 0 n s = s.
Proof.
  revert n. induction s as [|c r IH]; intros n Hn.
  - destruct n; reflexivity.
  - destruct n as [|n]; simpl in *; [lia|]. rewrite IH by lia. reflexivity.
Qed.

Lemma digitIn_range (radix : Z) (c : ascii) (d : Z) :
  digitIn radix c = Some d -> (0 <= d < radix)%Z.
Proof.
  unfold digitIn, digitValue. cbv zeta.
  repeat match goal with
         | |- context [if ?b then _ else _] => destruct b eqn:?
         end; intros H; try discriminate; injection H as <-; lia.
Qed.

Lemma allDigits_bound (radix : Z) (s : string) :
  (0 < radix)%Z ->
  forall acc z,
    (0 <= acc)%Z -> allDigits radix acc s = Some z ->
    (0 <= z < (acc + 1) * radix ^ Z.of_nat (String.length s))%Z.
Proof.
  intros Hr. induction s as [|c r IH]; intros acc z Hacc H.
  - simpl in H. injection H as <-. simpl. lia.
  - cbn [allDigits] in H. destruct (digitIn radix c) as [d|] eqn:Hd; [|discriminate].
    apply digitIn_range in Hd.
    apply IH in H; [|nia].
    cbn [String.length]. rewrite Nat2Z.inj_succ, Z.pow_succ_r by lia.
    assert (Hp : (0 < radix ^ Z.of_nat (String.length r))%Z)
      by (apply Z.pow_pos_nonneg; lia).
    split; [lia|]. nia.
Qed.

Lemma stringToBigInt_0x (t : string) :
  stringToBigInt ("0x" ++ t) = nonEmptyDigits 16 (trimEnd t).
Proof.
  unfold stringToBigInt.
  change (trimStart ("0x" ++ t)) with (String "0" (String "x" t)).
  rewrite !trimEnd_cons by reflexivity. reflexivity.
Qed.

Lemma quantity_transferOfLog (txHash tokenAddress blockNumber : JsValue)
    (toAddress t : string) :
  quantity (canonical E (BscTrackerService.transferOfLog txHash toAddress tokenAddress
                           ("0x" ++ t) blockNumber))
  = nonEmptyDigits 16 (trimEnd t).
Proof.
  unfold canonical, quantity, BscTrackerService.transferOfLog.
  set (tx := JsObject _).
  change (member tx "value") with (JsString ("0x" ++ t)).
  change (jsOr (jsOr (JsString ("0x" ++ t)) (member tx "amount")) (JsString "0"))
    with (JsString ("0x" ++ t)).
  cbv zeta. apply stringToBigInt_0x.
Qed.

Lemma digitIn_not_space (radix : Z) (c : ascii) (d : Z) :
  digitIn radix c = Some d -> isSpace c = false.
Proof.
  destruct c as [[] [] [] [] [] [] [] []]; try reflexivity;
    unfold digitIn; cbn; discriminate.
Qed.

Lemma trimEnd_hex (s : string) : allHexDigits s = true -> trimEnd s = s.
Proof.
  induction s as [|c r IH]; [reflexivity|]. cbn [allHexDigits].
  destruct (digitIn 16 c) as [d|] eqn:Hd; [|discriminate].
  intros H. rewrite trimEnd_cons by (apply (digitIn_not_space 16 c d Hd)).
  rewrite (IH H). reflexivity.
Qed.

Lemma allDigits_hex (s : string) (acc : Z) :
  allHexDigits s = true -> exists z, allDigits 16 acc s = Some z.
Proof.
  revert acc. induction s as [|c r IH]; intros acc; [simpl; eauto|].
  cbn [allHexDigits allDigits].
  destruct (digitIn 16 c) as [d|]; [|discriminate]. intros H. apply IH, H.
Qed.

Lemma stringToBigInt_slice_bound (d : string) (z : Z) :
  stringToBigInt ("0x" ++ sliceLast 64 d) = Ok z -> (0 <= z < 2 ^ 256)%Z.
Proof.
  rewrite stringToBigInt_0x. unfold nonEmptyDigits.
  destruct (trimEnd (sliceLast 64 d)) as [|c r] eqn:Ht; [discriminate|].
  destruct (allDigits 16 0 (String c r)) as [z'|] eqn:Hd; [|discriminate].
  intros H. injection H as <-.
  apply allDigits_bound in Hd; [|lia|lia].
  assert (Hl : (String.length (String c r) <= 64)%nat).
  { rewrite <- Ht. etransitivity; [apply length_trimEnd|].
    unfold sliceLast. apply length_substring. }
  assert (Hp : (16 ^ Z.of_nat (String.length (String c r)) <= 16 ^ 64)%Z)
    by (apply Z.pow_le_mono_r; lia).
  change (2 ^ 256)%Z with (16 ^ 64)%Z. lia.
Qed.

Lemma stringToBigInt_slice_hex (d : string) :
  sliceLast 64 d <> "" ->
  allHexDigits (sliceLast 64 d) = true ->
  exists z, stringToBigInt ("0x" ++ sliceLast 64 d) = Ok z
            /\ allDigits 16 0 (sliceLast 64 d) = Some z.
Proof.
  intros Hne Hx. rewrite stringToBigInt_0x, (trimEnd_hex _ Hx).
  destruct (allDigits_hex _ 0%Z Hx) as [z Hz]. exists z.
  unfold nonEmptyDigits. rewrite Hz.
  destruct (sliceLast 64 d); [congruence|]. split; reflexivity.
Qed.

Lemma dataValue_string (d : string) :
  d <> "" ->
  BscTrackerService.dataValue E (JsString d) = Ok ("0x" ++ sliceLast 64 d).
Proof. destruct d; [congruence|reflexivity]. Qed.

Lemma dataValue_falsy (v : JsValue) :
  truthy v = false -> BscTrackerService.dataValue E v = Ok "0x0".
Proof. unfold BscTrackerService.dataValue. intros ->. reflexivity. Qed.

Lemma strictEq_string_false (v : JsValue) (s : string) :
  v <> JsString s -> strictEq v (JsString s) = false.
Proof.
  intros H. destruct (strictEq v (JsString s)) eqn:He; [|reflexivity].
  apply strictEq_string in He. contradiction.
Qed.

Lemma strictEq_string_refl (s : string) : strictEq (JsString s) (JsString s) = true.
Proof. apply String.eqb_refl. Qed.

(** An entry with another first topic is skipped. *)
Lemma logStep_other_topic (log : JsValue) (w : World) :
  member log "topic0" <> JsString BscTrackerService.transferTopic ->
  snd (BscTrackerService.logStep E log w) = w
  /\ (nullish log = false -> BscTrackerService.logStep E log w = (Ok tt, w)).
Proof.
  intros H0. unfold BscTrackerService.logStep, bind, lift, get.
  destruct (nullish log); [split; [reflexivity|discriminate]|].
  rewrite (strictEq_string_false _ _ H0). split; reflexivity.
Qed.

(** A processed entry is handled as the transfer [transferFor]. *)
Lemma logStep_processed (log : JsValue) (w : World) (t value : string)
    (wallet : Wallet.t) :
  Processed E log w t wallet ->
  BscTrackerService.dataValue E (member log "data") = Ok value ->
  BscTrackerService.logStep E log w
  = BscTrackerService.handleTokenTransfer E (transferFor E log t value) wallet w.
Proof.
  intros (H0 & H2 & Hne & Hrf & Hw & Ha & Hh & (h & Hc & Hf) & Haddr) Hv.
  assert (Hn : nullish log = false)
    by (destruct log; try reflexivity; discriminate H0).
  unfold BscTrackerService.logStep. unfold bind at 1, lift at 1.
  rewrite (get_member _ _ Hn), H0, strictEq_string_refl.
  unfold BscTrackerService.processTransferLog.
  match goal with
  | |- tryCatch ?m _ w = ?r => assert (Hb : m w = r)
  end.
  { unfold bind, lift, ret, Repository.findWallet, Repository.findTransaction.
    rewrite !(get_member _ _ Hn), !orElse_Ok, H2.
    destruct t as [|c t']; [congruence|].
    cbn [truthy negb callSliceLast resBind callToLowerCase].
    unfold destinationOf in Hw. fold rt in Hw |- *.
    rewrite Hrf, Hw, Ha, Hh, Hc. cbn [negb]. cbv beta iota. rewrite Hrf, Hf.
    rewrite Hv.
    unfold transferFor, destinationOf, lowerAddress. fold rt.
    destruct Haddr as [Hna | [a Hsa]].
    - rewrite Hna. destruct (member log "address"); try discriminate; reflexivity.
    - rewrite Hsa. reflexivity. }
  rewrite (tryCatch_Ok _ _ _ tt); [exact Hb|].
  rewrite Hb. apply handleTokenTransfer_never_throws.
Qed.

Lemma dataValue_prefixed (v : JsValue) (value : string) :
  BscTrackerService.dataValue E v = Ok value ->
  exists digits, value = "0x" ++ digits.
Proof.
  unfold BscTrackerService.dataValue.
  destruct (truthy v).
  - destruct (callSliceLast 64 v) as [t|e]; [|discriminate]. cbn [resBind].
    destruct (ToString (runtime E) t) as [digits|e]; [|discriminate].
    intros H. injection H as <-. eexists. reflexivity.
  - intros H. injection H as <-. exists "0". reflexivity.
Qed.

Lemma quantity_transferFor (log : JsValue) (t value : string) :
  BscTrackerService.dataValue E (member log "data") = Ok value ->
  quantity (canonical E (transferFor E log t value)) = stringToBigInt value.
Proof.
  intros Hv. destruct (dataValue_prefixed _ _ Hv) as [digits ->].
  unfold transferFor. rewrite quantity_transferOfLog, stringToBigInt_0x. reflexivity.
Qed.

(** C6.  A log entry whose first topic is not the Transfer signature hash
    is skipped.  A processed entry - one that passes every test up to
    [handleTokenTransfer] - is handled as the transfer whose [toAddress] is
    ["0x"] followed by the last 40 characters of the third topic in lower
    case, and whose [value] is ["0x"] followed by the last 64 characters
    of the data field when that is a non-empty string, ["0x0"] when the
    entry has no data; the quantity is the integer that numeral denotes.
    When the last 64 characters of the data are hexadecimal digits the
    quantity is the integer they denote, and every quantity that is read
    lies below 2^256. *)
Theorem C6_log_entry_normalization (log : JsValue) (w : World) (t : string)
    (wallet : Wallet.t) :
  (member log "topic0" <> JsString BscTrackerService.transferTopic ->
   snd (BscTrackerService.logStep E log w) = w)
  /\ (Processed E log w t wallet ->
      forall value,
        BscTrackerService.dataValue E (member log "data") = Ok value ->
        let transfer := transferFor E log t value in
        BscTrackerService.logStep E log w
        = BscTrackerService.handleTokenTransfer E transfer wallet w
        /\ member transfer "toAddress"
           = JsString ("0x" ++ toLowerCase rt (sliceLast 40 t))
        /\ member transfer "value" = JsString value
        /\ quantity (canonical E transfer) = stringToBigInt value)
  /\ (forall d, d <> "" ->
      BscTrackerService.dataValue E (JsString d) = Ok ("0x" ++ sliceLast 64 d))
  /\ (forall v, truthy v = false -> BscTrackerService.dataValue E v = Ok "0x0")
  /\ (forall d, sliceLast 64 d <> "" -> allHexDigits (sliceLast 64 d) = true ->
      exists z, stringToBigInt ("0x" ++ sliceLast 64 d) = Ok z
                /\ allDigits 16 0 (sliceLast 64 d) = Some z)
  /\ (forall d z, stringToBigInt ("0x" ++ sliceLast 64 d) = Ok z ->
      (0 <= z < 2 ^ 256)%Z).
Proof.
  split; [intros H0; apply logStep_other_topic, H0|].
  split.
  { intros Hp value Hv transfer.
    split; [apply logStep_processed; assumption|].
    split; [reflexivity|]. split; [reflexivity|].
    apply quantity_transferFor, Hv. }
  split; [apply dataValue_string|].
  split; [apply dataValue_falsy|].
  split; [apply stringToBigInt_slice_hex|apply stringToBigInt_slice_bound].
Qed.

End LogEntries.

Lemma C6_log_entry_witness :
  Processed Sample.env Sample.transferLog Sample.emptyWorld
    "0x0000000000000000000000001111111111111111111111111111111111111ABC"
    Sample.wallet
  /\ BscTrackerService.dataValue Sample.env (member Sample.transferLog "data")
     = Ok "0x0000000000000000000000000000000000000000000000004563918244f40000"
  /\ exists transfer,
       member transfer "toAddress" = JsString Sample.walletAddress
       /\ member transfer "value"
          = JsString "0x0000000000000000000000000000000000000000000000004563918244f40000"
       /\ quantity (canonical Sample.env transfer) = Ok 5000000000000000000%Z
       /\ BscTrackerService.logStep Sample.env Sample.transferLog Sample.emptyWorld
          = BscTrackerService.handleTokenTransfer Sample.env transfer Sample.wallet
              Sample.emptyWorld.
Proof.
  assert (Hp : Processed Sample.env Sample.transferLog Sample.emptyWorld
                 "0x0000000000000000000000001111111111111111111111111111111111111ABC"
                 Sample.wallet).
  { unfold Processed. repeat split; try reflexivity; try discriminate.
    - exists "0xaa03". split; reflexivity.
    - right. eexists. reflexivity. }
  assert (Hv : BscTrackerService.dataValue Sample.env (member Sample.transferLog "data")
               = Ok "0x0000000000000000000000000000000000000000000000004563918244f40000")
    by reflexivity.
  split; [exact Hp|]. split; [exact Hv|].
  destruct (C6_log_entry_normalization Sample.env Sample.transferLog Sample.emptyWorld
              "0x0000000000000000000000001111111111111111111111111111111111111ABC"
              Sample.wallet)
    as (_ & H & _).
  destruct (H Hp _ Hv) as (Hrun & Hto & Hval & Hq).
  eexists. split; [exact Hto|]. split; [exact Hval|]. split; [|exact Hrun].
  rewrite Hq. reflexivity.
Defined.

(** C6, as the specification words it.  The entry [Sample.shortDataLog] is
    processed; its data, [0x1bc16d674ec80000], denotes 2 * 10^18; the last
    64 characters of the data are the whole of it, prefix included, so the
    numeral handed to [BigInt] is malformed: the entry has no quantity and
    is dropped.  The entry [Sample.noDataLog] has no data at all and is
    recorded, with the quantity 0. *)
Lemma C6_quantity_is_not_always_the_data :
  Processed Sample.env Sample.shortDataLog Sample.emptyWorld
    "0x0000000000000000000000001111111111111111111111111111111111111ABC"
    Sample.wallet
  /\ member Sample.shortDataLog "data" = JsString "0x1bc16d674ec80000"
  /\ stringToBigInt "0x1bc16d674ec80000" = Ok 2000000000000000000%Z
  /\ BscTrackerService.logStep Sample.env Sample.shortDataLog Sample.emptyWorld
     = BscTrackerService.handleTokenTransfer Sample.env
         (transferFor Sample.env Sample.shortDataLog
            "0x0000000000000000000000001111111111111111111111111111111111111ABC"
            "0x0x1bc16d674ec80000")
         Sample.wallet Sample.emptyWorld
  /\ quantity (canonical Sample.env
                 (transferFor Sample.env Sample.shortDataLog
                    "0x0000000000000000000000001111111111111111111111111111111111111ABC"
                    "0x0x1bc16d674ec80000"))
     = Throw SyntaxError
  /\ BscTrackerService.logStep Sample.env Sample.shortDataLog Sample.emptyWorld
     = (Ok tt, Sample.emptyWorld)
  /\ Processed Sample.env Sample.noDataLog Sample.emptyWorld
       "0x0000000000000000000000001111111111111111111111111111111111111ABC"
       Sample.wallet
  /\ member Sample.noDataLog "data" = JsUndefined
  /\ quantity (canonical Sample.env
                 (transferFor Sample.env Sample.noDataLog
                    "0x0000000000000000000000001111111111111111111111111111111111111ABC"
                    "0x0"))
     = Ok 0%Z
  /\ map Transaction.amount
       (transactions (snd (BscTrackerService.logStep Sample.env Sample.noDataLog
                             Sample.emptyWorld)))
     = ["0.0"].
Proof.
  split.
  { unfold Processed. repeat split; try reflexivity; try discriminate.
    - exists "0xaa07". split; reflexivity.
    - right. eexists. reflexivity. }
  do 5 (split; [vm_compute; reflexivity|]).
  split.
  { unfold Processed. repeat split; try reflexivity; try discriminate.
    - exists "0xaa08". split; reflexivity.
    - right. eexists. reflexivity. }
  repeat split; vm_compute; reflexivity.
Qed.

(* ------------------------------------------------------------------ *)
(** * The webhook endpoint                                              *)
(* ------------------------------------------------------------------ *)

Section Endpoint.

Variable E : Env.

Let rt := runtime E.

(** The scheduled task never throws: whatever [handleWebhookEvent] raises
    is caught by the callback. *)
Lemma deferred_never_throws (body : JsValue) (w : World) :
  fst (WebhookController.deferred E body w) = Ok tt.
Proof. apply tryCatch_never_throws. Qed.

(** Once the log lines went through, the response is the acknowledgement,
    whatever the pipeline does afterwards. *)
Lemma deliver_acknowledges (body : JsValue) (w : World) :
  WebhookController.logDelivery E body = Ok tt ->
  fst (WebhookController.deliver E body w) = acknowledged.
Proof.
  intros H. unfold WebhookController.deliver, WebhookController.handleMoralisWebhook.
  rewrite H. reflexivity.
Qed.

Lemma ToNumber_Prints (v : JsValue) :
  Prints E v -> exists x, ToNumber rt v = Ok x.
Proof.
  intros [s Hs]. fold rt in Hs.
  destruct v as [ | |[]|x|t|l|fs]; try (eexists; reflexivity);
    unfold ToNumber; rewrite Hs; eexists; reflexivity.
Qed.

Lemma ToNumber_falsy (v : JsValue) :
  truthy v = false -> exists x, ToNumber rt v = Ok x.
Proof.
  destruct v as [ | |[]|x|t|l|fs]; intros H; try discriminate H;
    eexists; reflexivity.
Qed.

Lemma gtZero_total (v : JsValue) :
  Prints E (jsOr v (JsNumber PrimFloat.zero)) -> exists b, gtZero rt v = Ok b.
Proof.
  intros H. unfold gtZero.
  assert (Hx : exists x, ToNumber rt v = Ok x).
  { unfold jsOr in H. destruct (truthy v) eqn:Ht.
    - apply ToNumber_Prints, H.
    - apply ToNumber_falsy, Ht. }
  destruct Hx as [x ->]. eexists. reflexivity.
Qed.

(** The log lines go through on a delivery that is [Loggable]. *)
Lemma logDelivery_Ok (body : JsValue) :
  Loggable E body -> WebhookController.logDelivery E body = Ok tt.
Proof.
  intros (Hn & Hc & Hs & Hfirst). unfold WebhookController.logDelivery. fold rt.
  destruct (gtZero_total _ Hn) as [b Hb].
  apply (interpolate_Prints E) in Hn, Hc, Hs. fold rt in Hn, Hc, Hs.
  rewrite Hn, Hc, Hs, Hb. cbn [resBind].
  destruct b; [|reflexivity].
  destruct (Hfirst Hb) as (H0 & Hto & Hfrom & Hvalue & Hsymbol).
  apply (interpolate_Prints E) in Hto, Hfrom, Hvalue, Hsymbol.
  fold rt in Hto, Hfrom, Hvalue, Hsymbol.
  destruct (nullish body) eqn:Hnb.
  { destruct body; discriminate || (simpl in H0; discriminate). }
  unfold optGet in H0, Hto, Hfrom, Hvalue, Hsymbol.
  rewrite Hnb in H0, Hto, Hfrom, Hvalue, Hsymbol.
  rewrite (get_member _ _ Hnb). cbn [resBind].
  destruct (nullish (member body "erc20Transfers")) eqn:Ht.
  { destruct (member body "erc20Transfers"); discriminate || (simpl in H0; discriminate). }
  rewrite (get_member _ _ Ht). cbn [resBind].
  rewrite !(get_member _ _ H0). cbn [resBind].
  rewrite Hto, Hfrom, Hvalue. cbn [resBind]. exact Hsymbol.
Qed.

(** C2.  On the delivery [{"confirmed": true, "erc20Transfers": [null]}]
    the controller method throws a TypeError while it writes its log lines,
    before it schedules the processing and before it sends the response:
    the caller receives the 500 of the framework and the world is left as
    it was. *)
Theorem C2_null_transfer_is_answered_500 (w : World) :
  WebhookController.handleMoralisWebhook E nullTransferDelivery = Throw TypeError
  /\ WebhookController.deliver E nullTransferDelivery w
     = (WebhookController.internalServerError, w)
  /\ WebhookController.status (fst (WebhookController.deliver E nullTransferDelivery w))
     <> 200.
Proof.
  split; [reflexivity|]. split; [reflexivity|]. simpl. discriminate.
Qed.

End Endpoint.

(* ------------------------------------------------------------------ *)
(** * What one recorded transfer does to the world                      *)
(* ------------------------------------------------------------------ *)

Section Runs.

Variable E : Env.

Let rt := runtime E.

Lemma bind_run {A B} (m : M A) (k : A -> M B) (w w' : World) (a : A) :
  m w = (Ok a, w') -> bind m k w = k a w'.
Proof. unfold bind. intros ->. reflexivity. Qed.

Lemma bind_throw {A B} (m : M A) (k : A -> M B) (w w' : World) (e : JsError) :
  m w = (Throw e, w') -> bind m k w = (Throw e, w').
Proof. unfold bind. intros ->. reflexivity. Qed.

Lemma bind_lift {A B} (r : Res A) (k : A -> M B) (w : World) :
  bind (lift r) k w = match r with Ok a => k a w | Throw e => (Throw e, w) end.
Proof. unfold bind, lift. destruct r; reflexivity. Qed.

Lemma tryCatch_unit (m : M unit) (w : World) :
  tryCatch m (fun _ => ret tt) w = (Ok tt, snd (m w)).
Proof. unfold tryCatch, ret. destruct (m w) as [[[]|e] w']; reflexivity. Qed.

Lemma sendNotification_run (chat : Z) (text : string) (w : World) :
  TelegramService.sendNotification E chat text w = (Ok tt, emit (SendMessage chat text) w).
Proof.
  unfold TelegramService.sendNotification, TelegramService.sendMessage, tryCatch.
  destruct (telegramDelivers E w chat text); reflexivity.
Qed.

Lemma getTokenPriceInUsd_run (tokenAddress : string) (w : World) :
  PriceService.getTokenPriceInUsd E tokenAddress w
  = (Ok (quote E tokenAddress w), priced E tokenAddress w).
Proof.
  unfold PriceService.getTokenPriceInUsd, PriceService.requestPrice, quote, priced,
    tryCatch, bind, lift, ret. fold rt.
  destruct (priceResponse E w (toLowerCase rt tokenAddress)) as [data|]; [|reflexivity].
  destruct (get data (toLowerCase rt tokenAddress)) as [entry|e]; [|reflexivity].
  destruct (truthy (optGet entry "usd")); reflexivity.
Qed.

Lemma findTradingPair_run (tokenSymbol : JsValue) (w : World) :
  GateioService.findTradingPair E tokenSymbol w
  = (Ok (market E tokenSymbol w), emit PairsRequest w).
Proof.
  unfold GateioService.findTradingPair, GateioService.getTradingPairs, market,
    tryCatch, bind, lift, ret. fold rt.
  destruct (pairsResponse E w) as [data|];
    (destruct (callToUpperCase rt tokenSymbol) as [up|e]; [|reflexivity];
     destruct (GateioService.callFind _ _) as [found|e]; [|reflexivity];
     destruct (truthy found); [|reflexivity];
     destruct (get found "id"); reflexivity).
Qed.

Lemma openShortPosition_run (r : Transaction.t) (wallet : Wallet.t) (w : World) :
  Transaction.shortOpened r = false ->
  interpolate rt (Transaction.tokenSymbol r) = Ok tt ->
  BscTrackerService.openShortPosition E r wallet w = (Ok tt, afterTrade E r w).
Proof.
  intros Hs Hp. unfold BscTrackerService.openShortPosition, afterTrade.
  rewrite Hs. rewrite tryCatch_unit. f_equal. fold rt.
  rewrite bind_lift, Hp.
  rewrite (bind_run _ _ _ _ _ (findTradingPair_run _ _)).
  destruct (truthy (market E (Transaction.tokenSymbol r) w)); cbn [negb].
  - cbv beta iota zeta delta [bind lift ret tryCatch throw orderFor
                                GateioService.openShortPosition
                                GateioService.makeAuthenticatedRequest].
    fold rt.
    destruct (orderResponse E (emit PairsRequest w) _); [|reflexivity].
    destruct (Repository.save _ _ _) as [[r'|e] w']; reflexivity.
  - reflexivity.
Qed.

(** The alert is put together from the symbol first: when it prints so
    does the line logged before it, and so does the second message. *)
Lemma alertText_symbol (c : Canonical) (amountFormatted : string) (amountUsd : float)
    (text : string) :
  alertText E c amountFormatted amountUsd = Ok text ->
  interpolate rt (symbol c) = Ok tt.
Proof.
  unfold alertText, BscTrackerService.transferMessage, interpolate. fold rt.
  destruct (ToString rt (symbol c)); [reflexivity|discriminate].
Qed.

Lemma alertText_shortText (c : Canonical) (amountFormatted : string)
    (amountUsd amountUsd' : float) (text : string) :
  alertText E c amountFormatted amountUsd = Ok text ->
  exists text', shortText E c amountUsd' = Ok text'.
Proof.
  unfold alertText, shortText, BscTrackerService.transferMessage,
    BscTrackerService.shortMessage. fold rt.
  destruct (ToString rt (symbol c)); [eexists; reflexivity|discriminate].
Qed.

Lemma interpolate_alertText (c : Canonical) (amountFormatted : string)
    (amountUsd : float) (e : JsError) :
  interpolate rt (symbol c) = Throw e ->
  alertText E c amountFormatted amountUsd = Throw e.
Proof.
  unfold alertText, BscTrackerService.transferMessage, interpolate. fold rt.
  destruct (ToString rt (symbol c)); [discriminate|].
  intros H. injection H as <-. reflexivity.
Qed.

(** The valuation of a transfer that is recorded: what it returns and the
    world it leaves. *)
Lemma valuate_run (c : Canonical) (wallet : Wallet.t)
    (tokenAddress h amountFormatted : string) (price : float) (w : World) :
  ToNumber rt (quote E tokenAddress w) = Ok price ->
  Repository.columnText E (hash c) = Some h ->
  writeFails E (priced E tokenAddress w)
    (pending E c wallet tokenAddress h amountFormatted price) = false ->
  let r := inserted E c wallet tokenAddress h amountFormatted price w in
  valuate E c wallet tokenAddress amountFormatted w
  = (match alertText E c amountFormatted (Transaction.amountUsd r) with
     | Ok _ =>
         if PrimFloat.leb (Wallet.thresholdUsd wallet) (Transaction.amountUsd r)
         then match shortText E c (Transaction.amountUsd r) with
              | Ok _ => Ok tt
              | Throw e => Throw e
              end
         else Ok tt
     | Throw e => Throw e
     end,
     handled E c r wallet tokenAddress w).
Proof.
  intros Hp Hh Hw r. unfold valuate. fold rt.
  rewrite (bind_run _ _ _ _ _ (getTokenPriceInUsd_run _ _)).
  rewrite bind_lift, Hp.
  unfold BscTrackerService.bindText. rewrite Hh. rewrite bind_lift.
  assert (Hsave : Repository.save E
                    (draft c wallet tokenAddress h amountFormatted
                       (PrimFloat.mul (parseFloat rt amountFormatted) price))
                    (priced E tokenAddress w)
                  = (Ok r, recorded E r tokenAddress w)).
  { unfold Repository.save. unfold pending in Hw. fold rt in Hw. rewrite Hw.
    reflexivity. }
  rewrite (bind_run _ _ _ _ _ Hsave).
  unfold handled.
  change (Transaction.amount r) with amountFormatted.
  change (PrimFloat.mul (parseFloat rt amountFormatted) price)
    with (Transaction.amountUsd r).
  rewrite bind_lift.
  destruct (interpolate rt (symbol c)) as [[]|e] eqn:Hi.
  2:{ rewrite (interpolate_alertText _ _ _ _ Hi). reflexivity. }
  rewrite bind_lift.
  destruct (alertText E c amountFormatted (Transaction.amountUsd r)) as [text|e]
    eqn:Ha; [|reflexivity].
  rewrite (bind_run _ _ _ _ _ (sendNotification_run _ _ _)).
  fold (alerted E r wallet tokenAddress text w).
  destruct (PrimFloat.leb _ _); [|reflexivity].
  rewrite (bind_run _ _ _ _ _
             (openShortPosition_run r wallet _ eq_refl Hi)).
  rewrite bind_lift.
  destruct (shortText E c (Transaction.amountUsd r)) as [text'|e']; [|reflexivity].
  rewrite sendNotification_run. reflexivity.
Qed.

(** When the store rejects the insertion, only the price request left the
    process. *)
Lemma valuate_rejected (c : Canonical) (wallet : Wallet.t)
    (tokenAddress h amountFormatted : string) (price : float) (w : World) :
  ToNumber rt (quote E tokenAddress w) = Ok price ->
  Repository.columnText E (hash c) = Some h ->
  writeFails E (priced E tokenAddress w)
    (pending E c wallet tokenAddress h amountFormatted price) = true ->
  snd (valuate E c wallet tokenAddress amountFormatted w) = priced E tokenAddress w.
Proof.
  intros Hp Hh Hw. unfold valuate. fold rt.
  rewrite (bind_run _ _ _ _ _ (getTokenPriceInUsd_run _ _)).
  rewrite bind_lift, Hp.
  unfold BscTrackerService.bindText. rewrite Hh. rewrite bind_lift.
  unfold bind, Repository.save. unfold pending in Hw. fold rt in Hw. rewrite Hw.
  reflexivity.
Qed.

Lemma handleTokenTransfer_run (tx : JsValue) (wallet : Wallet.t) (w : World)
    (tokenAddress h : string) (v : Z) (amountFormatted : string) (price : float) :
  Recordable E tx wallet w tokenAddress h v amountFormatted price ->
  BscTrackerService.handleTokenTransfer E tx wallet w
  = (Ok tt,
     handled E (canonical E tx)
       (inserted E (canonical E tx) wallet tokenAddress h amountFormatted price w)
       wallet tokenAddress w).
Proof.
  intros (Hn & Ht & Hc & Hq & Hf & Hp & Hh & Hw).
  rewrite (handleTokenTransfer_canonical E tx wallet w Hn).
  unfold ingest. rewrite tryCatch_unit. f_equal.
  rewrite Ht. cbn [negb]. fold rt.
  rewrite bind_lift, Hc, bind_lift, Hq, bind_lift. fold rt in Hf. rewrite Hf.
  rewrite (valuate_run _ _ _ h _ price _ Hp Hh Hw). reflexivity.
Qed.

End Runs.

Section Valuation.

Variable E : Env.

Let rt := runtime E.

Lemma save_trace (r : Transaction.t) (w : World) :
  trace (snd (Repository.save E r w)) = trace w
  \/ exists r', trace (snd (Repository.save E r w)) = InsertTransaction r' :: trace w
                \/ trace (snd (Repository.save E r w)) = UpdateTransaction r' :: trace w.
Proof.
  unfold Repository.save.
  destruct (writeFails E w r); [left; reflexivity|right].
  destruct (Nat.eqb (Transaction.id r) 0); [eexists; left; reflexivity|].
  destruct (Repository.hasId _ _); eexists; [right|left]; reflexivity.
Qed.

Lemma save_keeps (r x : Transaction.t) (w : World) :
  In x (transactions w) ->
  exists x', In x' (transactions (snd (Repository.save E r w)))
             /\ Transaction.id x' = Transaction.id x
             /\ (x' = x \/ x' = r).
Proof.
  intros Hin. unfold Repository.save.
  destruct (writeFails E w r); [exists x; auto|].
  destruct (Nat.eqb (Transaction.id r) 0).
  { exists x. simpl. rewrite in_app_iff. auto. }
  destruct (Repository.hasId _ _).
  2:{ exists x. simpl. rewrite in_app_iff. auto. }
  simpl. unfold Repository.replaceById.
  destruct (Nat.eqb (Transaction.id x) (Transaction.id r)) eqn:Hid.
  - exists r. split; [|split; [apply Nat.eqb_eq in Hid; congruence|auto]].
    apply in_map_iff. exists x. rewrite Hid. auto.
  - exists x. split; [|auto].
    apply in_map_iff. exists x. rewrite Hid. auto.
Qed.

Lemma id_below_nextId (x : Transaction.t) (l : list Transaction.t) :
  In x l -> (Transaction.id x < Repository.nextId l)%nat.
Proof.
  unfold Repository.nextId. induction l as [|y l IH]; simpl; [tauto|].
  intros [-> | Hin]; [lia|]. specialize (IH Hin). lia.
Qed.

Lemma nextId_fresh (l : list Transaction.t) :
  Repository.hasId (Repository.nextId l) l = false.
Proof.
  unfold Repository.hasId. destruct (existsb _ l) eqn:Hex; [|reflexivity].
  apply existsb_exists in Hex. destruct Hex as (x & Hin & Hid).
  apply Nat.eqb_eq in Hid. apply id_below_nextId in Hin. lia.
Qed.

(** The three ways [openShortPosition] ends, as traces. *)
Lemma afterTrade_trace_cases (r : Transaction.t) (w : World) :
  exists events,
    trace (afterTrade E r w) = (events ++ PairsRequest :: trace w)%list
    /\ Forall (fun e => match e with
                        | OrderRequest _ | InsertTransaction _ | UpdateTransaction _ => True
                        | _ => False
                        end) events.
Proof.
  unfold afterTrade.
  destruct (truthy _); [|exists []; split; [reflexivity|constructor]].
  destruct (orderResponse E _ _).
  2:{ eexists [_]. split; [reflexivity|]. repeat constructor. }
  destruct (save_trace (Transaction.withShortOpened true r)
              (emit (OrderRequest (orderFor E (market E (Transaction.tokenSymbol r) w) r))
                 (emit PairsRequest w))) as [-> | [r' [-> | ->]]].
  - eexists [_]. split; [reflexivity|]. repeat constructor.
  - eexists [_; _]. split; [reflexivity|]. repeat constructor.
  - eexists [_; _]. split; [reflexivity|]. repeat constructor.
Qed.


Lemma afterTrade_messages (r : Transaction.t) (w : World) :
  messagesSent (afterTrade E r w) = messagesSent w.
Proof.
  unfold messagesSent.
  destruct (afterTrade_trace_cases r w) as (events & -> & Hev).
  rewrite filter_app, length_app. simpl.
  assert (H : filter isSendMessage events = []).
  { induction Hev as [|e l He Hl IH]; [reflexivity|].
    simpl. destruct e; simpl in *; try contradiction; exact IH. }
  rewrite H. reflexivity.
Qed.

Lemma afterTrade_trace (r : Transaction.t) (w : World) (e : Event) :
  In e (trace w) -> In e (trace (afterTrade E r w)).
Proof.
  intros Hin. destruct (afterTrade_trace_cases r w) as (events & -> & _).
  apply in_or_app. right. right. exact Hin.
Qed.

Lemma afterTrade_keeps (r : Transaction.t) (w : World) :
  In r (transactions w) ->
  exists r', In r' (transactions (afterTrade E r w))
             /\ Transaction.id r' = Transaction.id r
             /\ (r' = r \/ r' = Transaction.withShortOpened true r).
Proof.
  intros Hin. unfold afterTrade.
  destruct (truthy _); [|exists r; simpl; auto].
  destruct (orderResponse E _ _); [|exists r; simpl; auto].
  apply save_keeps. exact Hin.
Qed.

(** The requests [openShortPosition] sends: the lookup, then the order
    when a market is found. *)
Lemma afterTrade_orders (r : Transaction.t) (w : World) :
  let tradingPair := market E (Transaction.tokenSymbol r) w in
  exists events,
    trace (afterTrade E r w) = (events ++ PairsRequest :: trace w)%list
    /\ ~ In PairsRequest events
    /\ (forall e, In e events -> isSendMessage e = false)
    /\ (forall o, In (OrderRequest o) events
                  <-> truthy tradingPair = true /\ o = orderFor E tradingPair r).
Proof.
  intros tradingPair. unfold afterTrade. fold tradingPair.
  destruct (truthy tradingPair).
  2:{ exists []. split; [reflexivity|]. split; [tauto|]. split; [intros e []|].
      intros o. split; [intros []|intros [H _]; discriminate H]. }
  assert (Hone : forall o, In (OrderRequest o) [OrderRequest (orderFor E tradingPair r)]
                           <-> true = true /\ o = orderFor E tradingPair r).
  { intros o. split.
    - intros [H|[]]. injection H as <-. auto.
    - intros [_ ->]. left. reflexivity. }
  destruct (orderResponse E _ _).
  2:{ exists [OrderRequest (orderFor E tradingPair r)].
      split; [reflexivity|]. split; [intros [H|[]]; discriminate H|].
      split; [intros e [<-|[]]; reflexivity|exact Hone]. }
  destruct (save_trace (Transaction.withShortOpened true r)
              (emit (OrderRequest (orderFor E tradingPair r)) (emit PairsRequest w)))
    as [-> | [r' [-> | ->]]].
  - exists [OrderRequest (orderFor E tradingPair r)].
    split; [reflexivity|]. split; [intros [H|[]]; discriminate H|].
    split; [intros e [<-|[]]; reflexivity|exact Hone].
  - exists [InsertTransaction r'; OrderRequest (orderFor E tradingPair r)].
    split; [reflexivity|].
    split; [intros [H|[H|[]]]; discriminate H|].
    split; [intros e [<-|[<-|[]]]; reflexivity|].
    intros o. rewrite <- Hone. split.
    + intros [H|H]; [discriminate H|exact H].
    + intros H. right. exact H.
  - exists [UpdateTransaction r'; OrderRequest (orderFor E tradingPair r)].
    split; [reflexivity|].
    split; [intros [H|[H|[]]]; discriminate H|].
    split; [intros e [<-|[<-|[]]]; reflexivity|].
    intros o. rewrite <- Hone. split.
    + intros [H|H]; [discriminate H|exact H].
    + intros H. right. exact H.
Qed.

Lemma recorded_trace (r : Transaction.t) (a : string) (w : World) :
  trace (recorded E r a w)
  = InsertTransaction r :: PriceRequest (toLowerCase rt a) :: trace w.
Proof. reflexivity. Qed.

Lemma recorded_transactions (r : Transaction.t) (a : string) (w : World) :
  transactions (recorded E r a w) = (transactions w ++ [r])%list.
Proof. reflexivity. Qed.

Lemma inserted_in_alerted (r : Transaction.t) (wallet : Wallet.t) (a text : string)
    (w : World) :
  In r (transactions (alerted E r wallet a text w)).
Proof. unfold alerted. simpl. rewrite in_app_iff. right. left. reflexivity. Qed.


Lemma handled_records (c : Canonical) (r : Transaction.t) (wallet : Wallet.t)
    (a : string) (w : World) :
  In (InsertTransaction r) (trace (handled E c r wallet a w))
  /\ exists r', In r' (transactions (handled E c r wallet a w))
                /\ Transaction.id r' = Transaction.id r
                /\ (r' = r \/ r' = Transaction.withShortOpened true r).
Proof.
  unfold handled.
  destruct (alertText E c _ _) as [text|e].
  2:{ split; [left; reflexivity|]. exists r.
      split; [|auto]. rewrite recorded_transactions, in_app_iff. right. left.
      reflexivity. }
  destruct (PrimFloat.leb _ _).
  - assert (Ht : In (InsertTransaction r)
                   (trace (afterTrade E r (alerted E r wallet a text w))))
      by (apply afterTrade_trace; simpl; auto).
    pose proof (afterTrade_keeps r _ (inserted_in_alerted r wallet a text w)) as Hk.
    cbv zeta. destruct (shortText E c _) as [text'|e'].
    + split; [right; exact Ht|exact Hk].
    + split; [exact Ht|exact Hk].
  - split.
    + simpl. auto.
    + exists r. split; [apply inserted_in_alerted|auto].
Qed.

(** C7.  [getTokenPriceInUsd] never throws, and it returns 0 when the
    price request is rejected.  A transfer that reaches the valuation is
    then still recorded: the call returns normally, it inserts a record
    with the hash of the transfer, the valuation [amount * 0] and the flag
    false, under a key the table did not hold, and the table holds a row
    with that key afterwards. *)
Theorem C7_price_failure_does_not_block_the_record
    (tx : JsValue) (wallet : Wallet.t) (w : World)
    (tokenAddress h : string) (v : Z) (amountFormatted : string) (price : float) :
  Recordable E tx wallet w tokenAddress h v amountFormatted price ->
  priceResponse E w (toLowerCase rt tokenAddress) = None ->
  (forall a w0, exists answer,
      PriceService.getTokenPriceInUsd E a w0
      = (Ok answer, emit (PriceRequest (toLowerCase rt a)) w0))
  /\ PriceService.getTokenPriceInUsd E tokenAddress w
     = (Ok (JsNumber PrimFloat.zero), priced E tokenAddress w)
  /\ price = PrimFloat.zero
  /\ exists w' r,
       BscTrackerService.handleTokenTransfer E tx wallet w = (Ok tt, w')
       /\ In (InsertTransaction r) (trace w')
       /\ Transaction.txHash r = h
       /\ Transaction.amountUsd r
          = PrimFloat.mul (parseFloat rt amountFormatted) PrimFloat.zero
       /\ Transaction.shortOpened r = false
       /\ Repository.hasId (Transaction.id r) (transactions w) = false
       /\ Repository.hasId (Transaction.id r) (transactions w') = true.
Proof.
  intros Hrec Hfail.
  assert (Hq : quote E tokenAddress w = JsNumber PrimFloat.zero).
  { unfold quote. fold rt. rewrite Hfail. reflexivity. }
  assert (Hp : price = PrimFloat.zero).
  { destruct Hrec as (_ & _ & _ & _ & _ & Hp & _). fold rt in Hp.
    rewrite Hq in Hp. cbn in Hp. congruence. }
  split; [|split; [|split; [exact Hp|]]].
  - intros a w0. rewrite getTokenPriceInUsd_run. eexists. reflexivity.
  - rewrite getTokenPriceInUsd_run, Hq. reflexivity.
  - rewrite (handleTokenTransfer_run E tx wallet w _ _ _ _ _ Hrec).
    eexists. exists (inserted E (canonical E tx) wallet tokenAddress h amountFormatted
                      price w).
    destruct (handled_records (canonical E tx)
                (inserted E (canonical E tx) wallet tokenAddress h amountFormatted
                   price w) wallet tokenAddress w)
      as (Hins & r' & Hin & Hid & _).
    split; [reflexivity|]. split; [exact Hins|]. split; [reflexivity|].
    split; [|split; [reflexivity|split]].
    + rewrite Hp. reflexivity.
    + apply nextId_fresh.
    + unfold Repository.hasId. apply existsb_exists. exists r'.
      split; [exact Hin|]. rewrite Hid. apply Nat.eqb_refl.
Qed.

(** The events of one recorded transfer whose alert is sent, newest
    first. *)
Lemma handled_events (c : Canonical) (r : Transaction.t) (wallet : Wallet.t)
    (a text : string) (w : World) :
  alertText E c (Transaction.amount r) (Transaction.amountUsd r) = Ok text ->
  Transaction.tokenSymbol r = symbol c ->
  let met := PrimFloat.leb (Wallet.thresholdUsd wallet) (Transaction.amountUsd r) in
  let tradingPair := market E (symbol c) (alerted E r wallet a text w) in
  exists events,
    trace (handled E c r wallet a w) = (events ++ trace w)%list
    /\ In (InsertTransaction r) events
    /\ In (SendMessage (Wallet.chatId wallet) text) events
    /\ (In PairsRequest events <-> met = true)
    /\ (forall o, In (OrderRequest o) events
                  <-> met = true /\ truthy tradingPair = true
                      /\ o = orderFor E tradingPair r)
    /\ List.length (filter isSendMessage events) = (if met then 2 else 1)%nat.
Proof.
  intros Ha Hsym met tradingPair. unfold handled. rewrite Ha. fold met.
  destruct met.
  - destruct (afterTrade_orders r (alerted E r wallet a text w))
      as (events & Htr & Hnp & Hnm & Ho).
    rewrite Hsym in Ho. fold tradingPair in Ho.
    destruct (alertText_shortText E c _ _ (Transaction.amountUsd r) _ Ha)
      as [text' ->].
    exists (SendMessage (Wallet.chatId wallet) text'
              :: events ++ [PairsRequest; SendMessage (Wallet.chatId wallet) text;
                            InsertTransaction r; PriceRequest (toLowerCase rt a)])%list.
    split; [|split; [|split; [|split; [|split]]]].
    + cbn [emit trace]. rewrite Htr. unfold alerted. cbn [emit trace].
      rewrite recorded_trace. rewrite <- app_comm_cons, <- app_assoc. reflexivity.
    + right. apply in_or_app. right. simpl. auto.
    + right. apply in_or_app. right. simpl. auto.
    + split; [reflexivity|]. intros _. right. apply in_or_app. right. left.
      reflexivity.
    + intros o. split.
      * intros [H|H]; [discriminate H|]. apply in_app_or in H.
        destruct H as [H|H].
        -- apply Ho in H. tauto.
        -- simpl in H. destruct H as [H|[H|[H|[H|[]]]]]; discriminate H.
      * intros (_ & Ht & Hor). right. apply in_or_app. left. apply Ho. tauto.
    + cbn [filter isSendMessage]. rewrite filter_app.
      assert (Hf : filter isSendMessage events = []).
      { clear - Hnm. induction events as [|e l IH]; [reflexivity|].
        cbn [filter]. rewrite (Hnm e (or_introl eq_refl)).
        apply IH. intros e' He'. apply Hnm. right. exact He'. }
      rewrite Hf. reflexivity.
  - exists [SendMessage (Wallet.chatId wallet) text; InsertTransaction r;
            PriceRequest (toLowerCase rt a)].
    split; [reflexivity|].
    split; [simpl; auto|]. split; [simpl; auto|].
    split; [split; [|discriminate]|split]; [| |reflexivity].
    + intros [H|[H|[H|[]]]]; discriminate H.
    + intros o. split.
      * intros [H|[H|[H|[]]]]; discriminate H.
      * intros [H _]. discriminate H.
Qed.

Lemma exchangeRequests_events (events : list Event) (w w' : World) :
  trace w' = (events ++ trace w)%list ->
  exchangeRequests w'
  = (List.length (filter isExchangeRequest events) + exchangeRequests w)%nat.
Proof.
  intros H. unfold exchangeRequests. rewrite H, filter_app, length_app. reflexivity.
Qed.


(** Above the threshold the second message is sent whatever the trade
    did: when the exchange lists no market for the symbol, the call still
    ends with two messages, the record flagged false and no order. *)
Lemma no_market_two_messages
    (tx : JsValue) (wallet : Wallet.t) (w : World)
    (tokenAddress h : string) (v : Z) (amountFormatted : string) (price : float)
    (text : string) :
  Recordable E tx wallet w tokenAddress h v amountFormatted price ->
  let c := canonical E tx in
  let r := inserted E c wallet tokenAddress h amountFormatted price w in
  alertText E c amountFormatted (Transaction.amountUsd r) = Ok text ->
  PrimFloat.leb (Wallet.thresholdUsd wallet) (Transaction.amountUsd r) = true ->
  truthy (market E (symbol c) (alerted E r wallet tokenAddress text w)) = false ->
  let w' := snd (BscTrackerService.handleTokenTransfer E tx wallet w) in
  exists text',
    shortText E c (Transaction.amountUsd r) = Ok text'
    /\ trace w'
       = SendMessage (Wallet.chatId wallet) text'
         :: PairsRequest
         :: SendMessage (Wallet.chatId wallet) text
         :: InsertTransaction r
         :: PriceRequest (toLowerCase rt tokenAddress)
         :: trace w
    /\ transactions w' = (transactions w ++ [r])%list
    /\ Transaction.shortOpened r = false
    /\ messagesSent w' = (2 + messagesSent w)%nat.
Proof.
  intros Hrec c r Ha Hge Hno w'. subst w'.
  rewrite (handleTokenTransfer_run E tx wallet w _ _ _ _ _ Hrec).
  cbn [snd]. fold c r.
  pose proof (Ha : alertText E c (Transaction.amount r) (Transaction.amountUsd r)
                   = Ok text) as Ha'.
  unfold handled. rewrite Ha', Hge.
  destruct (alertText_shortText E c _ _ (Transaction.amountUsd r) _ Ha)
    as [text' Hs].
  exists text'. rewrite Hs. split; [reflexivity|].
  unfold afterTrade.
  change (Transaction.tokenSymbol r) with (symbol c). rewrite Hno.
  repeat split.
Qed.

(** The alert is put together exactly when the symbol, the hash and the
    block number of the transfer print. *)
Lemma alertText_Prints (c : Canonical) (amountFormatted : string) (amountUsd : float) :
  (exists text, alertText E c amountFormatted amountUsd = Ok text)
  <-> Prints E (symbol c) /\ Prints E (hash c) /\ Prints E (block c).
Proof.
  unfold alertText, BscTrackerService.transferMessage, Prints. fold rt. split.
  - intros [text H].
    destruct (ToString rt (symbol c)) as [s|e]; [|discriminate H].
    destruct (ToString rt (hash c)) as [t|e]; [|discriminate H].
    destruct (ToString rt (block c)) as [b|e]; [|discriminate H].
    repeat split; eexists; reflexivity.
  - intros ([s ->] & [t ->] & [b ->]). eexists. reflexivity.
Qed.

(** X28.  When the text of the alert cannot be put together - the symbol,
    the hash or the block number of the transfer does not print - the call
    ends right after the insertion: the record is in the table with the
    flag false, and neither a message nor a request to the exchange
    follows, whatever the valuation. *)
Theorem unprintable_alert_ends_after_the_record
    (tx : JsValue) (wallet : Wallet.t) (w : World)
    (tokenAddress h : string) (v : Z) (amountFormatted : string) (price : float)
    (e : JsError) :
  Recordable E tx wallet w tokenAddress h v amountFormatted price ->
  let c := canonical E tx in
  let r := inserted E c wallet tokenAddress h amountFormatted price w in
  alertText E c amountFormatted (Transaction.amountUsd r) = Throw e ->
  let w' := snd (BscTrackerService.handleTokenTransfer E tx wallet w) in
  BscTrackerService.handleTokenTransfer E tx wallet w = (Ok tt, w')
  /\ trace w'
     = InsertTransaction r :: PriceRequest (toLowerCase rt tokenAddress) :: trace w
  /\ transactions w' = (transactions w ++ [r])%list
  /\ Transaction.shortOpened r = false
  /\ exchangeRequests w' = exchangeRequests w
  /\ messagesSent w' = messagesSent w.
Proof.
  intros Hrec c r Ha w'. subst w'.
  rewrite (handleTokenTransfer_run E tx wallet w _ _ _ _ _ Hrec).
  cbn [snd]. fold c r.
  pose proof (Ha : alertText E c (Transaction.amount r) (Transaction.amountUsd r)
                   = Throw e) as Ha'.
  unfold handled. rewrite Ha'. repeat split.
Qed.

End Valuation.

Lemma C7_price_failure_witness :
  Recordable Sample.envPriceDown Sample.largeTransfer Sample.wallet Sample.emptyWorld
    "0x0e09fabb73bd3ade0a17ecc321fd13a19e81ce82" "0xaa02" 5000000000000000000000
    "5000.0" PrimFloat.zero
  /\ priceResponse Sample.envPriceDown Sample.emptyWorld
       (toLowerCase (runtime Sample.envPriceDown)
          "0x0e09fabb73bd3ade0a17ecc321fd13a19e81ce82")
     = None
  /\ exists w' r,
       BscTrackerService.handleTokenTransfer Sample.envPriceDown Sample.largeTransfer
         Sample.wallet Sample.emptyWorld = (Ok tt, w')
       /\ In (InsertTransaction r) (trace w')
       /\ Transaction.txHash r = "0xaa02"
       /\ Transaction.amountUsd r = PrimFloat.zero
       /\ Repository.hasId (Transaction.id r) (transactions w') = true.
Proof.
  assert (Hrec : Recordable Sample.envPriceDown Sample.largeTransfer Sample.wallet
                   Sample.emptyWorld "0x0e09fabb73bd3ade0a17ecc321fd13a19e81ce82"
                   "0xaa02" 5000000000000000000000 "5000.0" PrimFloat.zero).
  { unfold Recordable. repeat split; vm_compute; reflexivity. }
  split; [exact Hrec|]. split; [reflexivity|].
  destruct (C7_price_failure_does_not_block_the_record Sample.envPriceDown
              Sample.largeTransfer Sample.wallet Sample.emptyWorld
              "0x0e09fabb73bd3ade0a17ecc321fd13a19e81ce82"
              "0xaa02" 5000000000000000000000 "5000.0" PrimFloat.zero Hrec eq_refl)
    as (_ & _ & _ & w' & r & Hrun & Hins & Hh & Husd & _ & _ & Hid).
  exists w', r.
  split; [exact Hrun|]. split; [exact Hins|]. split; [exact Hh|].
  split; [|exact Hid]. rewrite Husd. reflexivity.
Defined.


Lemma unprintable_alert_ends_after_the_record_witness :
  Recordable Sample.env Sample.unnamedTransfer Sample.wallet Sample.emptyWorld
    "0x0e09fabb73bd3ade0a17ecc321fd13a19e81ce82" "0xaa05" 5000000000000000000000
    "5000.0" (numberOfZ 2)
  /\ alertText Sample.env (canonical Sample.env Sample.unnamedTransfer) "5000.0"
       (numberOfZ 10000) = Throw TypeError
  /\ map Transaction.shortOpened
       (transactions (snd (BscTrackerService.handleTokenTransfer Sample.env
                             Sample.unnamedTransfer Sample.wallet Sample.emptyWorld)))
     = [false]
  /\ messagesSent (snd (BscTrackerService.handleTokenTransfer Sample.env
                          Sample.unnamedTransfer Sample.wallet Sample.emptyWorld))
     = messagesSent Sample.emptyWorld.
Proof.
  assert (Hrec : Recordable Sample.env Sample.unnamedTransfer Sample.wallet
                   Sample.emptyWorld "0x0e09fabb73bd3ade0a17ecc321fd13a19e81ce82"
                   "0xaa05" 5000000000000000000000 "5000.0" (numberOfZ 2)).
  { unfold Recordable. repeat split; vm_compute; reflexivity. }
  assert (Ha : alertText Sample.env (canonical Sample.env Sample.unnamedTransfer)
                 "5000.0" (numberOfZ 10000) = Throw TypeError)
    by (vm_compute; reflexivity).
  split; [exact Hrec|]. split; [exact Ha|].
  destruct (unprintable_alert_ends_after_the_record Sample.env Sample.unnamedTransfer
              Sample.wallet Sample.emptyWorld
              "0x0e09fabb73bd3ade0a17ecc321fd13a19e81ce82" "0xaa05"
              5000000000000000000000 "5000.0" (numberOfZ 2) TypeError Hrec Ha)
    as (_ & _ & Hrows & _ & _ & Hm).
  split; [rewrite Hrows; reflexivity|exact Hm].
Defined.


(** C3.  With an exchange that lists no pair, the delivery of a transfer
    worth 10000 USD to a wallet whose threshold is 1000 USD finds no market,
    leaves the record flagged false and places no order - and still sends
    two messages, the last one announcing an opened short position. *)
Theorem C3_second_message_sent_without_market :
  let w' := snd (WebhookController.deliver Sample.envNoMarket
                   (Sample.delivery [Sample.largeTransfer]) Sample.emptyWorld) in
  let c := canonical Sample.envNoMarket Sample.largeTransfer in
  market Sample.envNoMarket (symbol c) Sample.emptyWorld = JsNull
  /\ map Transaction.amountUsd (transactions w') = [numberOfZ 10000]
  /\ map Transaction.shortOpened (transactions w') = [false]
  /\ filter isExchangeRequest (trace w') = [PairsRequest]
  /\ messagesSent w' = 2%nat
  /\ exists text,
       shortText Sample.envNoMarket c (numberOfZ 10000) = Ok text
       /\ hd_error (trace w') = Some (SendMessage 42 text).
Proof.
  vm_compute. repeat split. eexists. split; reflexivity.
Qed.

(* ------------------------------------------------------------------ *)
(** * The trade-triggered flag                                          *)
(* ------------------------------------------------------------------ *)

(** ** Relations that every step of the pipeline preserves *)

Section Preservation.

Variable R : World -> World -> Prop.
Hypothesis R_refl : forall w, R w w.
Hypothesis R_trans : forall a b c, R a b -> R b c -> R a c.

Lemma preserves_ret {A} (a : A) : preserves R (ret a).
Proof. intros w. apply R_refl. Qed.

Lemma preserves_throw {A} (e : JsError) : preserves R (@throw A e).
Proof. intros w. apply R_refl. Qed.

Lemma preserves_lift {A} (r : Res A) : preserves R (lift r).
Proof. intros w. apply R_refl. Qed.

Lemma preserves_bind {A B} (m : M A) (k : A -> M B) :
  preserves R m -> (forall a, preserves R (k a)) -> preserves R (bind m k).
Proof.
  intros Hm Hk w. unfold bind. specialize (Hm w).
  destruct (m w) as [[a|e] w1]; simpl in *; [|exact Hm].
  eapply R_trans; [exact Hm|apply Hk].
Qed.

Lemma preserves_tryCatch {A} (m : M A) (h : JsError -> M A) :
  preserves R m -> (forall e, preserves R (h e)) -> preserves R (tryCatch m h).
Proof.
  intros Hm Hh w. unfold tryCatch. specialize (Hm w).
  destruct (m w) as [[a|e] w1]; simpl in *; [exact Hm|].
  eapply R_trans; [exact Hm|apply Hh].
Qed.

Lemma preserves_forOf {A} (l : list A) (body : A -> M unit) :
  (forall x, preserves R (body x)) -> preserves R (forOf l body).
Proof.
  intros Hb. induction l as [|x l IH]; simpl.
  - apply preserves_ret.
  - apply preserves_bind; [apply Hb|intros _; exact IH].
Qed.

Lemma preserves_findWallet (E : Env) (address : string) :
  preserves R (Repository.findWallet E address).
Proof.
  intros w. unfold Repository.findWallet.
  destruct (readFails E w); apply R_refl.
Qed.

Lemma preserves_findTransaction (E : Env) (txHash : JsValue) :
  preserves R (Repository.findTransaction E txHash).
Proof.
  intros w. unfold Repository.findTransaction.
  destruct (Repository.columnText E txHash); [|apply R_refl].
  destruct (readFails E w); apply R_refl.
Qed.

End Preservation.

(** Walks down a method built from the monad's combinators, leaving the
    calls to other methods. *)
Ltac preserve Hrefl Htrans :=
  repeat
    match goal with
    | |- forall _, _ => intro
    | |- preserves _ (tryCatch _ _) => apply (preserves_tryCatch _ Htrans)
    | |- preserves _ (bind _ _) => apply (preserves_bind _ Htrans)
    | |- preserves _ (ret _) => apply (preserves_ret _ Hrefl)
    | |- preserves _ (throw _) => apply (preserves_throw _ Hrefl)
    | |- preserves _ (lift _) => apply (preserves_lift _ Hrefl)
    | |- preserves _ (forOf _ _) => apply (preserves_forOf _ Hrefl Htrans)
    | |- preserves _ (Repository.findWallet _ _) =>
        apply (preserves_findWallet _ Hrefl)
    | |- preserves _ (Repository.findTransaction _ _) =>
        apply (preserves_findTransaction _ Hrefl)
    | |- preserves _ (if ?b then _ else _) => destruct b
    | |- preserves _ (match ?x with _ => _ end) => destruct x
    end.

(** ** The flag only goes up *)

Lemma RowStep_trans (x y z : Transaction.t) :
  RowStep x y -> RowStep y z -> RowStep x z.
Proof.
  intros [x0|x0 y0 Hid Hf] Hyz; [exact Hyz|].
  inversion Hyz; subst.
  - apply RowFlagged; assumption.
  - apply RowFlagged; congruence.
Qed.

Lemma rows_same (l : list Transaction.t) : Forall2 RowStep l l.
Proof. induction l; constructor; [apply RowSame|assumption]. Qed.

Lemma rows_trans (a b c : list Transaction.t) :
  Forall2 RowStep a b -> Forall2 RowStep b c -> Forall2 RowStep a c.
Proof.
  intros Hab. revert c. induction Hab as [|x y a b Hxy Hab IH]; intros c Hbc.
  - inversion Hbc. constructor.
  - inversion Hbc; subst. constructor; [eapply RowStep_trans; eauto|auto].
Qed.

Lemma FlagMonotone_refl (w : World) : FlagMonotone w w.
Proof.
  split.
  - exists (transactions w), []. rewrite app_nil_r. split; [reflexivity|apply rows_same].
  - exists []. split; [reflexivity|constructor].
Qed.

Lemma FlagMonotone_trans (a b c : World) :
  FlagMonotone a b -> FlagMonotone b c -> FlagMonotone a c.
Proof.
  intros [(k1 & n1 & Hb & H1) (e1 & Ht1 & He1)] [(k2 & n2 & Hc & H2) (e2 & Ht2 & He2)].
  split.
  - rewrite Hb in H2. apply Forall2_app_inv_l in H2.
    destruct H2 as (k2a & k2b & Hka & Hkb & ->).
    exists k2a, (k2b ++ n2)%list. split.
    + rewrite Hc, app_assoc. reflexivity.
    + eapply rows_trans; eauto.
  - exists (e2 ++ e1)%list. split.
    + rewrite Ht2, Ht1, app_assoc. reflexivity.
    + apply Forall_app. auto.
Qed.

Lemma emit_monotone (e : Event) (w : World) :
  WriteOk e -> FlagMonotone w (emit e w).
Proof.
  intros He. split.
  - exists (transactions w), []. rewrite app_nil_r. split; [reflexivity|apply rows_same].
  - exists [e]. split; [reflexivity|]. constructor; [exact He|constructor].
Qed.

Lemma replaceById_rows (r : Transaction.t) (l : list Transaction.t) :
  Transaction.shortOpened r = true ->
  Forall2 RowStep l (Repository.replaceById r l).
Proof.
  intros Hr. unfold Repository.replaceById.
  induction l as [|x l IH]; simpl; constructor; [|exact IH].
  destruct (Nat.eqb (Transaction.id x) (Transaction.id r)) eqn:Hid.
  - apply Nat.eqb_eq in Hid. apply RowFlagged; [congruence|exact Hr].
  - apply RowSame.
Qed.

Section Flag.

Variable E : Env.

Lemma afterTrade_monotone (r : Transaction.t) (w : World) :
  Nat.eqb (Transaction.id r) 0 = false ->
  Repository.hasId (Transaction.id r) (transactions w) = true ->
  FlagMonotone w (afterTrade E r w).
Proof.
  intros Hid Hin. unfold afterTrade.
  destruct (truthy _); [|apply emit_monotone; exact I].
  assert (H2 : FlagMonotone w
                 (emit (OrderRequest (orderFor E (market E (Transaction.tokenSymbol r) w) r))
                    (emit PairsRequest w))).
  { eapply FlagMonotone_trans; apply emit_monotone; exact I. }
  destruct (orderResponse E _ _); [|exact H2].
  eapply FlagMonotone_trans; [exact H2|].
  unfold Repository.save.
  destruct (writeFails E _ _); [apply FlagMonotone_refl|].
  cbn [Transaction.withShortOpened Transaction.id].
  rewrite Hid. cbn [emit transactions]. rewrite Hin. cbn [snd].
  split.
  - exists (Repository.replaceById (Transaction.withShortOpened true r) (transactions w)), [].
    cbn [transactions emit withTransactions]. rewrite app_nil_r.
    split; [reflexivity|]. apply replaceById_rows. reflexivity.
  - eexists [_]. split; [reflexivity|]. constructor; [reflexivity|constructor].
Qed.

Lemma recorded_monotone (r : Transaction.t) (a : string) (w : World) :
  Transaction.shortOpened r = false ->
  FlagMonotone w (recorded E r a w).
Proof.
  intros Hr. unfold recorded. split.
  - exists (transactions w), [r].
    split; [reflexivity|apply rows_same].
  - eexists [_; _]. split; [reflexivity|].
    constructor; [exact Hr|]. constructor; [exact I|constructor].
Qed.

Lemma alerted_monotone (r : Transaction.t) (wallet : Wallet.t) (a text : string)
    (w : World) :
  Transaction.shortOpened r = false ->
  FlagMonotone w (alerted E r wallet a text w).
Proof.
  intros Hr. unfold alerted.
  eapply FlagMonotone_trans; [apply recorded_monotone, Hr|].
  apply emit_monotone. exact I.
Qed.

Lemma handled_monotone (c : Canonical) (r : Transaction.t) (wallet : Wallet.t)
    (a : string) (w : World) :
  Transaction.shortOpened r = false ->
  Nat.eqb (Transaction.id r) 0 = false ->
  FlagMonotone w (handled E c r wallet a w).
Proof.
  intros Hr Hid. unfold handled.
  destruct (alertText E c _ _) as [text|e]; [|apply recorded_monotone, Hr].
  destruct (PrimFloat.leb _ _); [|apply alerted_monotone, Hr].
  assert (H : FlagMonotone w (afterTrade E r (alerted E r wallet a text w))).
  { eapply FlagMonotone_trans; [apply alerted_monotone, Hr|].
    apply afterTrade_monotone; [exact Hid|].
    unfold Repository.hasId. apply existsb_exists.
    exists r. split; [apply inserted_in_alerted|apply Nat.eqb_refl]. }
  cbv zeta. destruct (shortText E c _); [|exact H].
  eapply FlagMonotone_trans; [exact H|apply emit_monotone; exact I].
Qed.

Lemma handleTokenTransfer_monotone (tx : JsValue) (wallet : Wallet.t) :
  preserves FlagMonotone (BscTrackerService.handleTokenTransfer E tx wallet).
Proof.
  intros w. destruct (nullish tx) eqn:Hn.
  { rewrite handleTokenTransfer_nullish by exact Hn. apply FlagMonotone_refl. }
  rewrite handleTokenTransfer_canonical by exact Hn.
  unfold ingest. rewrite tryCatch_snd.
  destruct (truthy (hash (canonical E tx))); [|apply FlagMonotone_refl].
  cbn [negb]. rewrite bind_lift.
  destruct (contract (canonical E tx)) as [a|e]; [|apply FlagMonotone_refl].
  rewrite bind_lift.
  destruct (quantity (canonical E tx)) as [v|e]; [|apply FlagMonotone_refl].
  rewrite bind_lift.
  destruct (formatUnits _ _ _) as [amt|e]; [|apply FlagMonotone_refl].
  destruct (ToNumber (runtime E) (quote E a w)) as [price|e] eqn:Hp.
  2:{ unfold valuate. rewrite (bind_run _ _ _ _ _ (getTokenPriceInUsd_run E _ _)).
      rewrite bind_lift, Hp. apply emit_monotone. exact I. }
  destruct (Repository.columnText E (hash (canonical E tx))) as [h|] eqn:Hh.
  - destruct (writeFails E (priced E a w)
                (pending E (canonical E tx) wallet a h amt price)) eqn:Hw.
    + rewrite (valuate_rejected E _ wallet a h amt price w Hp Hh Hw).
      apply emit_monotone. exact I.
    + rewrite (valuate_run E _ wallet a h amt price w Hp Hh Hw).
      apply handled_monotone; reflexivity.
  - unfold valuate. rewrite (bind_run _ _ _ _ _ (getTokenPriceInUsd_run E _ _)).
    rewrite bind_lift, Hp.
    unfold BscTrackerService.bindText. rewrite Hh. rewrite bind_lift.
    apply emit_monotone. exact I.
Qed.

Lemma processERC20Transfer_monotone (transfer : JsValue) :
  preserves FlagMonotone (BscTrackerService.processERC20Transfer E transfer).
Proof.
  unfold BscTrackerService.processERC20Transfer.
  preserve FlagMonotone_refl FlagMonotone_trans;
    apply handleTokenTransfer_monotone.
Qed.

Lemma processTransferLog_monotone (log : JsValue) :
  preserves FlagMonotone (BscTrackerService.processTransferLog E log).
Proof.
  unfold BscTrackerService.processTransferLog.
  preserve FlagMonotone_refl FlagMonotone_trans;
    apply handleTokenTransfer_monotone.
Qed.

Lemma handleWebhookEvent_monotone (body : JsValue) :
  preserves FlagMonotone (BscTrackerService.handleWebhookEvent E body).
Proof.
  unfold BscTrackerService.handleWebhookEvent, BscTrackerService.transferStep,
    BscTrackerService.logStep.
  preserve FlagMonotone_refl FlagMonotone_trans;
    first [apply processERC20Transfer_monotone | apply processTransferLog_monotone].
Qed.

Lemma deliver_monotone (body : JsValue) (w : World) :
  FlagMonotone w (snd (WebhookController.deliver E body w)).
Proof.
  unfold WebhookController.deliver, WebhookController.handleMoralisWebhook.
  destruct (WebhookController.logDelivery E body); cbn [resBind snd];
    [|apply FlagMonotone_refl].
  unfold WebhookController.deferred. rewrite tryCatch_snd.
  apply handleWebhookEvent_monotone.
Qed.

Lemma written_since (w w' : World) (e : Event) :
  FlagMonotone w w' -> In e (trace w') -> In e (trace w) \/ WriteOk e.
Proof.
  intros [_ (events & Ht & Hok)] Hin. rewrite Ht in Hin.
  apply in_app_or in Hin. destruct Hin as [Hin | Hin]; [right|left; exact Hin].
  rewrite Forall_forall in Hok. apply Hok, Hin.
Qed.

Lemma rows_since (w w' : World) (i : nat) (r r' : Transaction.t) :
  FlagMonotone w w' ->
  nth_error (transactions w) i = Some r ->
  nth_error (transactions w') i = Some r' ->
  RowStep r r'.
Proof.
  intros [(kept & added & Ht & Hrows) _] Hr Hr'. rewrite Ht in Hr'.
  assert (Hk : nth_error kept i = Some r').
  { rewrite nth_error_app1 in Hr'; [exact Hr'|].
    rewrite <- (Forall2_length Hrows). apply nth_error_Some. congruence. }
  clear Hr' Ht. revert i Hr Hk.
  induction Hrows as [|x y l l' Hxy Hrows IH]; intros [|i] Hr Hk;
    simpl in *; try discriminate.
  - injection Hr as <-. injection Hk as <-. exact Hxy.
  - eapply IH; eauto.
Qed.

Lemma deliverAll_monotone (bodies : list JsValue) (w : World) :
  FlagMonotone w (deliverAll E bodies w).
Proof.
  unfold deliverAll. revert w.
  induction bodies as [|body bodies IH]; intros w; simpl.
  - apply FlagMonotone_refl.
  - eapply FlagMonotone_trans; [apply deliver_monotone|apply IH].
Qed.

(** C9.  Over any sequence of deliveries, from any world: every record
    inserted meanwhile is inserted with the flag false, every update made
    meanwhile writes the flag true, and each row present at the start is
    still at its place under its key, with its flag true if it was true. *)
Theorem C9_flag_created_false_and_only_raised (bodies : list JsValue) (w : World) :
  let w' := deliverAll E bodies w in
  (forall r, In (InsertTransaction r) (trace w') ->
             In (InsertTransaction r) (trace w) \/ Transaction.shortOpened r = false)
  /\ (forall r, In (UpdateTransaction r) (trace w') ->
                In (UpdateTransaction r) (trace w) \/ Transaction.shortOpened r = true)
  /\ (forall i r,
        nth_error (transactions w) i = Some r ->
        exists r',
          nth_error (transactions w') i = Some r'
          /\ Transaction.id r' = Transaction.id r
          /\ (Transaction.shortOpened r = true -> Transaction.shortOpened r' = true))
  /\ FlagMonotone w w'.
Proof.
  intros w'. pose proof (deliverAll_monotone bodies w) as H. fold w' in H.
  split; [|split; [|split; [|exact H]]].
  - intros r Hin. apply (written_since w w' _ H Hin).
  - intros r Hin. apply (written_since w w' _ H Hin).
  - intros i r Hr.
    assert (Hlen : (i < List.length (transactions w'))%nat).
    { destruct H as [(kept & added & Ht & Hrows) _].
      rewrite Ht, length_app, <- (Forall2_length Hrows).
      assert (i < List.length (transactions w))%nat
        by (apply nth_error_Some; congruence).
      lia. }
    destruct (nth_error (transactions w') i) as [r'|] eqn:Hr';
      [|apply nth_error_None in Hr'; lia].
    exists r'. split; [reflexivity|].
    destruct (rows_since w w' i r r' H Hr Hr') as [x|x y Hid Hf]; auto.
Qed.

End Flag.

(* ------------------------------------------------------------------ *)
(** * How one event is resolved                                         *)
(* ------------------------------------------------------------------ *)

Section Resolution.

Variable E : Env.

Let rt := runtime E.

(** Either the transfer reaches the record step and the store takes the
    record, or the table is left as it was. *)
Lemma handleTokenTransfer_cases (tx : JsValue) (wallet : Wallet.t) (w : World) :
  (exists a h v amt price, Recordable E tx wallet w a h v amt price)
  \/ transactions (snd (BscTrackerService.handleTokenTransfer E tx wallet w))
     = transactions w.
Proof.
  destruct (nullish tx) eqn:Hn.
  { right. rewrite handleTokenTransfer_nullish by exact Hn. reflexivity. }
  rewrite handleTokenTransfer_canonical by exact Hn.
  unfold ingest. rewrite tryCatch_snd.
  destruct (truthy (hash (canonical E tx))) eqn:Ht; [|right; reflexivity].
  cbn [negb]. rewrite bind_lift.
  destruct (contract (canonical E tx)) as [a|e] eqn:Hc; [|right; reflexivity].
  rewrite bind_lift.
  destruct (quantity (canonical E tx)) as [v|e] eqn:Hq; [|right; reflexivity].
  rewrite bind_lift.
  destruct (formatUnits _ _ _) as [amt|e] eqn:Hf; [|right; reflexivity].
  destruct (ToNumber rt (quote E a w)) as [price|e] eqn:Hp.
  2:{ right. unfold valuate. fold rt.
      rewrite (bind_run _ _ _ _ _ (getTokenPriceInUsd_run E _ _)).
      rewrite bind_lift, Hp. reflexivity. }
  destruct (Repository.columnText E (hash (canonical E tx))) as [h|] eqn:Hh.
  - destruct (writeFails E (priced E a w)
                (pending E (canonical E tx) wallet a h amt price)) eqn:Hw.
    + right. rewrite (valuate_rejected E _ wallet a h amt price w Hp Hh Hw).
      reflexivity.
    + left. exists a, h, v, amt, price. repeat split; assumption.
  - right. unfold valuate. fold rt.
    rewrite (bind_run _ _ _ _ _ (getTokenPriceInUsd_run E _ _)).
    rewrite bind_lift, Hp.
    unfold BscTrackerService.bindText. rewrite Hh. rewrite bind_lift. reflexivity.
Qed.

(** A structured transfer either leaves the world as it was, or it names
    a string destination under which an active wallet is registered, carries
    a hash that is not in the table, and is handed to [handleTokenTransfer]
    for that wallet. *)
Lemma processERC20Transfer_cases (transfer : JsValue) (w : World) :
  snd (BscTrackerService.processERC20Transfer E transfer w) = w
  \/ exists s wallet,
       nullish transfer = false
       /\ jsOr (jsOr (member transfer "to") (member transfer "toAddress")) (JsString "")
          = JsString s
       /\ find (fun x => String.eqb (Wallet.address x) (toLowerCase rt s)) (wallets w)
          = Some wallet
       /\ Wallet.isActive wallet = true
       /\ truthy (hash (canonical E transfer)) = true
       /\ BscTrackerService.processERC20Transfer E transfer w
          = BscTrackerService.handleTokenTransfer E transfer wallet w.
Proof.
  unfold BscTrackerService.processERC20Transfer.
  rewrite tryCatch_snd.
  match goal with |- context [tryCatch ?m _ w] => set (body := m) end.
  cut (snd (body w) = w
       \/ exists s wallet,
            nullish transfer = false
            /\ jsOr (jsOr (member transfer "to") (member transfer "toAddress"))
                 (JsString "") = JsString s
            /\ find (fun x => String.eqb (Wallet.address x) (toLowerCase rt s))
                 (wallets w)
               = Some wallet
            /\ Wallet.isActive wallet = true
            /\ truthy (hash (canonical E transfer)) = true
            /\ body w = BscTrackerService.handleTokenTransfer E transfer wallet w).
  { intros [H | (s & wallet & H1 & H2 & H3 & H4 & H5 & H6)]; [left; exact H|right].
    exists s, wallet. repeat (split; [assumption|]).
    rewrite <- H6. apply (tryCatch_Ok _ _ _ tt). rewrite H6.
    apply handleTokenTransfer_never_throws. }
  subst body.
  unfold bind, lift, ret, throw, Repository.findWallet, Repository.findTransaction.
  destruct (nullish transfer) eqn:Hn.
  { left. rewrite !(get_nullish _ _ Hn). reflexivity. }
  rewrite !(get_member _ _ Hn). rewrite !orElse_Ok.
  destruct (jsOr (jsOr (member transfer "to") (member transfer "toAddress"))
              (JsString "")) as [ | |b0|x0|s|l0|fs0] eqn:Hto;
    try (left; reflexivity).
  cbn [callToLowerCase]. fold rt.
  destruct (truthy (JsString (toLowerCase rt s))); [|left; reflexivity].
  cbn [negb].
  destruct (readFails E w) eqn:Hrf; [left; reflexivity|].
  destruct (find _ (wallets w)) as [wallet|] eqn:Hw; [|left; reflexivity].
  destruct (Wallet.isActive wallet) eqn:Ha; [|left; reflexivity]. cbn [negb].
  destruct (truthy (jsOr (member transfer "transactionHash") (member transfer "hash")))
    eqn:Hh; [|left; reflexivity]. cbn [negb].
  destruct (Repository.columnText E _) as [h|]; [|left; reflexivity].
  cbv beta. rewrite Hrf.
  destruct (Repository.findByHash h (transactions w)).
  { left. destruct (interpolate rt _) as [[]|e]; reflexivity. }
  right. exists s, wallet. repeat (split; [assumption || reflexivity|]). reflexivity.
Qed.

(** The same for a log entry. *)
Lemma logStep_cases (log : JsValue) (w : World) :
  snd (BscTrackerService.logStep E log w) = w
  \/ exists t wallet value tokenAddress,
       nullish log = false
       /\ member log "topic0" = JsString BscTrackerService.transferTopic
       /\ member log "topic2" = JsString t
       /\ BscTrackerService.dataValue E (member log "data") = Ok value
       /\ find (fun x => String.eqb (Wallet.address x)
                           (toLowerCase rt (destinationOf E t))) (wallets w)
          = Some wallet
       /\ Wallet.isActive wallet = true
       /\ truthy (jsOr (member log "transactionHash") (member log "hash")) = true
       /\ BscTrackerService.logStep E log w
          = BscTrackerService.handleTokenTransfer E
              (BscTrackerService.transferOfLog
                 (jsOr (member log "transactionHash") (member log "hash"))
                 (destinationOf E t) tokenAddress value
                 (member log "blockNumber"))
              wallet w.
Proof.
  unfold BscTrackerService.logStep. unfold bind at 1 2, lift at 1 2.
  destruct (nullish log) eqn:Hn.
  { left. rewrite (get_nullish _ _ Hn). reflexivity. }
  rewrite (get_member _ _ Hn).
  destruct (strictEq (member log "topic0") (JsString BscTrackerService.transferTopic))
    eqn:Ht0; [|left; reflexivity].
  apply strictEq_string in Ht0.
  unfold BscTrackerService.processTransferLog.
  rewrite tryCatch_snd.
  match goal with |- context [tryCatch ?m _ w] => set (body := m) end.
  cut (snd (body w) = w
       \/ exists t wallet value tokenAddress,
            member log "topic2" = JsString t
            /\ BscTrackerService.dataValue E (member log "data") = Ok value
            /\ find (fun x => String.eqb (Wallet.address x)
                                (toLowerCase rt (destinationOf E t))) (wallets w)
               = Some wallet
            /\ Wallet.isActive wallet = true
            /\ truthy (jsOr (member log "transactionHash") (member log "hash")) = true
            /\ body w
               = BscTrackerService.handleTokenTransfer E
                   (BscTrackerService.transferOfLog
                      (jsOr (member log "transactionHash") (member log "hash"))
                      (destinationOf E t) tokenAddress value
                      (member log "blockNumber"))
                   wallet w).
  { intros [H | (t & wallet & value & tokenAddress & H1 & Hv & H2 & H3 & H4 & H5)];
      [left; exact H|right].
    exists t, wallet, value, tokenAddress.
    repeat (split; [assumption || reflexivity|]).
    rewrite <- H5. apply (tryCatch_Ok _ _ _ tt). rewrite H5.
    apply handleTokenTransfer_never_throws. }
  subst body.
  unfold bind, lift, ret, throw, Repository.findWallet, Repository.findTransaction.
  rewrite !(get_member _ _ Hn). rewrite !orElse_Ok.
  destruct (truthy (member log "topic2")) eqn:Htr; [|left; reflexivity].
  cbn [negb].
  destruct (member log "topic2") as [ | |b0|x0|t|l0|fs0] eqn:Hm2;
    try (left; reflexivity).
  cbn [callSliceLast resBind callToLowerCase]. fold rt.
  change ("0x" ++ toLowerCase rt (sliceLast 40 t)) with (destinationOf E t).
  destruct (readFails E w) eqn:Hrf; [left; reflexivity|].
  destruct (find _ (wallets w)) as [wallet|] eqn:Hw; [|left; reflexivity].
  destruct (Wallet.isActive wallet) eqn:Ha; [|left; reflexivity]. cbn [negb].
  destruct (truthy (jsOr (member log "transactionHash") (member log "hash")))
    eqn:Hh; [|left; reflexivity]. cbn [negb].
  destruct (Repository.columnText E _) as [h|]; [|left; reflexivity].
  cbv beta. rewrite Hrf.
  destruct (Repository.findByHash h (transactions w)); [left; reflexivity|].
  destruct (BscTrackerService.dataValue E (member log "data")) as [value|e] eqn:Hv;
    [|left; reflexivity].
  destruct (if nullish (member log "address") then _ else _) as [tokenAddress|e];
    [|left; reflexivity].
  right. exists t, wallet, value, tokenAddress.
  repeat (split; [assumption || reflexivity|]). reflexivity.
Qed.

(** What [save] appends to the trace. *)
Lemma save_event (r : Transaction.t) (w : World) :
  trace (snd (Repository.save E r w)) = trace w
  \/ trace (snd (Repository.save E r w))
     = InsertTransaction (Transaction.withId (Repository.nextId (transactions w)) r)
       :: trace w
  \/ trace (snd (Repository.save E r w)) = InsertTransaction r :: trace w
  \/ trace (snd (Repository.save E r w)) = UpdateTransaction r :: trace w.
Proof.
  unfold Repository.save.
  destruct (writeFails E w r); [left; reflexivity|right].
  destruct (Nat.eqb (Transaction.id r) 0); [left; reflexivity|right].
  destruct (Repository.hasId _ _); [right|left]; reflexivity.
Qed.

Lemma afterTrade_inserts (r x : Transaction.t) (w : World) :
  In (InsertTransaction x) (trace (afterTrade E r w)) ->
  In (InsertTransaction x) (trace w)
  \/ Transaction.walletId x = Transaction.walletId r.
Proof.
  unfold afterTrade.
  destruct (truthy _); [|simpl; intros [H|H]; [discriminate|auto]].
  destruct (orderResponse E _ _).
  2:{ simpl. intros [H|[H|H]]; try discriminate; auto. }
  destruct (save_event (Transaction.withShortOpened true r)
              (emit (OrderRequest
                       (orderFor E (market E (Transaction.tokenSymbol r) w) r))
                 (emit PairsRequest w)))
    as [-> | [-> | [-> | ->]]]; simpl;
    intros H; repeat (destruct H as [H|H]; try discriminate); auto;
    injection H as <-; right; reflexivity.
Qed.

Lemma handled_inserts (c : Canonical) (r x : Transaction.t) (wallet : Wallet.t)
    (a : string) (w : World) :
  In (InsertTransaction x) (trace (handled E c r wallet a w)) ->
  In (InsertTransaction x) (trace w)
  \/ Transaction.walletId x = Transaction.walletId r.
Proof.
  assert (Hr : In (InsertTransaction x) (trace (recorded E r a w)) ->
               In (InsertTransaction x) (trace w)
               \/ Transaction.walletId x = Transaction.walletId r).
  { rewrite recorded_trace. intros [H|[H|H]]; try discriminate; [|auto].
    injection H as <-. right. reflexivity. }
  assert (Ha : forall text,
             In (InsertTransaction x) (trace (alerted E r wallet a text w)) ->
             In (InsertTransaction x) (trace w)
             \/ Transaction.walletId x = Transaction.walletId r).
  { intros text. unfold alerted. cbn [emit trace].
    intros [H|H]; [discriminate|apply Hr, H]. }
  assert (Ht : forall text,
             In (InsertTransaction x)
                (trace (afterTrade E r (alerted E r wallet a text w))) ->
             In (InsertTransaction x) (trace w)
             \/ Transaction.walletId x = Transaction.walletId r).
  { intros text H. apply afterTrade_inserts in H.
    destruct H as [H|H]; [apply (Ha text), H|auto]. }
  unfold handled.
  destruct (alertText E c _ _) as [text|e]; [|exact Hr].
  destruct (PrimFloat.leb _ _); [|apply Ha].
  cbv zeta. destruct (shortText E c _); [|apply Ht].
  cbn [emit trace]. intros [H|H]; [discriminate|apply (Ht text), H].
Qed.

(** Every record a call of [handleTokenTransfer] inserts carries the key
    of the wallet it was called for. *)
Lemma handleTokenTransfer_inserts_for_wallet
    (tx : JsValue) (wallet : Wallet.t) (w : World) (r : Transaction.t) :
  In (InsertTransaction r)
     (trace (snd (BscTrackerService.handleTokenTransfer E tx wallet w))) ->
  In (InsertTransaction r) (trace w)
  \/ Transaction.walletId r = Wallet.id wallet.
Proof.
  destruct (nullish tx) eqn:Hn.
  { rewrite handleTokenTransfer_nullish by exact Hn. auto. }
  rewrite handleTokenTransfer_canonical by exact Hn.
  unfold ingest. rewrite tryCatch_snd.
  destruct (truthy (hash (canonical E tx))); [|auto].
  cbn [negb]. rewrite bind_lift.
  destruct (contract (canonical E tx)) as [a|e]; [|auto].
  rewrite bind_lift.
  destruct (quantity (canonical E tx)) as [v|e]; [|auto].
  rewrite bind_lift.
  destruct (formatUnits _ _ _) as [amt|e]; [|auto].
  destruct (ToNumber rt (quote E a w)) as [price|e] eqn:Hp.
  2:{ unfold valuate. fold rt.
      rewrite (bind_run _ _ _ _ _ (getTokenPriceInUsd_run E _ _)).
      rewrite bind_lift, Hp. simpl. intros [H|H]; [discriminate|auto]. }
  destruct (Repository.columnText E (hash (canonical E tx))) as [h|] eqn:Hh.
  2:{ unfold valuate. fold rt.
      rewrite (bind_run _ _ _ _ _ (getTokenPriceInUsd_run E _ _)).
      rewrite bind_lift, Hp.
      unfold BscTrackerService.bindText. rewrite Hh. rewrite bind_lift.
      simpl. intros [H|H]; [discriminate|auto]. }
  destruct (writeFails E (priced E a w)
              (pending E (canonical E tx) wallet a h amt price)) eqn:Hw.
  { rewrite (valuate_rejected E _ wallet a h amt price w Hp Hh Hw).
    simpl. intros [H|H]; [discriminate|auto]. }
  rewrite (valuate_run E _ wallet a h amt price w Hp Hh Hw). cbn [snd].
  apply handled_inserts.
Qed.

(** X3.  A structured transfer that changes anything names, as a string, a
    destination under whose lower-cased form an active wallet is registered;
    every record the call inserts carries the key of that wallet. *)
Theorem transfer_recorded_only_for_active_wallet (transfer : JsValue) (w : World) :
  snd (BscTrackerService.processERC20Transfer E transfer w) <> w ->
  exists s wallet,
    jsOr (jsOr (member transfer "to") (member transfer "toAddress")) (JsString "")
    = JsString s
    /\ find (fun x => String.eqb (Wallet.address x) (toLowerCase rt s)) (wallets w)
       = Some wallet
    /\ Wallet.isActive wallet = true
    /\ forall r,
         In (InsertTransaction r)
            (trace (snd (BscTrackerService.processERC20Transfer E transfer w))) ->
         In (InsertTransaction r) (trace w)
         \/ Transaction.walletId r = Wallet.id wallet.
Proof.
  intros Hne.
  destruct (processERC20Transfer_cases transfer w)
    as [H | (s & wallet & Hn & Hto & Hw & Ha & Hh & Hrun)]; [contradiction|].
  exists s, wallet. repeat (split; [assumption|]).
  intros r. rewrite Hrun. apply handleTokenTransfer_inserts_for_wallet.
Qed.

Lemma recorded_hash_persisted (tx : JsValue) (wallet : Wallet.t) (w : World)
    (a h : string) (v : Z) (amt : string) (price : float) :
  Recordable E tx wallet w a h v amt price ->
  exists r, In r (transactions (snd (BscTrackerService.handleTokenTransfer E tx wallet w)))
            /\ Transaction.txHash r = h.
Proof.
  intros Hrec. rewrite (handleTokenTransfer_run E tx wallet w _ _ _ _ _ Hrec).
  cbn [snd].
  destruct (handled_records E (canonical E tx)
              (inserted E (canonical E tx) wallet a h amt price w) wallet a w)
    as (_ & r' & Hin & _ & [-> | ->]); eexists; split; try exact Hin; reflexivity.
Qed.

(** X1.  A structured transfer whose processing added a row to the table is a
    replay from then on: processing the same transfer again, in the world
    the first call left, changes nothing. *)
Theorem recorded_transfer_is_not_recorded_twice (transfer : JsValue) (w : World) :
  transactions (snd (BscTrackerService.processERC20Transfer E transfer w))
    <> transactions w ->
  let w' := snd (BscTrackerService.processERC20Transfer E transfer w) in
  HashPersisted E w' transfer
  /\ BscTrackerService.processERC20Transfer E transfer w' = (Ok tt, w').
Proof.
  intros Hne w'.
  assert (Hp : HashPersisted E w' transfer).
  { subst w'.
    destruct (processERC20Transfer_cases transfer w)
      as [H | (s & wallet & Hn & Hto & Hw & Ha & Hh & Hrun)].
    { rewrite H in Hne. contradiction. }
    rewrite Hrun in *.
    destruct (handleTokenTransfer_cases transfer wallet w)
      as [(a & h & v & amt & price & Hrec) | H]; [|contradiction].
    destruct (recorded_hash_persisted transfer wallet w a h v amt price Hrec)
      as (r & Hin & Hr).
    exists (hash (canonical E transfer)), h, r.
    split; [|split; [apply Hrec|split; assumption]].
    rewrite !(get_member _ _ Hn), orElse_Ok. reflexivity. }
  split; [exact Hp|]. apply processERC20Transfer_replay, Hp.
Qed.

(** X2.  A Transfer log entry whose processing added a row to the table is a
    replay from then on: processing the same entry again, in the world the
    first call left, changes nothing. *)
Theorem recorded_log_is_not_recorded_twice (log : JsValue) (w : World) :
  transactions (snd (BscTrackerService.logStep E log w)) <> transactions w ->
  let w' := snd (BscTrackerService.logStep E log w) in
  HashPersisted E w' log
  /\ BscTrackerService.logStep E log w' = (Ok tt, w').
Proof.
  intros Hne w'.
  destruct (logStep_cases log w)
    as [H | (t & wallet & value & tokenAddress & Hn & Ht0 & Ht2 & _ & Hw & Ha & Hh
              & Hrun)].
  { rewrite H in Hne. contradiction. }
  assert (Hp : HashPersisted E w' log).
  { subst w'. rewrite Hrun in *.
    match type of Hne with
    | context [BscTrackerService.handleTokenTransfer E ?x wallet w] => set (tx := x) in *
    end.
    destruct (handleTokenTransfer_cases tx wallet w)
      as [(a & h & v & amt & price & Hrec) | H]; [|contradiction].
    destruct (recorded_hash_persisted tx wallet w a h v amt price Hrec)
      as (r & Hin & Hr).
    exists (jsOr (member log "transactionHash") (member log "hash")), h, r.
    split; [|split; [|split; assumption]].
    - rewrite !(get_member _ _ Hn), orElse_Ok. reflexivity.
    - destruct Hrec as (_ & _ & _ & _ & _ & _ & Hc & _). revert Hc.
      unfold canonical, tx, BscTrackerService.transferOfLog. cbn [hash member lookup].
      simpl String.eqb. cbv iota.
      rewrite (jsOr_truthy _ JsUndefined Hh). tauto. }
  split; [exact Hp|].
  unfold BscTrackerService.logStep. unfold bind at 1, lift at 1.
  rewrite (get_member _ _ Hn), Ht0. cbn [strictEq]. rewrite String.eqb_refl.
  apply processTransferLog_replay, Hp.
Qed.

End Resolution.

Lemma transfer_recorded_only_for_active_wallet_witness :
  snd (BscTrackerService.processERC20Transfer Sample.env Sample.smallTransfer
         Sample.emptyWorld) <> Sample.emptyWorld
  /\ exists s wallet,
       jsOr (jsOr (member Sample.smallTransfer "to")
               (member Sample.smallTransfer "toAddress")) (JsString "") = JsString s
       /\ find (fun x => String.eqb (Wallet.address x)
                           (toLowerCase (runtime Sample.env) s))
            (wallets Sample.emptyWorld) = Some wallet
       /\ Wallet.isActive wallet = true.
Proof.
  assert (H : snd (BscTrackerService.processERC20Transfer Sample.env Sample.smallTransfer
                     Sample.emptyWorld) <> Sample.emptyWorld).
  { intros H. apply (f_equal trace) in H. vm_compute in H. discriminate H. }
  split; [exact H|].
  destruct (transfer_recorded_only_for_active_wallet Sample.env Sample.smallTransfer
              Sample.emptyWorld H) as (s & wallet & H1 & H2 & H3 & _).
  exists s, wallet. auto.
Defined.

Lemma recorded_transfer_is_not_recorded_twice_witness :
  transactions (snd (BscTrackerService.processERC20Transfer Sample.env
                       Sample.smallTransfer Sample.emptyWorld))
    <> transactions Sample.emptyWorld
  /\ BscTrackerService.processERC20Transfer Sample.env Sample.smallTransfer
       (snd (BscTrackerService.processERC20Transfer Sample.env Sample.smallTransfer
               Sample.emptyWorld))
     = (Ok tt, snd (BscTrackerService.processERC20Transfer Sample.env
                      Sample.smallTransfer Sample.emptyWorld)).
Proof.
  assert (H : transactions (snd (BscTrackerService.processERC20Transfer Sample.env
                                   Sample.smallTransfer Sample.emptyWorld))
              <> transactions Sample.emptyWorld).
  { intros H. apply (f_equal (@List.length _)) in H. vm_compute in H. discriminate H. }
  split; [exact H|].
  apply (recorded_transfer_is_not_recorded_twice Sample.env Sample.smallTransfer
           Sample.emptyWorld H).
Defined.

Lemma recorded_log_is_not_recorded_twice_witness :
  transactions (snd (BscTrackerService.logStep Sample.env Sample.transferLog
                       Sample.emptyWorld))
    <> transactions Sample.emptyWorld
  /\ BscTrackerService.logStep Sample.env Sample.transferLog
       (snd (BscTrackerService.logStep Sample.env Sample.transferLog Sample.emptyWorld))
     = (Ok tt, snd (BscTrackerService.logStep Sample.env Sample.transferLog
                      Sample.emptyWorld)).
Proof.
  assert (H : transactions (snd (BscTrackerService.logStep Sample.env Sample.transferLog
                                   Sample.emptyWorld))
              <> transactions Sample.emptyWorld).
  { intros H. apply (f_equal (@List.length _)) in H. vm_compute in H. discriminate H. }
  split; [exact H|].
  apply (recorded_log_is_not_recorded_twice Sample.env Sample.transferLog
           Sample.emptyWorld H).
Defined.

(* ------------------------------------------------------------------ *)
(** * A batch of entries                                                *)
(* ------------------------------------------------------------------ *)

Section Batch.

Variable E : Env.

Lemma forOf_app {A} (l1 l2 : list A) (body : A -> M unit) (w : World) :
  forOf (l1 ++ l2) body w
  = match forOf l1 body w with
    | (Ok _, w') => forOf l2 body w'
    | (Throw e, w') => (Throw e, w')
    end.
Proof.
  revert w. induction l1 as [|x l1 IH]; intros w; simpl; [reflexivity|].
  unfold bind. destruct (body x w) as [[[]|e] w1]; [apply IH|reflexivity].
Qed.

Lemma forOf_returns {A} (l : list A) (body : A -> M unit) :
  (forall x, In x l -> forall w, fst (body x w) = Ok tt) ->
  forall w, fst (forOf l body w) = Ok tt.
Proof.
  induction l as [|x l IH]; intros H w; simpl; [reflexivity|].
  unfold bind. pose proof (H x (or_introl eq_refl) w) as Hx.
  destruct (body x w) as [[[]|e] w1]; [|discriminate Hx].
  apply IH. intros y Hy. apply H. right. exact Hy.
Qed.

Lemma processERC20Transfer_never_throws (transfer : JsValue) (w : World) :
  fst (BscTrackerService.processERC20Transfer E transfer w) = Ok tt.
Proof. apply tryCatch_never_throws. Qed.

Lemma processTransferLog_never_throws (log : JsValue) (w : World) :
  fst (BscTrackerService.processTransferLog E log w) = Ok tt.
Proof. apply tryCatch_never_throws. Qed.

Lemma transferStep_object (blockNumber : JsValue) (fs : list (string * JsValue))
    (w : World) :
  BscTrackerService.transferStep E blockNumber (JsObject fs) w
  = BscTrackerService.processERC20Transfer E
      (if negb (truthy (member (JsObject fs) "block")) && truthy blockNumber
       then JsObject (setField "block" (JsObject [("number", blockNumber)]) fs)
       else JsObject fs) w.
Proof.
  unfold BscTrackerService.transferStep, bind, lift, get. cbn [nullish].
  destruct (negb (truthy (member (JsObject fs) "block")) && truthy blockNumber);
    reflexivity.
Qed.

Lemma transferStep_nullish (blockNumber : JsValue) (x : JsValue) (w : World) :
  nullish x = true ->
  BscTrackerService.transferStep E blockNumber x w = (Throw TypeError, w).
Proof.
  intros Hn. unfold BscTrackerService.transferStep, bind, lift.
  rewrite (get_nullish _ _ Hn). reflexivity.
Qed.

Lemma logStep_never_throws (log : JsValue) (w : World) :
  nullish log = false -> fst (BscTrackerService.logStep E log w) = Ok tt.
Proof.
  intros Hn. unfold BscTrackerService.logStep, bind, lift.
  rewrite (get_member _ _ Hn).
  destruct (strictEq _ _); [apply processTransferLog_never_throws|reflexivity].
Qed.

(** X4.  [handleWebhookEvent] returns normally on a delivery whose flag
    [confirmed] and stream identifier print, whose structured transfers
    are an array of objects and whose logs are an array without [null] and
    [undefined] entries: whatever goes wrong with one entry is caught
    inside the processing of that entry. *)
Theorem handleWebhookEvent_returns_on_object_entries
    (body : JsValue) (transfers logs : list JsValue) (w : World) :
  Prints E (optGet body "confirmed") ->
  Prints E (optGet body "streamId") ->
  jsOr (optGet body "erc20Transfers") (JsArray []) = JsArray transfers ->
  Forall (fun x => isObject x = true) transfers ->
  jsOr (optGet body "logs") (JsArray []) = JsArray logs ->
  Forall (fun x => nullish x = false) logs ->
  fst (BscTrackerService.handleWebhookEvent E body w) = Ok tt.
Proof.
  intros Hc Hs Ht Hobj Hl Hlog.
  pose proof (receivedLine_Ok E body Hc Hs) as Hline.
  destruct (BscTrackerService.isTestWebhook body) eqn:Htest.
  { rewrite testWebhook_branch by exact Htest. rewrite Hline. reflexivity. }
  destruct (truthy (optGet body "confirmed")) eqn:Hconf.
  2:{ rewrite unconfirmed_branch by exact Hconf. rewrite Hline. reflexivity. }
  unfold BscTrackerService.handleWebhookEvent. rewrite tryCatch_rethrow.
  rewrite bind_lift, Hline, Htest, Hconf. cbn [negb].
  cbv zeta. rewrite Ht, Hl. rewrite bind_lift. cbn [iterate].
  unfold bind at 1.
  match goal with
  | |- context [forOf transfers ?b w] =>
      pose proof (forOf_returns transfers b) as Hr
  end.
  match type of Hr with ?P -> _ => assert (Hp : P) end.
  { intros x Hx w0. rewrite Forall_forall in Hobj. specialize (Hobj x Hx).
    destruct x; try discriminate Hobj.
    rewrite transferStep_object. apply processERC20Transfer_never_throws. }
  specialize (Hr Hp w).
  destruct (forOf transfers _ w) as [[[]|e] w1]; [|discriminate Hr].
  rewrite bind_lift.
  pose proof (forOf_returns logs (BscTrackerService.logStep E)) as Hr2.
  match type of Hr2 with ?P -> _ => assert (Hp2 : P) end.
  { intros x Hx w0. rewrite Forall_forall in Hlog.
    apply logStep_never_throws, Hlog, Hx. }
  apply (Hr2 Hp2 w1).
Qed.

(** X5.  A [null] or [undefined] entry among the structured transfers of a
    confirmed delivery whose flag [confirmed] and stream identifier print
    aborts the batch: [handleWebhookEvent] throws, the entries after it
    and all the logs of the delivery are never looked at, and the world is
    the one the entries before it left. *)
Theorem null_entry_aborts_the_batch
    (body : JsValue) (before after : list JsValue) (x : JsValue) (w : World) :
  Prints E (optGet body "confirmed") ->
  Prints E (optGet body "streamId") ->
  BscTrackerService.isTestWebhook body = false ->
  truthy (optGet body "confirmed") = true ->
  optGet body "erc20Transfers" = JsArray (before ++ x :: after) ->
  nullish x = true ->
  let blockNumber :=
    jsOr (optGet (optGet body "block") "number") (optGet body "blockNumber") in
  exists e,
    BscTrackerService.handleWebhookEvent E body w
    = (Throw e,
       snd (forOf before (BscTrackerService.transferStep E blockNumber) w)).
Proof.
  intros Hc Hs Htest Hconf Harr Hn blockNumber.
  pose proof (receivedLine_Ok E body Hc Hs) as Hline.
  unfold BscTrackerService.handleWebhookEvent. rewrite tryCatch_rethrow.
  rewrite bind_lift, Hline, Htest, Hconf. cbn [negb]. cbv zeta. rewrite Harr.
  cbn [jsOr truthy]. rewrite bind_lift. cbn [iterate].
  unfold bind at 1. rewrite forOf_app. fold blockNumber.
  destruct (forOf before _ w) as [[[]|e] w1].
  - cbn [forOf]. unfold bind at 1. rewrite (transferStep_nullish _ _ _ Hn).
    exists TypeError. reflexivity.
  - exists e. reflexivity.
Qed.

Lemma lookup_setField_same (k : string) (v : JsValue) (fs : list (string * JsValue)) :
  lookup k (setField k v fs) = Some v.
Proof.
  induction fs as [|[k' v0] r IH]; cbn [setField lookup].
  - rewrite String.eqb_refl. reflexivity.
  - destruct (String.eqb k k') eqn:Hk; cbn [lookup].
    + rewrite String.eqb_refl. reflexivity.
    + rewrite Hk. exact IH.
Qed.

Lemma lookup_setField_other (k k0 : string) (v : JsValue)
    (fs : list (string * JsValue)) :
  k0 <> k -> lookup k0 (setField k v fs) = lookup k0 fs.
Proof.
  intros Hne. apply String.eqb_neq in Hne.
  induction fs as [|[k' v0] r IH]; cbn [setField lookup].
  - rewrite Hne. reflexivity.
  - destruct (String.eqb k k') eqn:Hk; cbn [lookup].
    + apply String.eqb_eq in Hk. subst k'. rewrite Hne. reflexivity.
    + rewrite IH. reflexivity.
Qed.

(** X6.  The block number of the delivery reaches a structured transfer that
    has none of its own: the transfer is processed with the property
    [block] set to [{number: blockNumber}] and every other property as it
    was, and the block its record would carry is that number (parsed when
    it is a string). *)
Theorem batch_block_number_reaches_the_transfer
    (blockNumber : JsValue) (fs : list (string * JsValue)) (w : World) :
  truthy (member (JsObject fs) "block") = false ->
  truthy blockNumber = true ->
  let transfer' :=
    JsObject (setField "block" (JsObject [("number", blockNumber)]) fs) in
  BscTrackerService.transferStep E blockNumber (JsObject fs) w
  = BscTrackerService.processERC20Transfer E transfer' w
  /\ block (canonical E transfer') = numberIfString blockNumber
  /\ forall k, k <> "block" -> member transfer' k = member (JsObject fs) k.
Proof.
  intros Hb Hn transfer'. split; [|split].
  - rewrite transferStep_object, Hb, Hn. reflexivity.
  - unfold canonical, block, transfer'.
    unfold member at 1. rewrite lookup_setField_same.
    unfold optGet. cbn [nullish]. unfold member at 1.
    replace (lookup "number" [("number", blockNumber)]) with (Some blockNumber)
      by reflexivity.
    rewrite !(jsOr_truthy blockNumber _ Hn). reflexivity.
  - intros k Hk. unfold transfer', member.
    rewrite (lookup_setField_other _ _ _ _ Hk). reflexivity.
Qed.

End Batch.

Lemma handleWebhookEvent_returns_on_object_entries_witness :
  fst (BscTrackerService.handleWebhookEvent Sample.env
         (Sample.delivery [Sample.smallTransfer; Sample.largeTransfer])
         Sample.emptyWorld) = Ok tt.
Proof.
  apply (handleWebhookEvent_returns_on_object_entries Sample.env
           (Sample.delivery [Sample.smallTransfer; Sample.largeTransfer])
           [Sample.smallTransfer; Sample.largeTransfer] []).
  - eexists. reflexivity.
  - eexists. reflexivity.
  - reflexivity.
  - repeat constructor.
  - reflexivity.
  - constructor.
Defined.

Lemma null_entry_aborts_the_batch_witness :
  exists e,
    BscTrackerService.handleWebhookEvent Sample.env
      (Sample.delivery [Sample.smallTransfer; JsNull; Sample.largeTransfer])
      Sample.emptyWorld
    = (Throw e,
       snd (forOf [Sample.smallTransfer]
              (BscTrackerService.transferStep Sample.env (JsString "100"))
              Sample.emptyWorld)).
Proof.
  apply (null_entry_aborts_the_batch Sample.env
           (Sample.delivery [Sample.smallTransfer; JsNull; Sample.largeTransfer])
           [Sample.smallTransfer] [Sample.largeTransfer] JsNull Sample.emptyWorld).
  - eexists. reflexivity.
  - eexists. reflexivity.
  - vm_compute. reflexivity.
  - reflexivity.
  - reflexivity.
  - reflexivity.
Defined.

Lemma batch_block_number_reaches_the_transfer_witness :
  block (canonical Sample.env
           (JsObject (setField "block" (JsObject [("number", JsString "100")])
                        [("transactionHash", JsString "0xaa05");
                         ("to", JsString Sample.walletAddress)])))
  = JsNumber (parseInt "100").
Proof.
  apply (batch_block_number_reaches_the_transfer Sample.env (JsString "100")
           [("transactionHash", JsString "0xaa05");
            ("to", JsString Sample.walletAddress)] Sample.emptyWorld);
    reflexivity.
Defined.

(* ------------------------------------------------------------------ *)
(** * The market lookup and the trade                                   *)
(* ------------------------------------------------------------------ *)

Section Trade.

Variable E : Env.

Let rt := runtime E.

Lemma pairShaped_object (p : JsValue) :
  pairShaped p = true ->
  exists b q, nullish p = false /\ truthy p = true
              /\ member p "base" = JsString b /\ member p "quote" = JsString q.
Proof.
  unfold pairShaped, isString. intros H.
  apply andb_prop in H. destruct H as [H Hq].
  apply andb_prop in H. destruct H as [Hn Hb].
  destruct (member p "base") as [ | |b0|x0|b|l0|fs0] eqn:Hmb; try discriminate.
  destruct (member p "quote") as [ | |b1|x1|q|l1|fs1] eqn:Hmq; try discriminate.
  exists b, q. split; [|split; [|split; reflexivity]].
  - destruct (nullish p); [discriminate|reflexivity].
  - destruct p; try discriminate; try reflexivity.
Qed.

Lemma matchesSymbol_shaped (symbolUpper : string) (p : JsValue) :
  pairShaped p = true ->
  GateioService.matchesSymbol E symbolUpper p = Ok (pairMatches rt symbolUpper p).
Proof.
  intros H. destruct (pairShaped_object p H) as (b & q & Hn & _ & Hb & Hq).
  unfold GateioService.matchesSymbol, pairMatches.
  rewrite !(get_member _ _ Hn), Hb, Hq. cbn [resBind callToUpperCase]. fold rt.
  destruct (String.eqb (toUpperCase rt b) symbolUpper); reflexivity.
Qed.

Lemma matchesSymbol_malformed (symbolUpper : string) (p : JsValue) :
  pairShaped p = false ->
  GateioService.matchesSymbol E symbolUpper p = Throw TypeError.
Proof.
  unfold pairShaped, isString, GateioService.matchesSymbol. intros H.
  destruct (nullish p) eqn:Hn.
  { rewrite (get_nullish _ _ Hn). reflexivity. }
  rewrite !(get_member _ _ Hn). cbn [negb andb] in H.
  destruct (member p "base"); try reflexivity.
  cbn [resBind callToUpperCase].
  destruct (member p "quote"); try reflexivity. discriminate H.
Qed.

Lemma findFirst_shaped (symbolUpper : string) (items : list JsValue) :
  Forall (fun p => pairShaped p = true) items ->
  GateioService.findFirst (GateioService.matchesSymbol E symbolUpper) items
  = Ok (match find (pairMatches rt symbolUpper) items with
        | Some p => p
        | None => JsUndefined
        end).
Proof.
  induction 1 as [|p items Hp _ IH]; [reflexivity|].
  cbn [GateioService.findFirst find]. rewrite (matchesSymbol_shaped _ _ Hp).
  cbn [resBind]. destruct (pairMatches rt symbolUpper p); [reflexivity|exact IH].
Qed.

(** X7.  On a listing whose entries all carry a string [base] and a string
    [quote], [findTradingPair] returns the [id] of the first entry whose
    base, put in upper case, is the symbol put in upper case and whose
    quote, put in upper case, is USDT or USD, and [null] when no entry
    qualifies.  It sends exactly the one listing request. *)
Theorem findTradingPair_first_listed_match
    (tokenSymbol : string) (items : list JsValue) (w : World) :
  pairsResponse E w = Some (JsArray items) ->
  Forall (fun p => pairShaped p = true) items ->
  GateioService.findTradingPair E (JsString tokenSymbol) w
  = (Ok (match find (pairMatches rt (toUpperCase rt tokenSymbol)) items with
         | Some p => member p "id"
         | None => JsNull
         end),
     emit PairsRequest w).
Proof.
  intros Hresp Hshape. rewrite findTradingPair_run. unfold market.
  rewrite Hresp. cbn [callToUpperCase GateioService.callFind]. fold rt.
  rewrite (findFirst_shaped _ _ Hshape).
  destruct (find _ items) as [p|] eqn:Hf; [|reflexivity].
  apply find_some in Hf. destruct Hf as [Hin _].
  rewrite Forall_forall in Hshape.
  destruct (pairShaped_object p (Hshape p Hin)) as (b & q & Hn & Ht & _).
  rewrite Ht, (get_member _ _ Hn). reflexivity.
Qed.

(** X8.  One malformed entry hides the rest of the listing: when an entry that
    is [null] or lacks a string [base] or [quote] stands before the first
    pair of the symbol, the callback of [find] throws there and
    [findTradingPair] answers [null], whatever is listed after it. *)
Theorem malformed_listing_entry_hides_the_market
    (tokenSymbol : string) (before after : list JsValue) (bad : JsValue)
    (w : World) :
  pairsResponse E w = Some (JsArray (before ++ bad :: after)) ->
  Forall (fun p => pairShaped p = true
                   /\ pairMatches rt (toUpperCase rt tokenSymbol) p = false) before ->
  pairShaped bad = false ->
  GateioService.findTradingPair E (JsString tokenSymbol) w
  = (Ok JsNull, emit PairsRequest w).
Proof.
  intros Hresp Hbefore Hbad. rewrite findTradingPair_run. unfold market.
  rewrite Hresp. cbn [callToUpperCase GateioService.callFind]. fold rt.
  assert (H : GateioService.findFirst
                (GateioService.matchesSymbol E (toUpperCase rt tokenSymbol))
                (before ++ bad :: after) = Throw TypeError).
  { clear Hresp.
    induction Hbefore as [|p l [Hs Hm] _ IH]; cbn [app GateioService.findFirst].
    - rewrite (matchesSymbol_malformed _ _ Hbad). reflexivity.
    - rewrite (matchesSymbol_shaped _ _ Hs), Hm. exact IH. }
  rewrite H. reflexivity.
Qed.

Lemma replaceById_last (r r' : Transaction.t) (l : list Transaction.t) :
  Transaction.id r = Repository.nextId l ->
  Transaction.id r' = Transaction.id r ->
  Repository.replaceById r' (l ++ [r]) = (l ++ [r'])%list.
Proof.
  intros Hr Hr'. unfold Repository.replaceById. rewrite map_app. cbn [map].
  rewrite Hr', Nat.eqb_refl. f_equal.
  rewrite <- (map_id l) at 2. apply map_ext_in. intros x Hx.
  apply id_below_nextId in Hx.
  destruct (Nat.eqb (Transaction.id x) (Transaction.id r)) eqn:Hid; [|reflexivity].
  apply Nat.eqb_eq in Hid. lia.
Qed.

Lemma hasId_last (r : Transaction.t) (l : list Transaction.t) :
  Repository.hasId (Transaction.id r) (l ++ [r]) = true.
Proof.
  unfold Repository.hasId. rewrite existsb_app. cbn [existsb].
  rewrite Nat.eqb_refl. rewrite orb_true_r. reflexivity.
Qed.

(** X9.  What the trade leaves in the table.  For a recorded transfer whose
    alert is sent and that meets the threshold, with [r] the record
    inserted for it: the table ends as it was plus one row, and that row is
    [r] with the flag raised exactly when the exchange lists a market for
    the symbol, accepts the order and the store accepts the update;
    otherwise the row is [r] itself, flag false.  The order, when one is
    sent, is a market sell of a hundredth of the valuation on that market,
    and the second message goes out in every case. *)
Theorem short_flag_raised_iff_order_filled
    (tx : JsValue) (wallet : Wallet.t) (w : World)
    (tokenAddress h : string) (v : Z) (amountFormatted : string) (price : float)
    (text : string) :
  Recordable E tx wallet w tokenAddress h v amountFormatted price ->
  let c := canonical E tx in
  let r := inserted E c wallet tokenAddress h amountFormatted price w in
  alertText E c amountFormatted (Transaction.amountUsd r) = Ok text ->
  PrimFloat.leb (Wallet.thresholdUsd wallet) (Transaction.amountUsd r) = true ->
  let w0 := alerted E r wallet tokenAddress text w in
  let w1 := emit PairsRequest w0 in
  let tradingPair := market E (symbol c) w0 in
  let order :=
    JsObject [("currency_pair", tradingPair);
              ("side", JsString "sell");
              ("amount",
               JsString (NumberToString rt
                           (PrimFloat.div (Transaction.amountUsd r) (numberOfZ 100))));
              ("type", JsString "market")] in
  let filled :=
    truthy tradingPair
    && match orderResponse E w1 order with Some _ => true | None => false end
    && negb (writeFails E (emit (OrderRequest order) w1)
               (Transaction.withShortOpened true r)) in
  let w' := snd (BscTrackerService.handleTokenTransfer E tx wallet w) in
  transactions w'
  = (transactions w ++ [if filled then Transaction.withShortOpened true r else r])%list
  /\ (In (OrderRequest order) (trace w') <-> truthy tradingPair = true
                                              \/ In (OrderRequest order) (trace w))
  /\ (In (UpdateTransaction (Transaction.withShortOpened true r)) (trace w')
      <-> filled = true
          \/ In (UpdateTransaction (Transaction.withShortOpened true r)) (trace w))
  /\ messagesSent w' = (2 + messagesSent w)%nat.
Proof.
  intros Hrec c r Ha Hge w0 w1 tradingPair order filled w'. subst w'.
  rewrite (handleTokenTransfer_run E tx wallet w _ _ _ _ _ Hrec).
  cbn [snd]. fold c r.
  pose proof (Ha : alertText E c (Transaction.amount r) (Transaction.amountUsd r)
                   = Ok text) as Ha'.
  unfold handled. rewrite Ha', Hge. fold w0.
  destruct (alertText_shortText E c _ _ (Transaction.amountUsd r) _ Ha)
    as [text' ->].
  assert (Hm : messagesSent
                 (emit (SendMessage (Wallet.chatId wallet) text') (afterTrade E r w0))
               = (2 + messagesSent w)%nat).
  { unfold messagesSent at 1. cbn [emit trace filter isSendMessage List.length].
    fold (messagesSent (afterTrade E r w0)).
    rewrite afterTrade_messages. reflexivity. }
  split; [|split; [|split; [|exact Hm]]];
    cbn [emit transactions trace]; unfold afterTrade;
    change (Transaction.tokenSymbol r) with (symbol c);
    fold tradingPair; fold w1;
    change (orderFor E tradingPair r) with order;
    subst filled.
  - destruct (truthy tradingPair); [|reflexivity].
    destruct (orderResponse E w1 order); [|reflexivity].
    cbn [andb]. unfold Repository.save.
    destruct (writeFails E _ _); [reflexivity|]. cbn [negb].
    replace (Nat.eqb (Transaction.id (Transaction.withShortOpened true r)) 0)
      with false by reflexivity.
    change (transactions (emit (OrderRequest order) w1))
      with (transactions w ++ [r])%list.
    change (Transaction.id (Transaction.withShortOpened true r))
      with (Transaction.id r).
    rewrite hasId_last. cbn [snd emit withTransactions transactions].
    apply replaceById_last; reflexivity.
  - destruct (truthy tradingPair).
    2:{ unfold w1, w0, alerted, recorded. simpl.
        split; [intros [H|[H|[H|[H|[H|H]]]]]; try discriminate; auto
               |intros [H|H]; [discriminate|auto 10]]. }
    split; [auto|intros _].
    destruct (orderResponse E w1 order).
    + unfold Repository.save. destruct (writeFails E _ _); simpl; auto.
      destruct (Repository.hasId _ _); simpl; auto.
    + simpl. auto.
  - destruct (truthy tradingPair).
    2:{ cbn [andb]. unfold w1, w0, alerted, recorded. simpl.
        split; [intros [H|[H|[H|[H|[H|H]]]]]; try discriminate; auto
               |intros [H|H]; [discriminate|auto 10]]. }
    destruct (orderResponse E w1 order).
    2:{ cbn [andb]. unfold w1, w0, alerted, recorded. simpl.
        split; [intros [H|[H|[H|[H|[H|[H|H]]]]]]; try discriminate; auto
               |intros [H|H]; [discriminate|auto 10]]. }
    cbn [andb]. unfold Repository.save.
    destruct (writeFails E _ _).
    { cbn [negb]. unfold w1, w0, alerted, recorded. simpl.
      split; [intros [H|[H|[H|[H|[H|[H|H]]]]]]; try discriminate; auto
             |intros [H|H]; [discriminate|auto 10]]. }
    cbn [negb]. split; [auto|intros _].
    replace (Nat.eqb (Transaction.id (Transaction.withShortOpened true r)) 0)
      with false by reflexivity.
    change (transactions (emit (OrderRequest order) w1))
      with (transactions w ++ [r])%list.
    change (Transaction.id (Transaction.withShortOpened true r))
      with (Transaction.id r).
    rewrite hasId_last. simpl. auto.
Qed.

End Trade.

Lemma findTradingPair_first_listed_match_witness :
  fst (GateioService.findTradingPair
         (envListing [listed "BNB_USDT" "BNB" "USDT"; listed "CAKE_BTC" "CAKE" "BTC";
                      listed "CAKE_USD" "Cake" "usd"; listed "CAKE_USDT" "CAKE" "USDT"])
         (JsString "cake") Sample.emptyWorld)
  = Ok (JsString "CAKE_USD").
Proof.
  rewrite (findTradingPair_first_listed_match
             (envListing [listed "BNB_USDT" "BNB" "USDT"; listed "CAKE_BTC" "CAKE" "BTC";
                          listed "CAKE_USD" "Cake" "usd";
                          listed "CAKE_USDT" "CAKE" "USDT"])
             "cake"
             [listed "BNB_USDT" "BNB" "USDT"; listed "CAKE_BTC" "CAKE" "BTC";
              listed "CAKE_USD" "Cake" "usd"; listed "CAKE_USDT" "CAKE" "USDT"]
             Sample.emptyWorld).
  - reflexivity.
  - reflexivity.
  - repeat constructor.
Defined.

Lemma malformed_listing_entry_hides_the_market_witness :
  GateioService.findTradingPair
    (envListing [listed "BNB_USDT" "BNB" "USDT";
                 JsObject [("id", JsString "X_USDT"); ("base", JsNull);
                           ("quote", JsString "USDT")];
                 listed "CAKE_USDT" "CAKE" "USDT"])
    (JsString "CAKE") Sample.emptyWorld
  = (Ok JsNull, emit PairsRequest Sample.emptyWorld).
Proof.
  apply (malformed_listing_entry_hides_the_market
           (envListing [listed "BNB_USDT" "BNB" "USDT";
                        JsObject [("id", JsString "X_USDT"); ("base", JsNull);
                                  ("quote", JsString "USDT")];
                        listed "CAKE_USDT" "CAKE" "USDT"])
           "CAKE" [listed "BNB_USDT" "BNB" "USDT"] [listed "CAKE_USDT" "CAKE" "USDT"]
           (JsObject [("id", JsString "X_USDT"); ("base", JsNull);
                      ("quote", JsString "USDT")])
           Sample.emptyWorld).
  - reflexivity.
  - repeat constructor.
  - reflexivity.
Defined.

Lemma short_flag_raised_iff_order_filled_witness :
  Recordable Sample.env Sample.largeTransfer Sample.wallet Sample.emptyWorld
    "0x0e09fabb73bd3ade0a17ecc321fd13a19e81ce82" "0xaa02" 5000000000000000000000
    "5000.0" (numberOfZ 2)
  /\ (exists text,
        alertText Sample.env (canonical Sample.env Sample.largeTransfer) "5000.0"
          (numberOfZ 10000) = Ok text)
  /\ map Transaction.shortOpened
       (transactions
          (snd (BscTrackerService.handleTokenTransfer Sample.env Sample.largeTransfer
                  Sample.wallet Sample.emptyWorld)))
     = [true].
Proof.
  assert (Hrec : Recordable Sample.env Sample.largeTransfer Sample.wallet
                   Sample.emptyWorld "0x0e09fabb73bd3ade0a17ecc321fd13a19e81ce82"
                   "0xaa02" 5000000000000000000000 "5000.0" (numberOfZ 2)).
  { unfold Recordable. repeat split; vm_compute; reflexivity. }
  split; [exact Hrec|].
  destruct (alertText Sample.env (canonical Sample.env Sample.largeTransfer) "5000.0"
              (numberOfZ 10000)) as [text|e] eqn:Ha; [|vm_compute in Ha; discriminate Ha].
  split; [exists text; reflexivity|].
  destruct (short_flag_raised_iff_order_filled Sample.env Sample.largeTransfer
              Sample.wallet Sample.emptyWorld
              "0x0e09fabb73bd3ade0a17ecc321fd13a19e81ce82" "0xaa02"
              5000000000000000000000 "5000.0" (numberOfZ 2) text
              Hrec Ha eq_refl) as (Hrows & _).
  rewrite Hrows. reflexivity.
Defined.

(* ------------------------------------------------------------------ *)
(** * The notifier                                                      *)
(* ------------------------------------------------------------------ *)

Section Notifier.

Variable E : Env.
Variable f : World -> Z -> string -> bool.

Lemma alike_refl {A} (m : M A) : alike m m.
Proof. intros w. reflexivity. Qed.

Lemma alike_bind {A B} (m m' : M A) (k k' : A -> M B) :
  alike m m' -> (forall a, alike (k a) (k' a)) -> alike (bind m k) (bind m' k').
Proof.
  intros Hm Hk w. unfold bind. rewrite (Hm w).
  destruct (m' w) as [[a|e] w1]; [apply Hk|reflexivity].
Qed.

Lemma alike_tryCatch {A} (m m' : M A) (h h' : JsError -> M A) :
  alike m m' -> (forall e, alike (h e) (h' e)) ->
  alike (tryCatch m h) (tryCatch m' h').
Proof.
  intros Hm Hh w. unfold tryCatch. rewrite (Hm w).
  destruct (m' w) as [[a|e] w1]; [reflexivity|apply Hh].
Qed.

Lemma alike_forOf {A} (l : list A) (body body' : A -> M unit) :
  (forall x, alike (body x) (body' x)) -> alike (forOf l body) (forOf l body').
Proof.
  intros Hb. induction l as [|x l IH]; [apply alike_refl|].
  cbn [forOf]. apply alike_bind; [apply Hb|intros _; exact IH].
Qed.

Lemma alike_sendNotification (chat : Z) (text : string) :
  alike (TelegramService.sendNotification (withTelegram f E) chat text)
        (TelegramService.sendNotification E chat text).
Proof. intros w. rewrite !sendNotification_run. reflexivity. Qed.

Lemma alike_handleTokenTransfer (tx : JsValue) (wallet : Wallet.t) :
  alike (BscTrackerService.handleTokenTransfer (withTelegram f E) tx wallet)
        (BscTrackerService.handleTokenTransfer E tx wallet).
Proof.
  unfold BscTrackerService.handleTokenTransfer.
  apply alike_tryCatch; [|intros e; apply alike_refl].
  apply alike_bind; [apply alike_refl|intros txHash].
  destruct (negb (truthy txHash)); [apply alike_refl|].
  repeat (apply alike_bind; [apply alike_refl|intros ?]).
  change (runtime (withTelegram f E)) with (runtime E).
  apply alike_bind; [apply alike_sendNotification|intros _].
  destruct (PrimFloat.leb _ _); [|apply alike_refl].
  apply alike_bind; [apply alike_refl|intros _].
  apply alike_bind; [apply alike_refl|intros text]. apply alike_sendNotification.
Qed.

Lemma alike_processERC20Transfer (transfer : JsValue) :
  alike (BscTrackerService.processERC20Transfer (withTelegram f E) transfer)
        (BscTrackerService.processERC20Transfer E transfer).
Proof.
  unfold BscTrackerService.processERC20Transfer.
  apply alike_tryCatch; [|intros e; apply alike_refl].
  apply alike_bind; [apply alike_refl|intros toRaw].
  apply alike_bind; [apply alike_refl|intros toAddress].
  destruct (negb _); [apply alike_refl|].
  apply alike_bind; [intros w; reflexivity|intros [wallet|]]; [|apply alike_refl].
  destruct (negb _); [apply alike_refl|].
  apply alike_bind; [apply alike_refl|intros txHash].
  destruct (negb _); [apply alike_refl|].
  apply alike_bind; [intros w; reflexivity|intros [x|]]; [apply alike_refl|].
  apply alike_handleTokenTransfer.
Qed.

Lemma alike_processTransferLog (log : JsValue) :
  alike (BscTrackerService.processTransferLog (withTelegram f E) log)
        (BscTrackerService.processTransferLog E log).
Proof.
  unfold BscTrackerService.processTransferLog.
  apply alike_tryCatch; [|intros e; apply alike_refl].
  change (runtime (withTelegram f E)) with (runtime E).
  apply alike_bind; [apply alike_refl|intros toAddressHex].
  destruct (negb _); [apply alike_refl|].
  apply alike_bind; [apply alike_refl|intros tail].
  cbv zeta.
  apply alike_bind; [intros w; reflexivity|intros [wallet|]]; [|apply alike_refl].
  destruct (negb _); [apply alike_refl|].
  apply alike_bind; [apply alike_refl|intros txHash].
  destruct (negb _); [apply alike_refl|].
  apply alike_bind; [intros w; reflexivity|intros [x|]]; [apply alike_refl|].
  apply alike_bind; [apply alike_refl|intros valueHex].
  apply alike_bind; [apply alike_refl|intros value].
  apply alike_bind; [apply alike_refl|intros address].
  apply alike_bind; [apply alike_refl|intros tokenAddress].
  apply alike_bind; [apply alike_refl|intros blockNumber].
  apply alike_handleTokenTransfer.
Qed.

Lemma alike_handleWebhookEvent (body : JsValue) :
  alike (BscTrackerService.handleWebhookEvent (withTelegram f E) body)
        (BscTrackerService.handleWebhookEvent E body).
Proof.
  unfold BscTrackerService.handleWebhookEvent.
  apply alike_tryCatch; [|intros e; apply alike_refl].
  apply alike_bind; [apply alike_refl|intros _].
  destruct (BscTrackerService.isTestWebhook body); [apply alike_refl|].
  destruct (negb _); [apply alike_refl|]. cbv zeta.
  apply alike_bind; [apply alike_refl|intros transfers].
  apply alike_bind.
  - apply alike_forOf. intros x. unfold BscTrackerService.transferStep.
    apply alike_bind; [apply alike_refl|intros ?].
    apply alike_bind; [apply alike_refl|intros ?].
    apply alike_processERC20Transfer.
  - intros _. apply alike_bind; [apply alike_refl|intros entries].
    apply alike_forOf. intros x. unfold BscTrackerService.logStep.
    apply alike_bind; [apply alike_refl|intros ?].
    destruct (strictEq _ _); [apply alike_processTransferLog|apply alike_refl].
Qed.

(** X10.  Whether the messenger delivers a message or fails makes no
    difference to anything else: with any other delivery behaviour [f] one
    POST gets the same response and leaves the same rows, the same requests
    to the price service and the exchange, and the same attempted messages.
    A failed alert never stops the record or the trade. *)
Theorem message_delivery_never_changes_the_outcome (body : JsValue) (w : World) :
  WebhookController.deliver (withTelegram f E) body w
  = WebhookController.deliver E body w.
Proof.
  assert (Ht : forall b, WebhookController.deferred (withTelegram f E) b w
                         = WebhookController.deferred E b w).
  { intros b. unfold WebhookController.deferred.
    apply alike_tryCatch; [apply alike_handleWebhookEvent|intros e; apply alike_refl]. }
  assert (Hl : WebhookController.logDelivery (withTelegram f E) body
               = WebhookController.logDelivery E body).
  { unfold WebhookController.logDelivery. reflexivity. }
  unfold WebhookController.deliver, WebhookController.handleMoralisWebhook.
  rewrite Hl. clear Hl.
  destruct (WebhookController.logDelivery E body) as [[]|e]; cbn [resBind];
    [|reflexivity].
  rewrite Ht. reflexivity.
Qed.

End Notifier.

(* ------------------------------------------------------------------ *)
(** * The quantity of a log entry                                       *)
(* ------------------------------------------------------------------ *)

Section LogQuantity.

Variable E : Env.

(** X11.  The quantity read from a log entry whose [data] is a string is
    an unsigned 256-bit integer: only the last 64 characters of [data] are
    read, as a hexadecimal numeral, whatever else [data] holds in front of
    them, and an empty [data] reads as 0. *)
Theorem log_quantity_fits_uint256
    (txHash tokenAddress blockNumber : JsValue) (toAddress data value : string)
    (z : Z) :
  BscTrackerService.dataValue E (JsString data) = Ok value ->
  quantity (canonical E (BscTrackerService.transferOfLog txHash toAddress tokenAddress
                           value blockNumber)) = Ok z ->
  (0 <= z < 2 ^ 256)%Z.
Proof.
  intros Hv. destruct data as [|c d].
  - rewrite dataValue_falsy in Hv by reflexivity.
    injection Hv as <-. change "0x0" with ("0x" ++ "0").
    rewrite quantity_transferOfLog.
    cbn. intros H. injection H as <-. lia.
  - rewrite dataValue_string in Hv by discriminate.
    assert (Hz : value = "0x" ++ sliceLast 64 (String c d)) by congruence.
    subst value.
    rewrite quantity_transferOfLog, <- stringToBigInt_0x.
    apply stringToBigInt_slice_bound.
Qed.

Lemma sliceLast_short_prefixed (h : string) :
  (String.length h < 64)%nat ->
  sliceLast 64 ("0x" ++ h) = "0x" ++ h \/ sliceLast 64 ("0x" ++ h) = String "x" h.
Proof.
  intros Hl. unfold sliceLast.
  change (String.length ("0x" ++ h)) with (S (S (String.length h))).
  destruct (Nat.eq_dec (String.length h) 63) as [H63|Hne].
  - right. rewrite H63. change (65 - 64)%nat with 1%nat.
    change (substring 1 64 ("0x" ++ h)) with (substring 0 64 (String "x" h)).
    apply substring_all. simpl. lia.
  - left. replace (S (S (String.length h)) - 64)%nat with 0%nat by lia.
    apply substring_all. simpl. lia.
Qed.

(** X12.  A log entry whose [data] keeps its [0x] prefix in front of fewer than
    64 digits is dropped without a trace: the prefix ends up inside the
    numeral handed to [BigInt], which throws, and the error is caught
    before the price is requested. *)
Theorem short_log_data_is_never_recorded (log : JsValue) (h : string) (w : World) :
  member log "data" = JsString ("0x" ++ h) ->
  (String.length h < 64)%nat ->
  BscTrackerService.logStep E log w = (Ok tt, w).
Proof.
  intros Hd Hl.
  assert (Hnl : nullish log = false) by (destruct log; try reflexivity; discriminate Hd).
  assert (Hfst : fst (BscTrackerService.logStep E log w) = Ok tt).
  { unfold BscTrackerService.logStep, bind, lift. rewrite (get_member _ _ Hnl).
    destruct (strictEq _ _); [apply tryCatch_never_throws|reflexivity]. }
  cut (snd (BscTrackerService.logStep E log w) = w).
  { intros Hs. destruct (BscTrackerService.logStep E log w) as [r w'].
    simpl in *. congruence. }
  destruct (logStep_cases E log w)
    as [H | (t & wallet & value & tokenAddress & Hn & Ht0 & Ht2 & Hv & Hw & Ha & Hh
              & Hrun)]; [exact H|].
  rewrite Hrun. rewrite Hd in Hv.
  rewrite dataValue_string in Hv by discriminate.
  assert (Hz : value = "0x" ++ sliceLast 64 ("0x" ++ h)) by congruence.
  subst value.
  rewrite handleTokenTransfer_canonical by reflexivity.
  unfold ingest. rewrite tryCatch_snd.
  destruct (truthy (hash _)); [|reflexivity]. cbn [negb].
  rewrite bind_lift. destruct (contract _) as [a|e]; [|reflexivity].
  rewrite bind_lift, quantity_transferOfLog.
  assert (Hq : nonEmptyDigits 16 (trimEnd (sliceLast 64 ("0x" ++ h)))
               = Throw SyntaxError).
  { destruct (sliceLast_short_prefixed h Hl) as [-> | ->].
    - change ("0x" ++ h) with (String "0" (String "x" h)).
      rewrite !trimEnd_cons by reflexivity. reflexivity.
    - rewrite trimEnd_cons by reflexivity. reflexivity. }
  rewrite Hq. reflexivity.
Qed.

End LogQuantity.

Lemma log_quantity_fits_uint256_witness :
  BscTrackerService.dataValue Sample.env
    (JsString "0x0000000000000000000000000000000000000000000000004563918244f40000")
  = Ok "0x0000000000000000000000000000000000000000000000004563918244f40000"
  /\ quantity (canonical Sample.env
                 (BscTrackerService.transferOfLog (JsString "0xaa03")
                    Sample.walletAddress JsUndefined
                    "0x0000000000000000000000000000000000000000000000004563918244f40000"
                    (JsString "100")))
     = Ok 5000000000000000000%Z
  /\ (0 <= 5000000000000000000 < 2 ^ 256)%Z.
Proof.
  assert (Hv : BscTrackerService.dataValue Sample.env
                 (JsString
                    "0x0000000000000000000000000000000000000000000000004563918244f40000")
               = Ok "0x0000000000000000000000000000000000000000000000004563918244f40000")
    by reflexivity.
  assert (H : quantity (canonical Sample.env
                (BscTrackerService.transferOfLog (JsString "0xaa03")
                   Sample.walletAddress JsUndefined
                   "0x0000000000000000000000000000000000000000000000004563918244f40000"
                   (JsString "100")))
              = Ok 5000000000000000000%Z) by (vm_compute; reflexivity).
  split; [exact Hv|]. split; [exact H|].
  exact (log_quantity_fits_uint256 Sample.env _ _ _ _ _ _ _ Hv H).
Defined.

Lemma short_log_data_is_never_recorded_witness :
  BscTrackerService.logStep Sample.env (logWithData "0x1bc16d674ec80000")
    Sample.emptyWorld
  = (Ok tt, Sample.emptyWorld).
Proof.
  apply (short_log_data_is_never_recorded Sample.env
           (logWithData "0x1bc16d674ec80000") "1bc16d674ec80000" Sample.emptyWorld).
  - reflexivity.
  - simpl. lia.
Defined.

(* ------------------------------------------------------------------ *)
(** * The wallet table and the streams                                  *)
(* ------------------------------------------------------------------ *)

Section Streams.

Variable BE : BotEnv.

Lemma attempt_never_fails {A} (m : B A) (a : A) (bw : BotWorld) :
  exists a', fst (attempt m (fun _ => done a) bw) = Done a'.
Proof.
  unfold attempt, done. destruct (m bw) as [[a'|e] bw']; simpl; eauto.
Qed.

Lemma attempt_unit (m : B unit) (bw : BotWorld) :
  attempt m (fun _ => done tt) bw = (Done tt, snd (m bw)).
Proof.
  unfold attempt, done. destruct (m bw) as [[[]|e] bw']; reflexivity.
Qed.

(** The four ways [save] ends. *)
Lemma save_cases (r : Wallet.t) (bw : BotWorld) :
  let rows := wallets (world bw) in
  (exists e, WalletRepository.save BE r bw = (Failed e, bw))
  \/ (Wallet.id r = 0%nat
      /\ generatedWalletId BE bw <> 0%nat
      /\ WalletRepository.hasId (generatedWalletId BE bw) rows = false
      /\ WalletRepository.addressTaken (withWalletId (generatedWalletId BE bw) r) rows
         = false
      /\ WalletRepository.save BE r bw
         = (Done (withWalletId (generatedWalletId BE bw) r),
            emitB (InsertWallet (withWalletId (generatedWalletId BE bw) r))
              (withWallets (rows ++ [withWalletId (generatedWalletId BE bw) r]) bw)))
  \/ (Wallet.id r <> 0%nat
      /\ WalletRepository.addressTaken r rows = false
      /\ WalletRepository.hasId (Wallet.id r) rows = true
      /\ WalletRepository.save BE r bw
         = (Done r, emitB (UpdateWallet r)
                      (withWallets (WalletRepository.replaceById r rows) bw)))
  \/ (Wallet.id r <> 0%nat
      /\ WalletRepository.addressTaken r rows = false
      /\ WalletRepository.hasId (Wallet.id r) rows = false
      /\ WalletRepository.save BE r bw
         = (Done r, emitB (InsertWallet r) (withWallets (rows ++ [r]) bw))).
Proof.
  intros rows. unfold WalletRepository.save. fold rows.
  destruct (walletWriteFails BE bw r); [left; eexists; reflexivity|].
  destruct (Nat.eqb (Wallet.id r) 0) eqn:Hid.
  - apply Nat.eqb_eq in Hid. cbv zeta. cbn [withWalletId Wallet.id].
    destruct (Nat.eqb (generatedWalletId BE bw) 0) eqn:Hg;
      [left; cbn [orb]; eexists; reflexivity|].
    destruct (WalletRepository.hasId _ rows) eqn:Hh;
      [left; cbn [orb]; eexists; reflexivity|].
    destruct (WalletRepository.addressTaken _ rows) eqn:Ha;
      [left; cbn [orb]; eexists; reflexivity|].
    right. left. apply Nat.eqb_neq in Hg. cbn [orb]. auto.
  - apply Nat.eqb_neq in Hid.
    destruct (WalletRepository.addressTaken r rows) eqn:Ha;
      [left; eexists; reflexivity|].
    destruct (WalletRepository.hasId (Wallet.id r) rows) eqn:Hh;
      right; right; [left|right]; auto.
Qed.

Lemma save_ledger (r : Wallet.t) (bw : BotWorld) :
  sameLedger bw (snd (WalletRepository.save BE r bw)).
Proof.
  destruct (save_cases r bw)
    as [[e ->] | [(_ & _ & _ & _ & ->) | [(_ & _ & _ & ->) | (_ & _ & _ & ->)]]];
    split; reflexivity.
Qed.

(** The ways [createStreamForWallet] ends, by the request that fails. *)
Lemma createStreamForWallet_run (wallet : Wallet.t) (bw : BotWorld) :
  let url := BscTrackerStreams.webhookUrl BE in
  let tag := "wallet_" ++ BscTrackerStreams.printNat (Wallet.id wallet) in
  let description := "Token transfers for wallet " ++ Wallet.address wallet in
  let bw1 := emitB (StreamsAdd url tag description) bw in
  BscTrackerStreams.createStreamForWallet BE wallet bw
  = if negb (BscTrackerStreams.baseUrlSet BE) then (Failed ConfigError, bw)
    else match streamsAdd BE bw url tag description with
         | None => (Failed StreamsError, bw1)
         | Some id =>
             let bw2 := emitB (StreamsAddAddress id (Wallet.address wallet)) bw1 in
             if streamsAddAddress BE bw1 id (Wallet.address wallet) then
               match WalletRepository.save BE (withStreamId (Some id) wallet) bw2 with
               | (Done _, bw3) => (Done tt, bw3)
               | (Failed e, bw3) => (Failed e, bw3)
               end
             else (Failed StreamsError, bw2)
         end.
Proof.
  intros url tag description bw1.
  unfold BscTrackerStreams.createStreamForWallet, attempt.
  destruct (negb (BscTrackerStreams.baseUrlSet BE)); [reflexivity|].
  unfold andThen at 1, BscTrackerStreams.addStream.
  fold url tag description.
  destruct (streamsAdd BE bw url tag description) as [id|]; [|reflexivity].
  fold bw1. unfold andThen at 1, BscTrackerStreams.addAddress.
  destruct (streamsAddAddress BE bw1 id (Wallet.address wallet)); [|reflexivity].
  unfold andThen, done, raise.
  destruct (WalletRepository.save BE _ _) as [[r|e] bw3]; reflexivity.
Qed.

(** X13.  [createStreamForWallet] asks for a stream with the address, and it
    writes the stream id into the wallet row only after both requests to
    the Streams API succeeded.  Without [WEBHOOK_BASE_URL] it throws before
    any request, although the webhook URL itself falls back to localhost.
    Whenever it throws, the tables are as they were: a stream that was
    created before the failing step is not recorded anywhere. *)
Theorem stream_id_saved_only_after_both_requests (wallet : Wallet.t) (bw : BotWorld) :
  let url := BscTrackerStreams.webhookUrl BE in
  let tag := "wallet_" ++ BscTrackerStreams.printNat (Wallet.id wallet) in
  let description := "Token transfers for wallet " ++ Wallet.address wallet in
  let out := BscTrackerStreams.createStreamForWallet BE wallet bw in
  (BscTrackerStreams.baseUrlSet BE = false -> out = (Failed ConfigError, bw))
  /\ (fst out = Done tt ->
      exists id saved,
        streamsAdd BE bw url tag description = Some id
        /\ streamsAddAddress BE (emitB (StreamsAdd url tag description) bw) id
             (Wallet.address wallet) = true
        /\ Wallet.streamId saved = Some id
        /\ Wallet.address saved = Wallet.address wallet
        /\ (Wallet.id wallet <> 0%nat -> saved = withStreamId (Some id) wallet)
        /\ (botTrace (snd out)
            = UpdateWallet saved :: StreamsAddAddress id (Wallet.address wallet)
                :: StreamsAdd url tag description :: botTrace bw
            \/ botTrace (snd out)
               = InsertWallet saved :: StreamsAddAddress id (Wallet.address wallet)
                   :: StreamsAdd url tag description :: botTrace bw))
  /\ (fst out <> Done tt -> world (snd out) = world bw)
  /\ sameLedger bw (snd out).
Proof.
  intros url tag description out. subst out.
  rewrite createStreamForWallet_run. fold url tag description.
  destruct (BscTrackerStreams.baseUrlSet BE); cbn [negb].
  2:{ repeat split; try reflexivity; intros H; discriminate H. }
  split; [discriminate|].
  destruct (streamsAdd BE bw url tag description) as [id|].
  2:{ repeat split; try reflexivity; intros H; discriminate H. }
  cbv zeta.
  destruct (streamsAddAddress BE (emitB (StreamsAdd url tag description) bw) id
              (Wallet.address wallet)) eqn:Haa.
  2:{ repeat split; try reflexivity; intros H; discriminate H. }
  pose proof (save_ledger (withStreamId (Some id) wallet)
                (emitB (StreamsAddAddress id (Wallet.address wallet))
                   (emitB (StreamsAdd url tag description) bw))) as Hl.
  destruct (save_cases (withStreamId (Some id) wallet)
              (emitB (StreamsAddAddress id (Wallet.address wallet))
                 (emitB (StreamsAdd url tag description) bw)))
    as [[e He] | [(H0 & Hg & _ & _ & He) | [(_ & _ & _ & He) | (_ & _ & _ & He)]]];
    rewrite He in *; cbn [fst snd] in *.
  - split; [discriminate|]. split; [reflexivity|exact Hl].
  - split; [|split; [intros H; exfalso; apply H; reflexivity|exact Hl]].
    intros _. cbn [withStreamId Wallet.id] in H0.
    match type of He with _ = (Done ?r, _) => exists id, r end.
    split; [reflexivity|]. split; [exact Haa|].
    split; [|split; [|split; [|right; reflexivity]]]; try reflexivity.
    intros H. contradiction.
  - split; [|split; [intros H; exfalso; apply H; reflexivity|exact Hl]].
    intros _. match type of He with _ = (Done ?r, _) => exists id, r end.
    split; [reflexivity|]. split; [exact Haa|].
    split; [|split; [|split; [|left; reflexivity]]]; reflexivity.
  - split; [|split; [intros H; exfalso; apply H; reflexivity|exact Hl]].
    intros _. match type of He with _ = (Done ?r, _) => exists id, r end.
    split; [reflexivity|]. split; [exact Haa|].
    split; [|split; [|split; [|right; reflexivity]]]; reflexivity.
Qed.

Lemma createStreamForWallet_ledger (wallet : Wallet.t) (bw : BotWorld) :
  sameLedger bw (snd (BscTrackerStreams.createStreamForWallet BE wallet bw)).
Proof.
  rewrite createStreamForWallet_run.
  destruct (negb _); [split; reflexivity|].
  destruct (streamsAdd BE bw _ _ _) as [id|]; [|split; reflexivity].
  cbv zeta. destruct (streamsAddAddress BE _ _ _); [|split; reflexivity].
  match goal with
  | |- context [WalletRepository.save BE ?r ?b] =>
      pose proof (save_ledger r b) as Hl;
      destruct (WalletRepository.save BE r b) as [[x|e] bw3]
  end; exact Hl.
Qed.

Lemma deleteStreamForWallet_run (wallet : Wallet.t) (bw : BotWorld) :
  BscTrackerStreams.deleteStreamForWallet BE wallet bw
  = (Done tt,
     match Wallet.streamId wallet with
     | Some (String c r) =>
         let bw1 := emitB (StreamsDelete (String c r)) bw in
         if streamsDelete BE bw (String c r)
         then snd (WalletRepository.save BE (withStreamId None wallet) bw1)
         else bw1
     | _ => bw
     end).
Proof.
  unfold BscTrackerStreams.deleteStreamForWallet. rewrite attempt_unit.
  destruct (Wallet.streamId wallet) as [[|c r]|]; try reflexivity.
  unfold andThen at 1, BscTrackerStreams.deleteStream.
  destruct (streamsDelete BE bw (String c r)); [|reflexivity].
  unfold andThen, done.
  destruct (WalletRepository.save BE _ _) as [[x|e] bw3]; reflexivity.
Qed.

(** X14.  [deleteStreamForWallet] never throws.  It sends nothing and changes
    nothing for a wallet without a stream id; when the Streams API rejects
    the deletion the wallet row keeps its stream id; the row is only ever
    rewritten with the stream id cleared. *)
Theorem deleteStreamForWallet_never_throws (wallet : Wallet.t) (bw : BotWorld) :
  let out := BscTrackerStreams.deleteStreamForWallet BE wallet bw in
  fst out = Done tt
  /\ (hasStream wallet = false -> snd out = bw)
  /\ (forall id, Wallet.streamId wallet = Some id -> streamsDelete BE bw id = false ->
      world (snd out) = world bw)
  /\ (forall e, In e (botTrace (snd out)) ->
      In e (botTrace bw)
      \/ (exists id, Wallet.streamId wallet = Some id /\ e = StreamsDelete id)
      \/ (exists saved, Wallet.streamId saved = None
                        /\ Wallet.address saved = Wallet.address wallet
                        /\ (e = UpdateWallet saved \/ e = InsertWallet saved)))
  /\ sameLedger bw (snd out).
Proof.
  intros out. subst out. rewrite deleteStreamForWallet_run. cbn [fst snd].
  split; [reflexivity|].
  unfold hasStream.
  destruct (Wallet.streamId wallet) as [[|c r]|] eqn:Hs;
    try (split; [reflexivity|split; [reflexivity|split; [auto|split; reflexivity]]]).
  cbv zeta. split; [discriminate|].
  destruct (streamsDelete BE bw (String c r)) eqn:Hd.
  - split; [intros id Hid; injection Hid as <-; congruence|].
    pose proof (save_ledger (withStreamId None wallet)
                  (emitB (StreamsDelete (String c r)) bw)) as Hl.
    split; [|exact Hl].
    intros e.
    destruct (save_cases (withStreamId None wallet)
                (emitB (StreamsDelete (String c r)) bw))
      as [[e' He] | [(_ & _ & _ & _ & He) | [(_ & _ & _ & He) | (_ & _ & _ & He)]]];
      rewrite He; cbn [snd emitB botTrace withWallets];
      simpl; intros H; repeat (destruct H as [H|H]); subst;
      first [ left; assumption
            | right; left; eexists; split; reflexivity
            | right; right; eexists;
              (split; [|split; [|first [left; reflexivity|right; reflexivity]]]);
              reflexivity ].
  - split; [reflexivity|]. split; [|split; reflexivity].
    intros e [H|H]; [subst; right; left; eexists; split; reflexivity|left; exact H].
Qed.

Lemma save_botTrace (r : Wallet.t) (bw : BotWorld) :
  exists events,
    botTrace (snd (WalletRepository.save BE r bw)) = (events ++ botTrace bw)%list
    /\ Forall (fun e => isWalletWrite e = true) events.
Proof.
  destruct (save_cases r bw)
    as [[e ->] | [(_ & _ & _ & _ & ->) | [(_ & _ & _ & ->) | (_ & _ & _ & ->)]]].
  - exists []. split; [reflexivity|constructor].
  - eexists [_]. split; [reflexivity|]. repeat constructor.
  - eexists [_]. split; [reflexivity|]. repeat constructor.
  - eexists [_]. split; [reflexivity|]. repeat constructor.
Qed.

Lemma walletWrites_no_StreamsAdd (events : list BotEvent) :
  Forall (fun e => isWalletWrite e = true) events ->
  filter isStreamsAdd events = [].
Proof.
  induction 1 as [|e l He _ IH]; [reflexivity|].
  simpl. destruct e; try discriminate He; exact IH.
Qed.

Lemma createStreamForWallet_streamsAdded (wallet : Wallet.t) (bw : BotWorld) :
  streamsAdded (snd (BscTrackerStreams.createStreamForWallet BE wallet bw))
  = (streamsAdded bw + if BscTrackerStreams.baseUrlSet BE then 1 else 0)%nat.
Proof.
  rewrite createStreamForWallet_run. unfold streamsAdded.
  destruct (BscTrackerStreams.baseUrlSet BE); cbn [negb snd]; [|lia].
  destruct (streamsAdd BE bw _ _ _) as [id|]; [|simpl; lia].
  cbv zeta. destruct (streamsAddAddress BE _ _ _); [|simpl; lia].
  match goal with
  | |- context [WalletRepository.save BE ?r ?b] =>
      destruct (save_botTrace r b) as (events & Htr & Hev);
      destruct (WalletRepository.save BE r b) as [[x|e] bw3]
  end; cbn [snd] in *; rewrite Htr, filter_app, length_app,
    (walletWrites_no_StreamsAdd _ Hev); simpl; lia.
Qed.

Lemma each_streams (l : list Wallet.t) (bw : BotWorld) :
  let body := fun wallet =>
    if negb (hasStream wallet)
    then attempt (BscTrackerStreams.createStreamForWallet BE wallet) (fun _ => done tt)
    else done tt in
  fst (each l body bw) = Done tt
  /\ streamsAdded (snd (each l body bw))
     = (streamsAdded bw
        + if BscTrackerStreams.baseUrlSet BE
          then List.length (filter (fun x => negb (hasStream x)) l) else 0)%nat
  /\ sameLedger bw (snd (each l body bw)).
Proof.
  intros body. revert bw. induction l as [|x l IH]; intros bw.
  - cbn [each filter List.length]. unfold done. cbn [fst snd].
    split; [reflexivity|]. split; [|split; reflexivity].
    destruct (BscTrackerStreams.baseUrlSet BE); lia.
  - cbn [each filter]. unfold andThen.
    change (body x) with
      (if negb (hasStream x)
       then attempt (BscTrackerStreams.createStreamForWallet BE x) (fun _ => done tt)
       else done tt).
    destruct (negb (hasStream x)).
    + rewrite attempt_unit.
      pose proof (createStreamForWallet_streamsAdded x bw) as Hc.
      pose proof (createStreamForWallet_ledger x bw) as [Hl1 Hl2].
      destruct (IH (snd (BscTrackerStreams.createStreamForWallet BE x bw)))
        as (H1 & H2 & H3 & H4).
      split; [exact H1|]. split.
      * rewrite H2, Hc. cbn [List.length].
        destruct (BscTrackerStreams.baseUrlSet BE); lia.
      * split; congruence.
    + unfold done at 1 2 3. apply IH.
Qed.

Lemma filter_filter_and {A} (f g : A -> bool) (l : list A) :
  filter g (filter f l) = filter (fun x => f x && g x) l.
Proof.
  induction l as [|x l IH]; [reflexivity|].
  simpl. destruct (f x); simpl; [destruct (g x)|]; rewrite IH; reflexivity.
Qed.

(** X15.  At start-up one stream is requested for every active wallet that has
    no stream id, and none at all when [WEBHOOK_BASE_URL] is not set;
    wallets that have a stream id are skipped.  Once the wallet table has
    been read the method does not throw: a failure for one wallet is caught
    and the loop goes on with the next. *)
Theorem initializeStreams_requests_the_missing_streams (bw : BotWorld) :
  walletReadFails BE bw = false ->
  let out := BscTrackerStreams.initializeStreams BE bw in
  fst out = Done tt
  /\ streamsAdded (snd out)
     = (streamsAdded bw
        + if BscTrackerStreams.baseUrlSet BE
          then List.length (filter (fun x => Wallet.isActive x && negb (hasStream x))
                              (wallets (world bw)))
          else 0)%nat
  /\ sameLedger bw (snd out).
Proof.
  intros Hr out. subst out.
  unfold BscTrackerStreams.initializeStreams, andThen,
    WalletRepository.findActive, WalletRepository.read.
  rewrite Hr.
  destruct (each_streams (filter Wallet.isActive (wallets (world bw))) bw)
    as (H1 & H2 & H3).
  split; [exact H1|]. split; [|exact H3].
  rewrite H2, filter_filter_and. reflexivity.
Qed.

Lemma stripTrailingSlash_slash (s : string) :
  BscTrackerStreams.stripTrailingSlash (s ++ "/") = s.
Proof.
  induction s as [|c r IH]; [reflexivity|].
  destruct r as [|c' r']; [reflexivity|].
  change (String c (String c' r') ++ "/")
    with (String c (String c' (r' ++ "/"))).
  change (BscTrackerStreams.stripTrailingSlash (String c (String c' (r' ++ "/"))))
    with (String c (BscTrackerStreams.stripTrailingSlash (String c' r' ++ "/"))).
  rewrite IH. reflexivity.
Qed.

Lemma stripTrailingSlash_other (s : string) :
  (forall t, s <> t ++ "/") -> BscTrackerStreams.stripTrailingSlash s = s.
Proof.
  induction s as [|c r IH]; intros Hs; [reflexivity|].
  cbn [BscTrackerStreams.stripTrailingSlash].
  destruct r as [|c' r'].
  - destruct (Ascii.eqb c "/") eqn:Hc; [|reflexivity].
    apply Ascii.eqb_eq in Hc. subst c. exfalso. apply (Hs ""). reflexivity.
  - rewrite IH; [reflexivity|].
    intros t Ht. apply (Hs (String c t)). simpl. rewrite <- Ht. reflexivity.
Qed.

(** X16.  The webhook URL is the base URL followed by [/webhook/moralis], with
    exactly one slash between them whether or not the base URL ends with a
    slash: one trailing slash of the base URL is dropped. *)
Theorem webhookUrl_drops_one_trailing_slash (s : string) :
  s <> "" ->
  (WEBHOOK_BASE_URL BE = Some (s ++ "/") ->
   BscTrackerStreams.webhookUrl BE = s ++ "/webhook/moralis")
  /\ (WEBHOOK_BASE_URL BE = Some s -> (forall t, s <> t ++ "/") ->
      BscTrackerStreams.webhookUrl BE = s ++ "/webhook/moralis").
Proof.
  intros Hs. unfold BscTrackerStreams.webhookUrl. split.
  - intros ->. destruct (s ++ "/") as [|c r] eqn:Hsl.
    + destruct s; discriminate Hsl.
    + rewrite <- Hsl, stripTrailingSlash_slash. reflexivity.
  - intros -> Hno. destruct s as [|c r]; [contradiction|].
    rewrite stripTrailingSlash_other by exact Hno. reflexivity.
Qed.

End Streams.

Lemma initializeStreams_requests_the_missing_streams_witness :
  fst (BscTrackerStreams.initializeStreams BotSample.botEnv BotSample.twoChats) = Done tt
  /\ streamsAdded
       (snd (BscTrackerStreams.initializeStreams BotSample.botEnv BotSample.twoChats))
     = 1%nat.
Proof.
  destruct (initializeStreams_requests_the_missing_streams BotSample.botEnv
              BotSample.twoChats eq_refl) as (H1 & H2 & _).
  split; [exact H1|]. rewrite H2. reflexivity.
Defined.

Lemma webhookUrl_drops_one_trailing_slash_witness :
  BscTrackerStreams.webhookUrl BotSample.botEnv
  = "https://tracker.example/webhook/moralis".
Proof.
  assert (Hs : "https://tracker.example" <> "") by discriminate.
  exact (proj1 (webhookUrl_drops_one_trailing_slash BotSample.botEnv
                  "https://tracker.example" Hs) eq_refl).
Defined.

(* ------------------------------------------------------------------ *)
(** * The bot commands                                                  *)
(* ------------------------------------------------------------------ *)

Section Commands.

Variable BE : BotEnv.

Let rt := runtime (env BE).

Lemma sameLedger_refl (bw : BotWorld) : sameLedger bw bw.
Proof. split; reflexivity. Qed.

Lemma sameLedger_trans (a b c : BotWorld) :
  sameLedger a b -> sameLedger b c -> sameLedger a c.
Proof. intros [H1 H2] [H3 H4]. split; congruence. Qed.

Lemma save_rows (r x : Wallet.t) (bw : BotWorld) :
  In x (wallets (world (snd (WalletRepository.save BE r bw)))) ->
  In x (wallets (world bw))
  \/ (Wallet.id r <> 0%nat /\ x = r)
  \/ (Wallet.id r = 0%nat /\ x = withWalletId (generatedWalletId BE bw) r).
Proof.
  destruct (save_cases BE r bw)
    as [[e ->] | [(H0 & _ & _ & _ & ->) | [(H0 & _ & _ & ->) | (H0 & _ & _ & ->)]]];
    cbn [snd emitB withWallets world wallets].
  - auto.
  - rewrite in_app_iff. simpl. intros [H|[H|[]]]; auto.
  - unfold WalletRepository.replaceById. rewrite in_map_iff.
    intros (y & Hy & Hin). destruct (Nat.eqb _ _); subst; auto.
  - rewrite in_app_iff. simpl. intros [H|[H|[]]]; auto.
Qed.

Lemma createStreamForWallet_rows (wallet x : Wallet.t) (bw : BotWorld) :
  Wallet.id wallet <> 0%nat ->
  In x (wallets (world (snd (BscTrackerStreams.createStreamForWallet BE wallet bw)))) ->
  In x (wallets (world bw))
  \/ exists id, x = withStreamId (Some id) wallet.
Proof.
  intros Hid. rewrite createStreamForWallet_run.
  destruct (negb _); [auto|].
  destruct (streamsAdd BE bw _ _ _) as [id|]; [|auto].
  cbv zeta. destruct (streamsAddAddress BE _ _ _); [|auto].
  match goal with
  | |- context [WalletRepository.save BE ?r ?b] =>
      pose proof (save_rows r x b) as Hs;
      destruct (WalletRepository.save BE r b) as [[y|e] bw3]
  end; cbn [snd] in *; intros Hin;
    (destruct (Hs Hin) as [H|[[_ H]|[H _]]];
     [left; exact H|right; eauto|contradiction]).
Qed.

Ltac untouched :=
  unfold reply; cbn [fst snd emitB world];
  split; [reflexivity
         |split; [split; reflexivity|intros ? ?; left; assumption]].

Lemma isValidAddress_nonempty (address : string) :
  TelegramCommands.isValidAddress address = true ->
  exists c r, address = String c r.
Proof. destruct address as [|c r]; [discriminate|eauto]. Qed.

(** X17.  Whatever the text, [add_wallet] returns normally, leaves the
    transaction table and the trace of the pipeline alone, and every row
    the wallet table holds afterwards was there before or is a new row:
    one whose address is the lower-cased argument, a well-formed address
    that no row held before, owned by the chat, active, with the threshold
    1000, under a key that was not in use. *)
Theorem add_wallet_adds_only_a_valid_untracked_address
    (chat : Z) (text : string) (bw : BotWorld) :
  let out := TelegramCommands.add_wallet BE chat text bw in
  fst out = Done tt
  /\ sameLedger bw (snd out)
  /\ forall x, In x (wallets (world (snd out))) ->
       In x (wallets (world bw))
       \/ exists address,
            TelegramCommands.argument text = Some address
            /\ TelegramCommands.isValidAddress address = true
            /\ find (fun y => String.eqb (Wallet.address y) (toLowerCase rt address))
                 (wallets (world bw)) = None
            /\ Wallet.address x = toLowerCase rt address
            /\ Wallet.chatId x = chat
            /\ Wallet.thresholdUsd x = numberOfZ 1000
            /\ Wallet.isActive x = true
            /\ WalletRepository.hasId (Wallet.id x) (wallets (world bw)) = false.
Proof.
  intros out. subst out. unfold TelegramCommands.add_wallet.
  destruct (TelegramCommands.argument text) as [[|c r]|] eqn:Harg;
    try untouched.
  set (address := String c r) in *.
  destruct (TelegramCommands.isValidAddress address) eqn:Hvalid; cbn [negb];
    [|untouched].
  unfold attempt, andThen, WalletRepository.findOneByAddress, WalletRepository.read.
  cbv beta.
  destruct (walletReadFails BE bw); [untouched|].
  destruct (find _ (wallets (world bw))) as [existing|] eqn:Hfind; [untouched|].
  destruct (save_cases BE (TelegramCommands.newWallet BE address chat) bw)
    as [[e He] | [(H0 & Hg & Hh & _ & He) | [(H0 & _) | (H0 & _)]]];
    try (exfalso; apply H0; reflexivity).
  { rewrite He. untouched. }
  rewrite He.
  set (r' := withWalletId (generatedWalletId BE bw)
               (TelegramCommands.newWallet BE address chat)) in *.
  set (bw1 := emitB (InsertWallet r') _).
  pose proof (createStreamForWallet_ledger BE r' bw1) as Hl.
  pose proof (fun x => createStreamForWallet_rows r' x bw1 Hg) as Hrows.
  destruct (BscTrackerStreams.createStreamForWallet BE r' bw1) as [[[]|e] bw2];
    unfold reply, done; cbn [fst snd emitB world] in *;
    (split; [reflexivity|]); (split; [destruct Hl; split; assumption|]);
    intros x Hx; apply Hrows in Hx;
    (assert (Hnew : forall y, (y = r' \/ exists id, y = withStreamId (Some id) r') ->
                   exists a,
                     Some address = Some a
                     /\ TelegramCommands.isValidAddress a = true
                     /\ find (fun y => String.eqb (Wallet.address y) (toLowerCase rt a))
                          (wallets (world bw)) = None
                     /\ Wallet.address y = toLowerCase rt a
                     /\ Wallet.chatId y = chat
                     /\ Wallet.thresholdUsd y = numberOfZ 1000
                     /\ Wallet.isActive y = true
                     /\ WalletRepository.hasId (Wallet.id y) (wallets (world bw)) = false)
       by (intros y Hy; exists address;
           destruct Hy as [-> | [id ->]]; repeat split; try assumption; exact Hh));
    (destruct Hx as [Hx | Hx];
     [unfold bw1 in Hx; cbn [world emitB withWallets wallets] in Hx;
      apply in_app_iff in Hx; destruct Hx as [Hx | [Hx | []]];
      [left; exact Hx|right; apply Hnew; left; symmetry; exact Hx]
     |right; apply Hnew; right; exact Hx]).
Qed.

Lemma find_none_addressTaken (r : Wallet.t) (rows : list Wallet.t) :
  find (fun y => String.eqb (Wallet.address y) (Wallet.address r)) rows = None ->
  WalletRepository.addressTaken r rows = false.
Proof.
  intros Hf. unfold WalletRepository.addressTaken.
  destruct (existsb _ rows) eqn:Hex; [|reflexivity].
  apply existsb_exists in Hex. destruct Hex as (y & Hin & Hy).
  apply andb_prop in Hy. destruct Hy as [Hy _].
  pose proof (find_none _ _ Hf y Hin) as Hn. cbv beta in Hn. congruence.
Qed.

Lemma find_app_last {A} (f : A -> bool) (l : list A) (y : A) :
  find f l = None -> f y = true -> find f (l ++ [y]) = Some y.
Proof.
  induction l as [|x l IH]; simpl; intros Hn Hy.
  - rewrite Hy. reflexivity.
  - destruct (f x); [discriminate|auto].
Qed.

Lemma walletReplaceById_absent (r : Wallet.t) (rows : list Wallet.t) :
  WalletRepository.hasId (Wallet.id r) rows = false ->
  WalletRepository.replaceById r rows = rows.
Proof.
  unfold WalletRepository.hasId, WalletRepository.replaceById.
  induction rows as [|x l IH]; [reflexivity|].
  cbn [existsb map]. intros H. apply orb_false_elim in H. destruct H as [Hx Hl].
  rewrite Hx, IH by exact Hl. reflexivity.
Qed.

Lemma walletReplaceById_last (r r' : Wallet.t) (rows : list Wallet.t) :
  WalletRepository.hasId (Wallet.id r) rows = false ->
  Wallet.id r' = Wallet.id r ->
  WalletRepository.replaceById r' (rows ++ [r]) = (rows ++ [r'])%list.
Proof.
  intros Hh Hid.
  assert (Hh' : WalletRepository.hasId (Wallet.id r') rows = false) by congruence.
  unfold WalletRepository.replaceById. rewrite map_app.
  fold (WalletRepository.replaceById r' rows).
  rewrite (walletReplaceById_absent r' rows Hh'). cbn [map].
  rewrite Hid, Nat.eqb_refl. reflexivity.
Qed.

Lemma walletHasId_last (r : Wallet.t) (rows : list Wallet.t) :
  WalletRepository.hasId (Wallet.id r) (rows ++ [r]) = true.
Proof.
  unfold WalletRepository.hasId. rewrite existsb_app. cbn [existsb].
  rewrite Nat.eqb_refl, orb_true_r. reflexivity.
Qed.

(** X18.  Registering a wallet.  For a well-formed address that is not tracked
    yet, when the store answers the lookup and accepts the new row,
    [add_wallet] leaves a row that the lookup by the lower-cased address
    finds: owned by the chat, active, with the threshold 1000.  The reply
    announces success whatever the Streams API did: when the stream could
    not be created the row is there without a stream id. *)
Theorem add_wallet_registers_the_wallet
    (chat : Z) (text address : string) (bw : BotWorld) :
  TelegramCommands.argument text = Some address ->
  TelegramCommands.isValidAddress address = true ->
  walletReadFails BE bw = false ->
  find (fun y => String.eqb (Wallet.address y) (toLowerCase rt address))
    (wallets (world bw)) = None ->
  walletWriteFails BE bw (TelegramCommands.newWallet BE address chat) = false ->
  generatedWalletId BE bw <> 0%nat ->
  WalletRepository.hasId (generatedWalletId BE bw) (wallets (world bw)) = false ->
  let bw' := snd (TelegramCommands.add_wallet BE chat text bw) in
  exists x,
    find (fun y => String.eqb (Wallet.address y) (toLowerCase rt address))
      (wallets (world bw')) = Some x
    /\ Wallet.id x = generatedWalletId BE bw
    /\ Wallet.chatId x = chat
    /\ Wallet.thresholdUsd x = numberOfZ 1000
    /\ Wallet.isActive x = true
    /\ (Wallet.streamId x = None
        \/ exists id, Wallet.streamId x = Some id
                      /\ In (StreamsAddAddress id (toLowerCase rt address)) (botTrace bw'))
    /\ hd_error (botTrace bw')
       = Some (Reply chat ("Кошелек " ++ address
                           ++ " успешно добавлен! Порог по умолчанию: $1000 USD")).
Proof.
  intros Harg Hvalid Hread Hfind Hwrite Hg Hh bw'. subst bw'.
  set (r' := withWalletId (generatedWalletId BE bw)
               (TelegramCommands.newWallet BE address chat)).
  set (bw1 := emitB (InsertWallet r') (withWallets (wallets (world bw) ++ [r']) bw)).
  assert (Hsave : WalletRepository.save BE (TelegramCommands.newWallet BE address chat) bw
                  = (Done r', bw1)).
  { unfold WalletRepository.save. rewrite Hwrite.
    cbn [TelegramCommands.newWallet Wallet.id Nat.eqb]. cbv zeta.
    fold (TelegramCommands.newWallet BE address chat). fold r'.
    cbn [withWalletId Wallet.id r'].
    apply Nat.eqb_neq in Hg. rewrite Hg, Hh.
    rewrite find_none_addressTaken by exact Hfind. reflexivity. }
  assert (Hrun : TelegramCommands.add_wallet BE chat text bw
                 = (Done tt,
                    emitB (Reply chat
                             ("Кошелек " ++ address
                              ++ " успешно добавлен! Порог по умолчанию: $1000 USD"))
                      (snd (BscTrackerStreams.createStreamForWallet BE r' bw1)))).
  { unfold TelegramCommands.add_wallet. rewrite Harg.
    destruct address as [|c r]; [discriminate Hvalid|].
    rewrite Hvalid. cbn [negb].
    unfold attempt at 1, andThen at 1, WalletRepository.findOneByAddress,
      WalletRepository.read. fold rt.
    rewrite Hread, Hfind. unfold andThen at 1. rewrite Hsave.
    unfold andThen at 1. rewrite attempt_unit. reflexivity. }
  rewrite Hrun. cbn [snd emitB botTrace world hd_error].
  assert (Hr' : find (fun y => String.eqb (Wallet.address y) (toLowerCase rt address))
                  (wallets (world bw1)) = Some r').
  { apply find_app_last; [exact Hfind|]. apply String.eqb_refl. }
  rewrite createStreamForWallet_run.
  destruct (negb _).
  { exists r'. cbn [snd]. repeat split; auto. }
  destruct (streamsAdd BE bw1 _ _ _) as [id|].
  2:{ exists r'. cbn [snd emitB world]. repeat split; auto. }
  cbv zeta. destruct (streamsAddAddress BE _ _ _).
  2:{ exists r'. cbn [snd emitB world]. repeat split; auto. }
  match goal with
  | |- context [WalletRepository.save BE ?x ?b] =>
      destruct (save_cases BE x b)
        as [[e He] | [(H0 & _) | [(_ & _ & _ & He) | (_ & _ & Hno & _)]]]
  end.
  - rewrite He. exists r'. cbn [snd emitB world]. repeat split; auto.
  - exfalso. apply Hg. exact H0.
  - rewrite He. cbn [snd emitB world withWallets wallets botTrace].
    change (wallets (world bw1)) with (wallets (world bw) ++ [r'])%list.
    rewrite (walletReplaceById_last r' (withStreamId (Some id) r')
               (wallets (world bw)) Hh eq_refl).
    exists (withStreamId (Some id) r').
    split; [apply find_app_last; [exact Hfind|apply String.eqb_refl]|].
    repeat split. right. exists id. split; [reflexivity|].
    simpl. auto.
  - exfalso. cbn [emitB world] in Hno. unfold bw1 in Hno.
    cbn [emitB world withWallets wallets withStreamId Wallet.id] in Hno.
    rewrite walletHasId_last in Hno. discriminate Hno.
Qed.

Lemma each_invariant {A} (Inv : BotWorld -> Prop) (l : list A) (body : A -> B unit) :
  (forall x, In x l -> forall bw, Inv bw -> Inv (snd (body x bw))) ->
  forall bw, Inv bw -> Inv (snd (each l body bw)).
Proof.
  induction l as [|x l IH]; intros Hbody bw Hinv; [exact Hinv|].
  cbn [each]. unfold andThen.
  pose proof (Hbody x (or_introl eq_refl) bw Hinv) as Hx.
  destruct (body x bw) as [[[]|e] bw1]; cbn [snd] in *; [|exact Hx].
  apply IH; [|exact Hx]. intros y Hy. apply Hbody. right. exact Hy.
Qed.

Lemma NoDup_map_injective {A K} (key : A -> K) (l : list A) (x y : A) :
  NoDup (map key l) -> In x l -> In y l -> key x = key y -> x = y.
Proof.
  induction l as [|z l IH]; [contradiction|].
  cbn [map]. intros Hnd Hx Hy Hk. inversion Hnd as [|k ks Hnotin Hnd']; subst.
  destruct Hx as [-> | Hx], Hy as [-> | Hy].
  - reflexivity.
  - exfalso. apply Hnotin. rewrite Hk. apply in_map. exact Hy.
  - exfalso. apply Hnotin. rewrite <- Hk. apply in_map. exact Hx.
  - apply IH; assumption.
Qed.

Section Threshold.

Variable chat : Z.
Variable amount : float.

(** A row after [set_threshold]: as it was, or a row of the chat with the
    new threshold. *)
Let step (x x' : Wallet.t) : Prop :=
  x' = x \/ (Wallet.chatId x = chat /\ x' = withThresholdUsd amount x).

Lemma step_id (x x' : Wallet.t) : step x x' -> Wallet.id x' = Wallet.id x.
Proof. intros [-> | [_ ->]]; reflexivity. Qed.

Lemma threshold_rows_refl (rows : list Wallet.t) : Forall2 step rows rows.
Proof. induction rows; constructor; [left; reflexivity|assumption]. Qed.

Lemma threshold_replace (wallet : Wallet.t) (rows0 rows : list Wallet.t) :
  (forall y, In y rows0 -> Wallet.id y = Wallet.id wallet -> y = wallet) ->
  Wallet.chatId wallet = chat ->
  Forall2 step rows0 rows ->
  Forall2 step rows0
    (WalletRepository.replaceById (withThresholdUsd amount wallet) rows).
Proof.
  intros Hkey Hchat H. induction H as [|y y' l0 l Hy _ IH]; [constructor|].
  cbn [WalletRepository.replaceById map withThresholdUsd Wallet.id].
  constructor.
  - destruct (Nat.eqb (Wallet.id y') (Wallet.id wallet)) eqn:Hid; [|exact Hy].
    apply Nat.eqb_eq in Hid. rewrite (step_id _ _ Hy) in Hid.
    rewrite (Hkey y (or_introl eq_refl) Hid). right. split; [exact Hchat|reflexivity].
  - apply IH. intros z Hz. apply Hkey. right. exact Hz.
Qed.

Lemma threshold_hasId (rows0 rows : list Wallet.t) (x : Wallet.t) :
  Forall2 step rows0 rows -> In x rows0 ->
  WalletRepository.hasId (Wallet.id x) rows = true.
Proof.
  intros H Hin. unfold WalletRepository.hasId. apply existsb_exists.
  induction H as [|y y' l0 l Hy _ IH]; [contradiction|].
  destruct Hin as [-> | Hin].
  - exists y'. split; [left; reflexivity|]. apply Nat.eqb_eq. apply step_id, Hy.
  - destruct (IH Hin) as (z & Hz & Hzid). exists z. split; [right; exact Hz|exact Hzid].
Qed.

Lemma threshold_save (wallet : Wallet.t) (rows0 : list Wallet.t) (bw : BotWorld) :
  NoDup (map Wallet.id rows0) ->
  In wallet rows0 -> Wallet.id wallet <> 0%nat -> Wallet.chatId wallet = chat ->
  Forall2 step rows0 (wallets (world bw)) ->
  Forall2 step rows0
    (wallets (world (snd (WalletRepository.save BE
                            (withThresholdUsd amount wallet) bw)))).
Proof.
  intros Hnd Hin Hid Hchat H.
  destruct (save_cases BE (withThresholdUsd amount wallet) bw)
    as [[e ->] | [(H0 & _) | [(_ & _ & _ & ->) | (_ & _ & Hno & _)]]].
  - exact H.
  - exfalso. apply Hid. exact H0.
  - cbn [snd emitB world withWallets wallets].
    apply threshold_replace; [|exact Hchat|exact H].
    intros y Hy Hyid. apply (NoDup_map_injective Wallet.id rows0); assumption.
  - exfalso. cbn [withThresholdUsd Wallet.id] in Hno.
    rewrite (threshold_hasId rows0 _ wallet H Hin) in Hno. discriminate Hno.
Qed.

End Threshold.

(** X19.  [set_threshold] never adds or removes a row, and the rows of the
    other chats stay as they were: under the constraints of the table,
    whatever the store and the text do, every row afterwards is the row
    that stood at its place before, or that row with the threshold set to
    the amount, which then is a row of the chat and the amount is a number
    above zero.  The transaction table and the trace of the pipeline are
    left alone. *)
Theorem set_threshold_touches_only_the_chat (chat : Z) (text : string) (bw : BotWorld) :
  WellKeyed (wallets (world bw)) ->
  let amount := TelegramCommands.amountOf BE text in
  let out := TelegramCommands.set_threshold BE chat text bw in
  fst out = Done tt
  /\ sameLedger bw (snd out)
  /\ Forall2 (fun x x' =>
                x' = x
                \/ (Wallet.chatId x = chat
                    /\ x' = withThresholdUsd amount x
                    /\ TelegramCommands.isNaN amount = false
                    /\ PrimFloat.leb amount PrimFloat.zero = false))
       (wallets (world bw)) (wallets (world (snd out))).
Proof.
  intros (Hnd & Hkeys & _) amount out. subst out.
  assert (Hsame : forall rows : list Wallet.t,
             Forall2 (fun x x' =>
                        x' = x
                        \/ (Wallet.chatId x = chat
                            /\ x' = withThresholdUsd amount x
                            /\ TelegramCommands.isNaN amount = false
                            /\ PrimFloat.leb amount PrimFloat.zero = false))
               rows rows).
  { induction rows; constructor; [left; reflexivity|assumption]. }
  unfold TelegramCommands.set_threshold. cbv zeta. fold amount.
  destruct (TelegramCommands.isNaN amount || PrimFloat.leb amount PrimFloat.zero)
    eqn:Hvalid.
  { unfold reply. cbn [fst snd emitB world].
    split; [reflexivity|]. split; [split; reflexivity|apply Hsame]. }
  apply orb_false_elim in Hvalid. destruct Hvalid as [Hnan Hle].
  unfold attempt, andThen, WalletRepository.findByChat, WalletRepository.read.
  cbv beta.
  destruct (walletReadFails BE bw).
  { unfold reply. cbn [fst snd emitB world].
    split; [reflexivity|]. split; [split; reflexivity|apply Hsame]. }
  destruct (Nat.eqb _ 0).
  { unfold reply. cbn [fst snd emitB world].
    split; [reflexivity|]. split; [split; reflexivity|apply Hsame]. }
  set (l := filter (fun x => Z.eqb (Wallet.chatId x) chat) (wallets (world bw))).
  set (body := fun wallet : Wallet.t =>
                 fun bw0 : BotWorld =>
                   let (o, bw') := WalletRepository.save BE
                                     (withThresholdUsd amount wallet) bw0 in
                   match o with
                   | Done _ => done tt bw'
                   | Failed e => (Failed e, bw')
                   end).
  pose (Inv := fun bwc : BotWorld =>
                 sameLedger bw bwc
                 /\ Forall2 (fun x x' =>
                               x' = x \/ (Wallet.chatId x = chat
                                          /\ x' = withThresholdUsd amount x))
                      (wallets (world bw)) (wallets (world bwc))).
  assert (Hinv : Inv (snd (each l body bw))).
  { apply each_invariant.
    - intros wallet Hw bwc [Hl Hrows]. unfold body.
      pose proof (save_ledger BE (withThresholdUsd amount wallet) bwc) as Hl'.
      unfold l in Hw. apply filter_In in Hw. destruct Hw as [Hin Hchat].
      apply Z.eqb_eq in Hchat.
      pose proof (threshold_save chat amount wallet (wallets (world bw)) bwc Hnd Hin
                    (proj1 (Forall_forall _ _) Hkeys wallet Hin) Hchat Hrows) as Hs.
      destruct (WalletRepository.save BE _ bwc) as [[y|e] bw']; cbn [snd done] in *;
        (split; [apply (sameLedger_trans _ bwc); assumption|exact Hs]).
    - split; [apply sameLedger_refl|apply threshold_rows_refl]. }
  destruct Hinv as [Hl Hrows].
  assert (Hrows' : Forall2 (fun x x' =>
                              x' = x
                              \/ (Wallet.chatId x = chat
                                  /\ x' = withThresholdUsd amount x
                                  /\ TelegramCommands.isNaN amount = false
                                  /\ PrimFloat.leb amount PrimFloat.zero = false))
                     (wallets (world bw)) (wallets (world (snd (each l body bw))))).
  { eapply Forall2_impl; [|exact Hrows].
    intros x x' [H | [H1 H2]]; [left; exact H|right; auto]. }
  destruct (each l body bw) as [[[]|e] bw1]; unfold reply;
    cbn [fst snd emitB world] in *; (split; [reflexivity|]);
    (split; [exact Hl|exact Hrows']).
Qed.

Section ThresholdLoop.

Variable chat : Z.
Variable amount : float.
Variable rows0 : list Wallet.t.

Hypothesis Hkeyed : WellKeyed rows0.
Hypothesis Haccepts : forall bw0 r, walletWriteFails BE bw0 r = false.

(** The row at the place of [x] once the wallets [updated] have been
    saved. *)
Let upd (updated : list Wallet.t) (x : Wallet.t) : Wallet.t :=
  if existsb (fun d => Nat.eqb (Wallet.id d) (Wallet.id x)) updated
  then withThresholdUsd amount x else x.

Lemma upd_id (updated : list Wallet.t) (x : Wallet.t) :
  Wallet.id (upd updated x) = Wallet.id x.
Proof. unfold upd. destruct (existsb _ _); reflexivity. Qed.

Lemma upd_address (updated : list Wallet.t) (x : Wallet.t) :
  Wallet.address (upd updated x) = Wallet.address x.
Proof. unfold upd. destruct (existsb _ _); reflexivity. Qed.

Lemma threshold_save_run (updated : list Wallet.t) (wallet : Wallet.t) (bw : BotWorld) :
  In wallet rows0 ->
  wallets (world bw) = map (upd updated) rows0 ->
  exists bw',
    WalletRepository.save BE (withThresholdUsd amount wallet) bw
    = (Done (withThresholdUsd amount wallet), bw')
    /\ wallets (world bw') = map (upd (wallet :: updated)) rows0
    /\ botTrace bw' = UpdateWallet (withThresholdUsd amount wallet) :: botTrace bw.
Proof.
  intros Hin Hrows. destruct Hkeyed as (Hnd & Hnz & Hna).
  unfold WalletRepository.save. rewrite Haccepts. cbv zeta.
  cbn [withThresholdUsd Wallet.id].
  assert (Hid : Nat.eqb (Wallet.id wallet) 0 = false).
  { apply Nat.eqb_neq. apply (proj1 (Forall_forall _ _) Hnz wallet Hin). }
  rewrite Hid.
  assert (Hat : WalletRepository.addressTaken (withThresholdUsd amount wallet)
                  (wallets (world bw)) = false).
  { unfold WalletRepository.addressTaken. rewrite Hrows.
    destruct (existsb _ _) eqn:Hex; [|reflexivity].
    apply existsb_exists in Hex. destruct Hex as (y' & Hy' & Hc).
    apply in_map_iff in Hy'. destruct Hy' as (y & <- & Hy).
    rewrite upd_id, upd_address in Hc. cbn [withThresholdUsd Wallet.address Wallet.id] in Hc.
    apply andb_prop in Hc. destruct Hc as [Ha Hn].
    apply String.eqb_eq in Ha.
    rewrite (NoDup_map_injective Wallet.address rows0 y wallet Hna Hy Hin Ha) in Hn.
    rewrite Nat.eqb_refl in Hn. discriminate Hn. }
  rewrite Hat.
  assert (Hh : WalletRepository.hasId (Wallet.id wallet) (wallets (world bw)) = true).
  { unfold WalletRepository.hasId. rewrite Hrows. apply existsb_exists.
    exists (upd updated wallet). split; [apply in_map; exact Hin|].
    rewrite upd_id. apply Nat.eqb_refl. }
  rewrite Hh. eexists. split; [reflexivity|]. split; [|reflexivity].
  cbn [emitB world withWallets wallets]. rewrite Hrows.
  unfold WalletRepository.replaceById. rewrite map_map.
  apply map_ext_in. intros y Hy. rewrite upd_id.
  cbn [withThresholdUsd Wallet.id].
  destruct (Nat.eqb (Wallet.id y) (Wallet.id wallet)) eqn:Hyw.
  - apply Nat.eqb_eq in Hyw.
    rewrite (NoDup_map_injective Wallet.id rows0 y wallet Hnd Hy Hin Hyw).
    unfold upd. cbn [existsb]. rewrite Nat.eqb_refl. reflexivity.
  - unfold upd. cbn [existsb]. rewrite Nat.eqb_sym, Hyw. reflexivity.
Qed.

Lemma threshold_loop (l updated : list Wallet.t) (bw : BotWorld) :
  (forall x, In x l -> In x rows0) ->
  wallets (world bw) = map (upd updated) rows0 ->
  exists bw',
    each l (fun wallet =>
              andThen (WalletRepository.save BE (withThresholdUsd amount wallet))
                (fun _ => done tt)) bw
    = (Done tt, bw')
    /\ wallets (world bw') = map (upd (rev l ++ updated)) rows0.
Proof.
  revert updated bw. induction l as [|w l IH]; intros updated bw Hl Hrows.
  - exists bw. split; [reflexivity|exact Hrows].
  - cbn [each]. unfold andThen at 1. unfold andThen at 1.
    destruct (threshold_save_run updated w bw (Hl w (or_introl eq_refl)) Hrows)
      as (bw1 & -> & Hrows1 & _).
    unfold done at 1.
    destruct (IH (w :: updated) bw1 (fun x Hx => Hl x (or_intror Hx)) Hrows1)
      as (bw' & Hrun & Hrows').
    exists bw'. split; [exact Hrun|].
    rewrite Hrows'. cbn [rev]. rewrite <- app_assoc. reflexivity.
Qed.

Lemma upd_all (x : Wallet.t) :
  In x rows0 ->
  upd (rev (filter (fun y => Z.eqb (Wallet.chatId y) chat) rows0) ++ []) x
  = if Z.eqb (Wallet.chatId x) chat then withThresholdUsd amount x else x.
Proof.
  intros Hx. destruct Hkeyed as (Hnd & _ & _). unfold upd. rewrite app_nil_r.
  destruct (Z.eqb (Wallet.chatId x) chat) eqn:Hc.
  - assert (H : existsb (fun d => Nat.eqb (Wallet.id d) (Wallet.id x))
                  (rev (filter (fun y => Z.eqb (Wallet.chatId y) chat) rows0)) = true).
    { apply existsb_exists. exists x. split; [|apply Nat.eqb_refl].
      apply -> in_rev. apply filter_In. split; assumption. }
    rewrite H. reflexivity.
  - destruct (existsb _ _) eqn:Hex; [|reflexivity].
    apply existsb_exists in Hex. destruct Hex as (d & Hd & Hid).
    apply in_rev in Hd. apply filter_In in Hd. destruct Hd as [Hd Hdc].
    apply Nat.eqb_eq in Hid.
    rewrite (NoDup_map_injective Wallet.id rows0 d x Hnd Hd Hx Hid) in Hdc.
    congruence.
Qed.

End ThresholdLoop.

(** X20.  Setting the threshold.  Under the constraints of the table, with a
    store that answers the lookup and accepts every write, an amount that
    is a number above zero and a chat that has a wallet: afterwards every
    wallet of the chat carries the amount as its threshold, every other row
    is as it was, and the reply confirms the amount. *)
Theorem set_threshold_updates_every_wallet_of_the_chat
    (chat : Z) (text : string) (bw : BotWorld) :
  WellKeyed (wallets (world bw)) ->
  (forall bw0 r, walletWriteFails BE bw0 r = false) ->
  walletReadFails BE bw = false ->
  let amount := TelegramCommands.amountOf BE text in
  TelegramCommands.isNaN amount = false ->
  PrimFloat.leb amount PrimFloat.zero = false ->
  (exists x, In x (wallets (world bw)) /\ Wallet.chatId x = chat) ->
  let bw' := snd (TelegramCommands.set_threshold BE chat text bw) in
  wallets (world bw')
  = map (fun x => if Z.eqb (Wallet.chatId x) chat
                  then withThresholdUsd amount x else x)
      (wallets (world bw))
  /\ hd_error (botTrace bw')
     = Some (Reply chat ("Порог установлен на $"
                         ++ NumberToString (runtime (env BE)) amount
                         ++ " USD для всех ваших кошельков")).
Proof.
  intros Hkeyed Haccepts Hread amount Hnan Hle (x0 & Hx0 & Hx0c) bw'. subst bw'.
  set (l := filter (fun x => Z.eqb (Wallet.chatId x) chat) (wallets (world bw))).
  destruct (threshold_loop amount (wallets (world bw)) Hkeyed Haccepts l [] bw)
    as (bw1 & Hrun & Hrows).
  { intros x Hx. unfold l in Hx. apply filter_In in Hx. tauto. }
  { rewrite <- (map_id (wallets (world bw))) at 1. reflexivity. }
  assert (Hlen : Nat.eqb (List.length l) 0 = false).
  { apply Nat.eqb_neq. intros H0. apply length_zero_iff_nil in H0.
    assert (Hin : In x0 l).
    { unfold l. apply filter_In. split; [exact Hx0|]. apply Z.eqb_eq. exact Hx0c. }
    rewrite H0 in Hin. exact Hin. }
  assert (Hcmd : TelegramCommands.set_threshold BE chat text bw
                 = (Done tt,
                    emitB (Reply chat ("Порог установлен на $"
                                       ++ NumberToString (runtime (env BE)) amount
                                       ++ " USD для всех ваших кошельков")) bw1)).
  { unfold TelegramCommands.set_threshold. cbv zeta. fold amount.
    rewrite Hnan, Hle. cbn [orb].
    unfold attempt at 1, andThen at 1, WalletRepository.findByChat,
      WalletRepository.read.
    rewrite Hread. fold l. rewrite Hlen. unfold andThen at 1.
    rewrite Hrun. reflexivity. }
  rewrite Hcmd. cbn [snd emitB world botTrace hd_error].
  split; [|reflexivity].
  rewrite Hrows. apply map_ext_in. intros x Hx.
  apply (upd_all chat amount (wallets (world bw)) Hkeyed x Hx).
Qed.

Lemma deleteStreamForWallet_ledger (wallet : Wallet.t) (bw : BotWorld) :
  sameLedger bw (snd (BscTrackerStreams.deleteStreamForWallet BE wallet bw)).
Proof.
  rewrite deleteStreamForWallet_run. cbn [snd].
  destruct (Wallet.streamId wallet) as [[|c r]|]; try apply sameLedger_refl.
  cbv zeta. destruct (streamsDelete BE bw _); [|split; reflexivity].
  apply (sameLedger_trans _ (emitB (StreamsDelete (String c r)) bw));
    [split; reflexivity|apply save_ledger].
Qed.

Lemma deleteStreamForWallet_rows (wallet x : Wallet.t) (bw : BotWorld) :
  Wallet.id wallet <> 0%nat ->
  In x (wallets (world (snd (BscTrackerStreams.deleteStreamForWallet BE wallet bw)))) ->
  In x (wallets (world bw)) \/ x = withStreamId None wallet.
Proof.
  intros Hid. rewrite deleteStreamForWallet_run. cbn [snd].
  destruct (Wallet.streamId wallet) as [[|c r]|]; auto.
  cbv zeta. destruct (streamsDelete BE bw _); [|auto].
  intros Hin. apply save_rows in Hin.
  destruct Hin as [H|[[_ H]|[H _]]]; [left; exact H|right; exact H|contradiction].
Qed.

Lemma deleteStreamForWallet_keeps (wallet x : Wallet.t) (bw : BotWorld) :
  In x (wallets (world bw)) -> Wallet.id x <> Wallet.id wallet ->
  In x (wallets (world (snd (BscTrackerStreams.deleteStreamForWallet BE wallet bw)))).
Proof.
  intros Hin Hne. rewrite deleteStreamForWallet_run. cbn [snd].
  destruct (Wallet.streamId wallet) as [[|c r]|]; auto.
  cbv zeta. destruct (streamsDelete BE bw _); [|exact Hin].
  destruct (save_cases BE (withStreamId None wallet)
              (emitB (StreamsDelete (String c r)) bw))
    as [[e ->] | [(_ & _ & _ & _ & ->) | [(_ & _ & _ & ->) | (_ & _ & _ & ->)]]];
    cbn [snd emitB world withWallets wallets].
  - exact Hin.
  - apply in_or_app. left. exact Hin.
  - unfold WalletRepository.replaceById. apply in_map_iff. exists x.
    split; [|exact Hin]. cbn [withStreamId Wallet.id].
    apply Nat.eqb_neq in Hne. rewrite Hne. reflexivity.
  - apply in_or_app. left. exact Hin.
Qed.

(** X21.  [remove_wallet] only ever touches a wallet of the chat that sent the
    command.  Under the constraints of the table and whatever the store,
    the Streams API and the text do: every row of another chat is still
    there afterwards, unchanged, and every row that is there afterwards was
    there before, or is a row of the chat with its stream id cleared.  The
    command returns normally and leaves the transaction table alone. *)
Theorem remove_wallet_touches_only_the_chat (chat : Z) (text : string) (bw : BotWorld) :
  WellKeyed (wallets (world bw)) ->
  let out := TelegramCommands.remove_wallet BE chat text bw in
  fst out = Done tt
  /\ sameLedger bw (snd out)
  /\ (forall x, In x (wallets (world bw)) -> Wallet.chatId x <> chat ->
      In x (wallets (world (snd out))))
  /\ (forall x', In x' (wallets (world (snd out))) ->
      In x' (wallets (world bw))
      \/ exists x, In x (wallets (world bw)) /\ Wallet.chatId x = chat
                   /\ x' = withStreamId None x).
Proof.
  intros (Hnd & Hnz & _) out. subst out.
  unfold TelegramCommands.remove_wallet.
  destruct (TelegramCommands.argument text) as [[|c r]|];
    try (unfold reply; cbn [fst snd emitB world];
         split; [reflexivity|split; [split; reflexivity|split; auto]]).
  set (address := String c r).
  unfold attempt at 1 3 5 7, andThen at 1 4 7 10,
    WalletRepository.findOneByAddressAndChat, WalletRepository.read.
  destruct (walletReadFails BE bw);
    [unfold reply; cbn [fst snd emitB world];
     split; [reflexivity|split; [split; reflexivity|split; auto]]|].
  destruct (find _ (wallets (world bw))) as [wallet|] eqn:Hfind;
    [|unfold reply; cbn [fst snd emitB world];
      split; [reflexivity|split; [split; reflexivity|split; auto]]].
  apply find_some in Hfind. destruct Hfind as [Hin Hmatch].
  apply andb_prop in Hmatch. destruct Hmatch as [_ Hchat]. apply Z.eqb_eq in Hchat.
  assert (Hid : Wallet.id wallet <> 0%nat)
    by (apply (proj1 (Forall_forall _ _) Hnz wallet Hin)).
  unfold andThen. rewrite !attempt_unit.
  set (bwd := snd (BscTrackerStreams.deleteStreamForWallet BE wallet bw)).
  pose proof (deleteStreamForWallet_ledger wallet bw) as Hl. fold bwd in Hl.
  pose proof (fun x => deleteStreamForWallet_rows wallet x bw Hid) as Hrows.
  fold bwd in Hrows.
  pose proof (fun x => deleteStreamForWallet_keeps wallet x bw) as Hkeeps.
  fold bwd in Hkeeps.
  assert (Hother : forall x, In x (wallets (world bw)) -> Wallet.chatId x <> chat ->
                   Wallet.id x <> Wallet.id wallet).
  { intros x Hx Hxc Hxid. apply Hxc.
    rewrite (NoDup_map_injective Wallet.id _ x wallet Hnd Hx Hin Hxid). exact Hchat. }
  assert (Hback : forall x', In x' (wallets (world bwd)) ->
                  In x' (wallets (world bw))
                  \/ exists x, In x (wallets (world bw)) /\ Wallet.chatId x = chat
                               /\ x' = withStreamId None x).
  { intros x' Hx'. destruct (Hrows x' Hx') as [H | H]; [left; exact H|].
    right. exists wallet. auto. }
  unfold WalletRepository.remove.
  destruct (walletRemoveFails BE bwd wallet); unfold reply;
    cbn [fst snd emitB world withWallets wallets].
  - split; [reflexivity|]. split; [exact Hl|]. split; [|exact Hback].
    intros x Hx Hxc. apply Hkeeps; [exact Hx|apply Hother; assumption].
  - split; [reflexivity|]. split; [destruct Hl; split; assumption|]. split.
    + intros x Hx Hxc. unfold WalletRepository.removeById. apply filter_In.
      split; [apply Hkeeps; [exact Hx|apply Hother; assumption]|].
      apply negb_true_iff. apply Nat.eqb_neq. apply Hother; assumption.
    + intros x' Hx'. unfold WalletRepository.removeById in Hx'.
      apply filter_In in Hx'. apply Hback. tauto.
Qed.

Lemma find_all_false {A} (f : A -> bool) (l : list A) :
  (forall x, In x l -> f x = false) -> find f l = None.
Proof.
  induction l as [|x l IH]; intros H; [reflexivity|].
  cbn [find]. rewrite (H x (or_introl eq_refl)). apply IH.
  intros y Hy. apply H. right. exact Hy.
Qed.

(** X22.  Removing a wallet.  When the chat owns a wallet with the lower-cased
    address and the store answers the lookup and accepts the removal, the
    wallet is gone afterwards: no row holds the address any more, and the
    reply confirms the removal.  This does not depend on the Streams API:
    a stream that could not be deleted does not keep the wallet. *)
Theorem remove_wallet_removes_the_wallet
    (chat : Z) (text address : string) (wallet : Wallet.t) (bw : BotWorld) :
  WellKeyed (wallets (world bw)) ->
  TelegramCommands.argument text = Some address ->
  address <> "" ->
  walletReadFails BE bw = false ->
  find (fun x => String.eqb (Wallet.address x) (toLowerCase rt address)
                 && Z.eqb (Wallet.chatId x) chat) (wallets (world bw)) = Some wallet ->
  (forall bw0, walletRemoveFails BE bw0 wallet = false) ->
  let bw' := snd (TelegramCommands.remove_wallet BE chat text bw) in
  find (fun x => String.eqb (Wallet.address x) (toLowerCase rt address))
    (wallets (world bw')) = None
  /\ WalletRepository.hasId (Wallet.id wallet) (wallets (world bw')) = false
  /\ hd_error (botTrace bw')
     = Some (Reply chat ("Кошелек " ++ address ++ " успешно удален")).
Proof.
  intros (Hnd & Hnz & Hna) Harg Hne Hread Hfind Hremove bw'. subst bw'.
  set (bwd := snd (BscTrackerStreams.deleteStreamForWallet BE wallet bw)).
  assert (Hcmd : TelegramCommands.remove_wallet BE chat text bw
                 = (Done tt,
                    emitB (Reply chat ("Кошелек " ++ address ++ " успешно удален"))
                      (emitB (RemoveWallet wallet)
                         (withWallets
                            (WalletRepository.removeById (Wallet.id wallet)
                               (wallets (world bwd))) bwd)))).
  { unfold TelegramCommands.remove_wallet. rewrite Harg.
    destruct address as [|c r]; [contradiction|].
    unfold attempt at 1, andThen at 1, WalletRepository.findOneByAddressAndChat,
      WalletRepository.read. fold rt.
    rewrite Hread, Hfind. unfold andThen at 1. rewrite attempt_unit. fold bwd.
    unfold andThen at 1, WalletRepository.remove. rewrite Hremove. reflexivity. }
  rewrite Hcmd. cbn [snd emitB world withWallets wallets botTrace hd_error].
  pose proof (find_some _ _ Hfind) as [Hin Hmatch].
  apply andb_prop in Hmatch. destruct Hmatch as [Haddr _].
  apply String.eqb_eq in Haddr.
  assert (Hid : Wallet.id wallet <> 0%nat)
    by (apply (proj1 (Forall_forall _ _) Hnz wallet Hin)).
  split; [|split; [|reflexivity]].
  - apply find_all_false. intros x Hx.
    unfold WalletRepository.removeById in Hx. apply filter_In in Hx.
    destruct Hx as [Hx Hxid]. apply negb_true_iff in Hxid. apply Nat.eqb_neq in Hxid.
    destruct (deleteStreamForWallet_rows wallet x bw Hid Hx) as [Hx0 | ->];
      [|exfalso; apply Hxid; reflexivity].
    destruct (String.eqb (Wallet.address x) (toLowerCase rt address)) eqn:Hxa;
      [|reflexivity].
    apply String.eqb_eq in Hxa. exfalso. apply Hxid.
    rewrite (NoDup_map_injective Wallet.address _ x wallet Hna Hx0 Hin); congruence.
  - unfold WalletRepository.hasId.
    destruct (existsb _ _) eqn:Hex; [|reflexivity].
    apply existsb_exists in Hex. destruct Hex as (x & Hx & Hxid).
    unfold WalletRepository.removeById in Hx. apply filter_In in Hx.
    destruct Hx as [_ Hx]. rewrite Hxid in Hx. discriminate Hx.
Qed.

Lemma deleteStreamForWallet_streamsAdded (wallet : Wallet.t) (bw : BotWorld) :
  streamsAdded (snd (BscTrackerStreams.deleteStreamForWallet BE wallet bw))
  = streamsAdded bw.
Proof.
  rewrite deleteStreamForWallet_run. cbn [snd].
  destruct (Wallet.streamId wallet) as [[|c r]|]; try reflexivity.
  cbv zeta. destruct (streamsDelete BE bw _); [|reflexivity].
  destruct (save_botTrace BE (withStreamId None wallet)
              (emitB (StreamsDelete (String c r)) bw)) as (events & Htr & Hev).
  unfold streamsAdded. rewrite Htr, filter_app, length_app,
    (walletWrites_no_StreamsAdd _ Hev). reflexivity.
Qed.

Lemma recreateEach_run (l : list Wallet.t) (successCount errorCount : nat)
    (bw : BotWorld) :
  exists s e bw',
    TelegramCommands.recreateEach BE l successCount errorCount bw = (Done (s, e), bw')
    /\ (s + e = successCount + errorCount + List.length l)%nat
    /\ sameLedger bw bw'
    /\ streamsAdded bw'
       = (streamsAdded bw
          + if BscTrackerStreams.baseUrlSet BE then List.length l else 0)%nat.
Proof.
  revert successCount errorCount bw.
  induction l as [|wallet l IH]; intros successCount errorCount bw.
  - exists successCount, errorCount, bw. cbn [TelegramCommands.recreateEach List.length].
    split; [reflexivity|]. split; [lia|]. split; [apply sameLedger_refl|].
    destruct (BscTrackerStreams.baseUrlSet BE); lia.
  - cbn [TelegramCommands.recreateEach]. unfold andThen at 1, attempt at 1.
    set (bwd := snd ((if hasStream wallet
                      then BscTrackerStreams.deleteStreamForWallet BE wallet
                      else done tt) bw)).
    assert (Hdel : (if hasStream wallet
                    then BscTrackerStreams.deleteStreamForWallet BE wallet
                    else done tt) bw = (Done tt, bwd)).
    { unfold bwd. destruct (hasStream wallet); [|reflexivity].
      rewrite deleteStreamForWallet_run. reflexivity. }
    assert (Hdl : sameLedger bw bwd).
    { unfold bwd. destruct (hasStream wallet); [|apply sameLedger_refl].
      apply deleteStreamForWallet_ledger. }
    assert (Hds : streamsAdded bwd = streamsAdded bw).
    { unfold bwd. destruct (hasStream wallet); [|reflexivity].
      apply deleteStreamForWallet_streamsAdded. }
    unfold andThen at 1. rewrite Hdel. unfold andThen at 1.
    pose proof (createStreamForWallet_ledger BE wallet bwd) as Hcl.
    pose proof (createStreamForWallet_streamsAdded BE wallet bwd) as Hcs.
    destruct (BscTrackerStreams.createStreamForWallet BE wallet bwd) as [[[]|err] bwc];
      cbn [snd] in *; unfold done at 1.
    + destruct (IH (S successCount) errorCount bwc) as (s & e & bw' & Hrun & Hsum & Hl & Hs).
      exists s, e, bw'. split; [exact Hrun|]. cbn [List.length].
      split; [lia|]. split.
      * apply (sameLedger_trans _ bwc); [|exact Hl].
        apply (sameLedger_trans _ bwd); assumption.
      * rewrite Hs, Hcs, Hds. destruct (BscTrackerStreams.baseUrlSet BE); lia.
    + destruct (IH successCount (S errorCount) bwc) as (s & e & bw' & Hrun & Hsum & Hl & Hs).
      exists s, e, bw'. split; [exact Hrun|]. cbn [List.length].
      split; [lia|]. split.
      * apply (sameLedger_trans _ bwc); [|exact Hl].
        apply (sameLedger_trans _ bwd); assumption.
      * rewrite Hs, Hcs, Hds. destruct (BscTrackerStreams.baseUrlSet BE); lia.
Qed.

(** X23.  [recreate_streams] accounts for every active wallet of the chat: once
    the wallet table has been read, the report it ends with gives a number
    of successes and a number of errors that add up to the number of
    active wallets of the chat, and exactly one stream was requested for
    each of them (none when [WEBHOOK_BASE_URL] is not set).  The command
    returns normally and leaves the transaction table alone. *)
Theorem recreate_streams_accounts_for_every_active_wallet (chat : Z) (bw : BotWorld) :
  walletReadFails BE (emitB (Reply chat "Пересоздание стримов...") bw) = false ->
  let n := List.length (filter (fun x => Z.eqb (Wallet.chatId x) chat && Wallet.isActive x)
                          (wallets (world bw))) in
  n <> 0%nat ->
  let out := TelegramCommands.recreate_streams BE chat bw in
  fst out = Done tt
  /\ sameLedger bw (snd out)
  /\ streamsAdded (snd out)
     = (streamsAdded bw + if BscTrackerStreams.baseUrlSet BE then n else 0)%nat
  /\ exists successCount errorCount,
       (successCount + errorCount = n)%nat
       /\ hd_error (botTrace (snd out))
          = Some (Reply chat (recreateReport successCount errorCount)).
Proof.
  intros Hread n Hn out. subst out.
  set (bw0 := emitB (Reply chat "Пересоздание стримов...") bw) in *.
  set (l := filter (fun x => Z.eqb (Wallet.chatId x) chat && Wallet.isActive x)
              (wallets (world bw))) in *.
  destruct (recreateEach_run l 0 0 bw0) as (s & e & bw1 & Hrun & Hsum & Hl & Hs).
  assert (Hcmd : TelegramCommands.recreate_streams BE chat bw
                 = (Done tt, emitB (Reply chat (recreateReport s e)) bw1)).
  { unfold TelegramCommands.recreate_streams.
    unfold attempt at 1, andThen at 1, reply at 1. fold bw0.
    unfold andThen at 1, WalletRepository.findActiveByChat, WalletRepository.read.
    rewrite Hread. change (wallets (world bw0)) with (wallets (world bw)). fold l.
    apply Nat.eqb_neq in Hn. unfold n in Hn. rewrite Hn.
    unfold andThen at 1. rewrite Hrun. reflexivity. }
  rewrite Hcmd. cbn [fst snd emitB world botTrace hd_error].
  split; [reflexivity|]. split; [exact Hl|]. split.
  - unfold streamsAdded in *. cbn [emitB botTrace filter isStreamsAdd] in *.
    rewrite Hs. reflexivity.
  - exists s, e. split; [|reflexivity]. unfold n. simpl in Hsum. exact Hsum.
Qed.

End Commands.

Ltac sampleKeyed :=
  unfold WellKeyed; simpl;
  repeat split;
  repeat (first [ apply NoDup_nil
                | apply NoDup_cons; [simpl; intuition discriminate|]
                | apply Forall_nil
                | apply Forall_cons; [discriminate|] ]).

Lemma add_wallet_registers_the_wallet_witness :
  exists x,
    find (fun y => String.eqb (Wallet.address y)
                     "0x3333333333333333333333333333333333333abc")
      (wallets (world (snd (TelegramCommands.add_wallet BotSample.botEnvStreamsDown 42
                              "/add_wallet 0x3333333333333333333333333333333333333ABC"
                              BotSample.twoChats)))) = Some x
    /\ Wallet.chatId x = 42%Z
    /\ Wallet.isActive x = true
    /\ Wallet.streamId x = None.
Proof.
  destruct (add_wallet_registers_the_wallet BotSample.botEnvStreamsDown 42
              "/add_wallet 0x3333333333333333333333333333333333333ABC"
              "0x3333333333333333333333333333333333333ABC" BotSample.twoChats
              eq_refl eq_refl eq_refl eq_refl eq_refl)
    as (x & Hfind & Hid & Hchat & Hthr & Hact & Hs & Hreply).
  - discriminate.
  - reflexivity.
  - exists x. split; [exact Hfind|]. split; [exact Hchat|]. split; [exact Hact|].
    destruct Hs as [Hs | (id & _ & Hin)]; [exact Hs|].
    exfalso. vm_compute in Hin. intuition discriminate.
Defined.

Lemma set_threshold_touches_only_the_chat_witness :
  Forall2 (fun x x' =>
             x' = x
             \/ (Wallet.chatId x = 42%Z
                 /\ x' = withThresholdUsd
                           (TelegramCommands.amountOf BotSample.botEnv "/set_threshold 250") x
                 /\ TelegramCommands.isNaN
                      (TelegramCommands.amountOf BotSample.botEnv "/set_threshold 250")
                    = false
                 /\ PrimFloat.leb
                      (TelegramCommands.amountOf BotSample.botEnv "/set_threshold 250")
                      PrimFloat.zero = false))
    (wallets (world BotSample.twoChats))
    (wallets (world (snd (TelegramCommands.set_threshold BotSample.botEnv 42
                            "/set_threshold 250" BotSample.twoChats)))).
Proof.
  assert (Hk : WellKeyed (wallets (world BotSample.twoChats))) by sampleKeyed.
  exact (proj2 (proj2 (set_threshold_touches_only_the_chat BotSample.botEnv 42
                         "/set_threshold 250" BotSample.twoChats Hk))).
Defined.

Lemma set_threshold_updates_every_wallet_of_the_chat_witness :
  map Wallet.thresholdUsd
    (wallets (world (snd (TelegramCommands.set_threshold BotSample.botEnv 42
                            "/set_threshold 250" BotSample.twoChats))))
  = [numberOfZ 250; numberOfZ 500].
Proof.
  assert (Hk : WellKeyed (wallets (world BotSample.twoChats))) by sampleKeyed.
  assert (Hx : exists x, In x (wallets (world BotSample.twoChats))
                         /\ Wallet.chatId x = 42%Z).
  { exists Sample.wallet. split; [left; reflexivity|reflexivity]. }
  destruct (set_threshold_updates_every_wallet_of_the_chat BotSample.botEnv 42
              "/set_threshold 250" BotSample.twoChats Hk
              (fun _ _ => eq_refl) eq_refl eq_refl eq_refl Hx) as [Hrows _].
  rewrite Hrows. vm_compute. reflexivity.
Defined.

Lemma remove_wallet_touches_only_the_chat_witness :
  In BotSample.otherWallet
    (wallets (world (snd (TelegramCommands.remove_wallet BotSample.botEnv 42
                            ("/remove_wallet " ++ BotSample.otherAddress)
                            BotSample.twoChats)))).
Proof.
  assert (Hk : WellKeyed (wallets (world BotSample.twoChats))) by sampleKeyed.
  destruct (remove_wallet_touches_only_the_chat BotSample.botEnv 42
              ("/remove_wallet " ++ BotSample.otherAddress) BotSample.twoChats Hk)
    as (_ & _ & Hkeep & _).
  apply Hkeep; [right; left; reflexivity|discriminate].
Defined.

Lemma remove_wallet_removes_the_wallet_witness :
  find (fun x => String.eqb (Wallet.address x) Sample.walletAddress)
    (wallets (world (snd (TelegramCommands.remove_wallet BotSample.botEnvStreamsDown 42
                            "/remove_wallet 0x1111111111111111111111111111111111111ABC"
                            BotSample.twoChats)))) = None.
Proof.
  assert (Hk : WellKeyed (wallets (world BotSample.twoChats))) by sampleKeyed.
  assert (Hne : "0x1111111111111111111111111111111111111ABC" <> "") by discriminate.
  exact (proj1 (remove_wallet_removes_the_wallet BotSample.botEnvStreamsDown 42
                  "/remove_wallet 0x1111111111111111111111111111111111111ABC"
                  "0x1111111111111111111111111111111111111ABC" Sample.wallet
                  BotSample.twoChats Hk eq_refl Hne eq_refl eq_refl
                  (fun _ => eq_refl))).
Defined.

Lemma recreate_streams_accounts_for_every_active_wallet_witness :
  exists successCount errorCount,
    (successCount + errorCount = 1)%nat
    /\ hd_error (botTrace (snd (TelegramCommands.recreate_streams
                                  BotSample.botEnvStreamsDown 42 BotSample.twoChats)))
       = Some (Reply 42 (recreateReport successCount errorCount)).
Proof.
  assert (Hn : List.length
                 (filter (fun x => Z.eqb (Wallet.chatId x) 42 && Wallet.isActive x)
                    (wallets (world BotSample.twoChats))) <> 0%nat) by discriminate.
  destruct (recreate_streams_accounts_for_every_active_wallet
              BotSample.botEnvStreamsDown 42 BotSample.twoChats eq_refl Hn)
    as (_ & _ & _ & s & e & Hsum & Hreply).
  exists s, e. split; [exact Hsum|exact Hreply].
Defined.

(* ------------------------------------------------------------------ *)
(** * The response of the endpoint and the normal course                *)
(* ------------------------------------------------------------------ *)

Section Course.

Variable E : Env.

Let rt := runtime E.

(** X24.  The endpoint acknowledges whatever the processing does.  When the
    log lines of the controller can be written - the count of structured
    transfers, the flag [confirmed] and the stream identifier print, and
    the first structured transfer, if there is one, is neither [null] nor
    [undefined] and the four fields shown of it print - the caller receives
    200 with [{status: "ok"}], and the world is the one the processing
    left, also when the processing threw half-way. *)
Theorem acknowledged_whatever_the_processing_does (body : JsValue) (w : World) :
  Loggable E body ->
  WebhookController.deliver E body w
  = (acknowledged, snd (BscTrackerService.handleWebhookEvent E body w)).
Proof.
  intros Hlog.
  unfold WebhookController.deliver, WebhookController.handleMoralisWebhook.
  rewrite (logDelivery_Ok E body Hlog). cbn [resBind].
  unfold WebhookController.deferred. rewrite tryCatch_snd. reflexivity.
Qed.

(** X25.  A delivery whose [erc20Transfers] has a positive length and a first
    entry that is [null] or [undefined] is answered with the 500 of the
    framework, and none of it is processed: not the later transfers, not
    the logs. *)
Theorem nullish_first_transfer_is_answered_500 (body : JsValue) (w : World) :
  gtZero rt (optGet (optGet body "erc20Transfers") "length") = Ok true ->
  nullish (member (optGet body "erc20Transfers") "0") = true ->
  WebhookController.deliver E body w = (WebhookController.internalServerError, w).
Proof.
  intros Hlen Hfirst.
  assert (Hundef : gtZero rt JsUndefined = Ok false) by reflexivity.
  assert (Hthrow : exists e, WebhookController.logDelivery E body = Throw e).
  { unfold WebhookController.logDelivery. fold rt.
    destruct (interpolate rt (jsOr _ _)) as [[]|e]; [|eexists; reflexivity]. cbn [resBind].
    destruct (interpolate rt (optGet body "confirmed")) as [[]|e]; [|eexists; reflexivity].
    cbn [resBind].
    destruct (interpolate rt (optGet body "streamId")) as [[]|e]; [|eexists; reflexivity].
    cbn [resBind]. rewrite Hlen. cbn [resBind].
    destruct (nullish body) eqn:Hb.
    { unfold optGet in Hlen. rewrite Hb in Hlen. cbn [nullish] in Hlen.
      rewrite Hundef in Hlen. discriminate Hlen. }
    unfold optGet in Hlen, Hfirst. rewrite Hb in Hlen, Hfirst.
    destruct (nullish (member body "erc20Transfers")) eqn:Ht;
      [rewrite Hundef in Hlen; discriminate Hlen|].
    rewrite (get_member _ _ Hb). cbn [resBind].
    rewrite (get_member _ _ Ht). cbn [resBind].
    rewrite (get_nullish _ _ Hfirst). eexists. reflexivity. }
  destruct Hthrow as [e He].
  unfold WebhookController.deliver, WebhookController.handleMoralisWebhook.
  rewrite He. reflexivity.
Qed.

(** X26.  The normal course of a structured transfer.  When the destination is
    a string under whose lower-cased form an active wallet is registered,
    the store answers the lookups, the hash is not in the table yet, the
    transfer reaches the valuation with an accepted record and the text of
    the alert can be put together, then [processERC20Transfer] returns
    normally, inserts the record of the transfer under the key of that
    wallet and sends the alert to the chat of that wallet. *)
Theorem monitored_transfer_is_recorded_and_alerted
    (transfer : JsValue) (destination : string) (wallet : Wallet.t) (w : World)
    (tokenAddress h : string) (v : Z) (amountFormatted : string) (price : float)
    (text : string) :
  jsOr (jsOr (member transfer "to") (member transfer "toAddress")) (JsString "")
  = JsString destination ->
  toLowerCase rt destination <> "" ->
  readFails E w = false ->
  find (fun x => String.eqb (Wallet.address x) (toLowerCase rt destination)) (wallets w)
  = Some wallet ->
  Wallet.isActive wallet = true ->
  Repository.findByHash h (transactions w) = None ->
  Recordable E transfer wallet w tokenAddress h v amountFormatted price ->
  let c := canonical E transfer in
  let r := inserted E c wallet tokenAddress h amountFormatted price w in
  alertText E c amountFormatted (Transaction.amountUsd r) = Ok text ->
  let w' := snd (BscTrackerService.processERC20Transfer E transfer w) in
  BscTrackerService.processERC20Transfer E transfer w
  = (Ok tt, handled E c r wallet tokenAddress w)
  /\ Transaction.txHash r = h
  /\ Transaction.walletId r = Wallet.id wallet
  /\ In (InsertTransaction r) (trace w')
  /\ In (SendMessage (Wallet.chatId wallet) text) (trace w')
  /\ exists row, In row (transactions w') /\ Transaction.txHash row = h.
Proof.
  intros Hto Hne Hread Hfind Hactive Hfresh Hrec c r Halert w'. subst w'.
  assert (Hrun : BscTrackerService.processERC20Transfer E transfer w
                 = (Ok tt, handled E c r wallet tokenAddress w)).
  { pose proof (handleTokenTransfer_run E transfer wallet w _ _ _ _ _ Hrec)
      as Hhandle.
    destruct Hrec as (Hn & Ht & Hc & Hq & Hf & Hp & Hh & Hw).
    unfold c. unfold BscTrackerService.processERC20Transfer.
    match goal with
    | |- tryCatch ?m _ w = ?res => assert (Hbody : m w = res)
    end.
    { rewrite bind_lift.
      rewrite !(get_member _ _ Hn), !orElse_Ok. rewrite Hto.
      rewrite bind_lift. cbn [callToLowerCase]. fold rt.
      assert (Htruthy : truthy (JsString (toLowerCase rt destination)) = true).
      { destruct (toLowerCase rt destination); [contradiction|reflexivity]. }
      rewrite Htruthy. cbn [negb].
      unfold bind at 1, Repository.findWallet. rewrite Hread, Hfind, Hactive.
      cbn [negb]. rewrite bind_lift.
      change (jsOr (member transfer "transactionHash") (member transfer "hash"))
        with (hash (canonical E transfer)).
      rewrite Ht. cbn [negb].
      unfold bind at 1, Repository.findTransaction. rewrite Hh, Hread, Hfresh.
      exact Hhandle. }
    rewrite (tryCatch_Ok _ _ _ tt); [exact Hbody|]. rewrite Hbody. reflexivity. }
  rewrite Hrun. cbn [snd].
  destruct (handled_records E c r wallet tokenAddress w)
    as (Hins & row & Hrow & _ & Hcases).
  destruct (handled_events E c r wallet tokenAddress text w Halert eq_refl)
    as (events & Htr & _ & Hsend & _).
  split; [reflexivity|]. split; [reflexivity|]. split; [reflexivity|].
  split; [exact Hins|]. split.
  - rewrite Htr. apply in_or_app. left. exact Hsend.
  - exists row. split; [exact Hrow|]. destruct Hcases as [-> | ->]; reflexivity.
Qed.

End Course.

Lemma acknowledged_whatever_the_processing_does_witness :
  Loggable Sample.env
    (Sample.delivery [Sample.smallTransfer; JsNull; Sample.largeTransfer])
  /\ fst (WebhookController.deliver Sample.env
            (Sample.delivery [Sample.smallTransfer; JsNull; Sample.largeTransfer])
            Sample.emptyWorld) = acknowledged
  /\ List.length
       (transactions
          (snd (WebhookController.deliver Sample.env
                  (Sample.delivery [Sample.smallTransfer; JsNull; Sample.largeTransfer])
                  Sample.emptyWorld))) = 1%nat.
Proof.
  assert (H : Loggable Sample.env
                (Sample.delivery [Sample.smallTransfer; JsNull; Sample.largeTransfer])).
  { unfold Loggable, Prints. cbv zeta.
    repeat split; try reflexivity; eexists; reflexivity. }
  split; [exact H|].
  rewrite (acknowledged_whatever_the_processing_does Sample.env
             (Sample.delivery [Sample.smallTransfer; JsNull; Sample.largeTransfer])
             Sample.emptyWorld H).
  split; [reflexivity|]. vm_compute. reflexivity.
Defined.

Lemma nullish_first_transfer_is_answered_500_witness :
  WebhookController.deliver Sample.env
    (Sample.delivery [JsNull; Sample.largeTransfer]) Sample.emptyWorld
  = (WebhookController.internalServerError, Sample.emptyWorld).
Proof.
  apply (nullish_first_transfer_is_answered_500 Sample.env
           (Sample.delivery [JsNull; Sample.largeTransfer]) Sample.emptyWorld).
  - vm_compute. reflexivity.
  - reflexivity.
Defined.

Lemma monitored_transfer_is_recorded_and_alerted_witness :
  Recordable Sample.env Sample.smallTransfer Sample.wallet Sample.emptyWorld
    "0x0e09fabb73bd3ade0a17ecc321fd13a19e81ce82" "0xaa01" 5000000000000000000 "5.0"
    (numberOfZ 2)
  /\ (exists text,
        alertText Sample.env (canonical Sample.env Sample.smallTransfer) "5.0"
          (numberOfZ 10) = Ok text
        /\ In (SendMessage 42 text)
             (trace (snd (BscTrackerService.processERC20Transfer Sample.env
                            Sample.smallTransfer Sample.emptyWorld))))
  /\ exists row,
       In row (transactions
                 (snd (BscTrackerService.processERC20Transfer Sample.env
                         Sample.smallTransfer Sample.emptyWorld)))
       /\ Transaction.txHash row = "0xaa01".
Proof.
  assert (Hrec : Recordable Sample.env Sample.smallTransfer Sample.wallet
                   Sample.emptyWorld "0x0e09fabb73bd3ade0a17ecc321fd13a19e81ce82"
                   "0xaa01" 5000000000000000000 "5.0" (numberOfZ 2)).
  { unfold Recordable. repeat split; vm_compute; reflexivity. }
  split; [exact Hrec|].
  assert (Hne : toLowerCase (runtime Sample.env)
                  "0x1111111111111111111111111111111111111ABC" <> "")
    by (vm_compute; discriminate).
  destruct (alertText Sample.env (canonical Sample.env Sample.smallTransfer) "5.0"
              (numberOfZ 10)) as [text|e] eqn:Ha; [|vm_compute in Ha; discriminate Ha].
  destruct (monitored_transfer_is_recorded_and_alerted Sample.env Sample.smallTransfer
              "0x1111111111111111111111111111111111111ABC" Sample.wallet
              Sample.emptyWorld "0x0e09fabb73bd3ade0a17ecc321fd13a19e81ce82"
              "0xaa01" 5000000000000000000 "5.0" (numberOfZ 2) text
              eq_refl Hne eq_refl eq_refl eq_refl eq_refl Hrec Ha)
    as (_ & _ & _ & _ & Hsend & Hrow).
  split; [exists text; split; [reflexivity|exact Hsend]|exact Hrow].
Defined.
